(** * UDCS Packer (U-Pack v2.0.0): a shallow embedding of the packaging stages

    The program is a single Python module, [UPack_v2.0.0.py].  Its stages
    ([meta_from_csv], [register_obj], [run_inventory], [run_bagit],
    [run_tar], [trans_manifest], [pre_pack]) are sequences of filesystem
    calls interleaved with dialog boxes; [run_procs] runs the selected
    ones in order, and [get_headers] fills the menu of ledger columns.
    The embedding below models

    - [os.path] on POSIX strings ([posixpath]);
    - the filesystem as a tree of named nodes, addressed by path strings;
    - every mutating call as an [Event] whose meaning is [apply_event], so
      that the state a crash would leave behind after any number of calls
      is the replay of a prefix of the event log;
    - dialogs, the UUID generator and the clock as oracles indexed by a
      counter kept in the state;
    - the libraries the program calls but does not define ([csv],
      [hashlib], [rdflib], [tarfile], [bagit], [mimetypes]) as type
      classes.

    The stages come first, each function under its own name; then a
    concrete environment and sample batches to run them on; then the
    facts about trees, paths and runs, and the properties of the stages;
    last, the runs of the stages on the sample batches. *)

From Stdlib Require Import String Ascii List Bool Arith Lia PeanoNat.
From Stdlib Require Import DecimalString.
Import ListNotations.
Local Open Scope string_scope.
Local Open Scope list_scope.

Set Implicit Arguments.
Set Warnings "-abstract-large-number".

(** Python's [+] on strings. *)
Infix "+++" := String.append (right associativity, at level 60).

(* ================================================================== *)
(** * Strings *)

Module Str.

Definition sep : ascii := "/"%char.
Definition extsep : ascii := "."%char.

Fixpoint all_char (c : ascii) (s : string) : bool :=
    match s with
    | EmptyString => true
    | String a r => Ascii.eqb a c && all_char c r
    end.

Fixpoint has_char (c : ascii) (s : string) : bool :=
    match s with
    | EmptyString => false
    | String a r => Ascii.eqb a c || has_char c r
    end.

Definition startswith_char (c : ascii) (s : string) : bool :=
    match s with
    | String a _ => Ascii.eqb a c
    | EmptyString => false
    end.

Fixpoint endswith_char (c : ascii) (s : string) : bool :=
    match s with
    | EmptyString => false
    | String a EmptyString => Ascii.eqb a c
    | String _ r => endswith_char c r
    end.

  (** [rsplit c s]: the text before and after the last [c] of [s]
      (Python's [s.rfind(c)], as the pair of slices around it). *)
Fixpoint rsplit (c : ascii) (s : string) : option (string * string) :=
    match s with
    | EmptyString => None
    | String a r =>
        match rsplit c r with
        | Some (h, t) => Some (String a h, t)
        | None => if Ascii.eqb a c then Some (EmptyString, r) else None
        end
    end.

  (** [s.rstrip(c)] *)
Fixpoint rstrip (c : ascii) (s : string) : string :=
    match s with
    | EmptyString => EmptyString
    | String a r =>
        match rstrip c r with
        | EmptyString => if Ascii.eqb a c then EmptyString else String a EmptyString
        | r' => String a r'
        end
    end.

  (** [s.split(c)] *)
Fixpoint split (c : ascii) (s : string) : list string :=
    match s with
    | EmptyString => [EmptyString]
    | String a r =>
        if Ascii.eqb a c then EmptyString :: split c r
        else match split c r with
             | w :: ws => String a w :: ws
             | [] => [String a EmptyString]
             end
    end.

  (** [sub in s] for strings. *)
Fixpoint contains (sub s : string) : bool :=
    String.prefix sub s ||
    match s with
    | EmptyString => false
    | String _ r => contains sub r
    end.

Fixpoint firstn (n : nat) (s : string) : string :=
    match n, s with
    | S k, String a r => String a (firstn k r)
    | _, _ => EmptyString
    end.

Fixpoint skipn (n : nat) (s : string) : string :=
    match n, s with
    | S k, String _ r => skipn k r
    | _, _ => s
    end.

Definition join_with (d : string) (l : list string) : string := String.concat d l.

End Str.

(* ================================================================== *)
(** * [os.path] (the POSIX flavour) *)

Module path.

  Import Str.

  (** [os.path.join(a, b)] *)
Definition join (a b : string) : string :=
    if startswith_char sep b then b
    else if (String.eqb a "" || endswith_char sep a)%bool then a +++ b
    else a +++ "/" +++ b.

  (** [os.path.split(p)] *)
Definition split (p : string) : string * string :=
    match rsplit sep p with
    | None => ("", p)
    | Some (h, t) =>
        let head := h +++ "/" in
        (if all_char sep head then head else rstrip sep head, t)
    end.

Definition dirname (p : string) : string := fst (split p).
Definition basename (p : string) : string := snd (split p).

  (** [os.path.splitext(p)]: the extension starts at the last dot of the
      last component, unless only dots precede it there. *)
Definition splitext_name (name : string) : string * string :=
    match rsplit extsep name with
    | None => (name, "")
    | Some (stem, ext) =>
        if all_char extsep stem then (name, "")
        else (stem, String extsep ext)
    end.

Definition splitext (p : string) : string * string :=
    match rsplit sep p with
    | None => splitext_name p
    | Some (h, t) =>
        let (stem, ext) := splitext_name t in
        (h +++ "/" +++ stem, ext)
    end.

  (** [os.path.normpath] on the list of components of an absolute path;
      the components are kept in reverse in [acc]. *)
Fixpoint norm_comps (acc : list string) (cs : list string) : list string :=
    match cs with
    | [] => List.rev acc
    | c :: r =>
        if (String.eqb c "" || String.eqb c ".")%bool then norm_comps acc r
        else if String.eqb c ".." then norm_comps (tl acc) r
        else norm_comps (c :: acc) r
    end.

  (** The components of [abspath(p)], the working directory being the
      root. *)
Definition abs_comps (p : string) : list string :=
    norm_comps [] (Str.split sep p).

Fixpoint strip_common (a b : list string) : list string * list string :=
    match a, b with
    | x :: a', y :: b' =>
        if String.eqb x y then strip_common a' b' else (a, b)
    | _, _ => (a, b)
    end.

  (** [os.path.relpath(p, start)] *)
Definition relpath (p start : string) : string :=
    let (s_rest, p_rest) := strip_common (abs_comps start) (abs_comps p) in
    match (repeat ".." (List.length s_rest) ++ p_rest)%list with
    | [] => "."
    | rel => Str.join_with "/" rel
    end.

End path.

(* ================================================================== *)
(** * The filesystem *)

(** A node is a regular file with its bytes or a directory with its
    entries in listing order.  Symbolic links are not modelled. *)
#[warnings="-register-all"]
Inductive node : Type :=
| File (data : string)
| Dir (entries : list (string * node)).

(** A canonical path: the names from the root down, without [.], [..]
    or empty components. *)
Definition cpath := list string.

Module FS.

Fixpoint assoc (name : string) (es : list (string * node)) : option node :=
    match es with
    | [] => None
    | (k, n) :: r => if String.eqb k name then Some n else assoc name r
    end.

  (** Replace (in place), add (at the end of the listing) or delete the
      entry [name]; a directory never lists a name twice. *)
Fixpoint set_entry (name : string) (v : option node)
           (es : list (string * node)) : list (string * node) :=
    match es with
    | [] => match v with Some n => [(name, n)] | None => [] end
    | (k, m) :: r =>
        if String.eqb k name
        then match v with
             | Some n => (k, n) :: set_entry name None r
             | None => set_entry name None r
             end
        else (k, m) :: set_entry name v r
    end.

Fixpoint get (n : node) (cp : cpath) : option node :=
    match cp with
    | [] => Some n
    | c :: r =>
        match n with
        | Dir es => match assoc c es with
                    | Some m => get m r
                    | None => None
                    end
        | File _ => None
        end
    end.

  (** [put n cp v]: the tree [n] with the node at [cp] replaced by [v]
      ([None] deletes it).  Every proper prefix of [cp] must be an
      existing directory. *)
Fixpoint put (n : node) (cp : cpath) (v : option node) : option node :=
    match cp with
    | [] => v
    | c :: r =>
        match n with
        | File _ => None
        | Dir es =>
            match r with
            | [] => Some (Dir (set_entry c v es))
            | _ :: _ =>
                match assoc c es with
                | None => None
                | Some m =>
                    match put m r v with
                    | Some m' => Some (Dir (set_entry c (Some m') es))
                    | None => None
                    end
                end
            end
        end
    end.

Definition is_dir (o : option node) : bool :=
    match o with Some (Dir _) => true | _ => false end.

Definition is_file (o : option node) : bool :=
    match o with Some (File _) => true | _ => false end.

Definition is_some (o : option node) : bool :=
    match o with Some _ => true | None => false end.

  (** The bytes of a regular file, [None] for a directory or nothing. *)
Definition content (o : option node) : option string :=
    match o with Some (File d) => Some d | _ => None end.

  (** Resolution of the components of a path string, left to right, from
      the canonical position [acc]: every component is looked up in a
      directory ([ENOTDIR], [ENOENT] otherwise); the last one need not
      exist. *)
Fixpoint canon_from (root : node) (acc : cpath) (cs : list string)
    : option cpath :=
    match cs with
    | [] => Some acc
    | c :: r =>
        if is_dir (get root acc) then
          if (String.eqb c "" || String.eqb c ".")%bool then canon_from root acc r
          else if String.eqb c ".." then canon_from root (removelast acc) r
          else canon_from root (acc ++ [c])%list r
        else None
    end.

  (** The working directory is the root, so relative and absolute paths
      resolve alike; the empty path names nothing. *)
Definition canon (root : node) (p : string) : option cpath :=
    if String.eqb p "" then None
    else canon_from root [] (Str.split Str.sep p).

Definition lookup (root : node) (p : string) : option node :=
    match canon root p with
    | Some cp => get root cp
    | None => None
    end.

  (** [os.path.exists], [os.path.isdir] *)
Definition exists_ (root : node) (p : string) : bool := is_some (lookup root p).
Definition isdir (root : node) (p : string) : bool := is_dir (lookup root p).

  (** The bytes of the regular file at [p], if there is one. *)
Definition file_at (root : node) (p : string) : option string :=
    content (lookup root p).

  (** [os.listdir] *)
Definition listdir (root : node) (p : string) : option (list string) :=
    match lookup root p with
    | Some (Dir es) => Some (map fst es)
    | _ => None
    end.

End FS.

(* ================================================================== *)
(** * Events: the calls that change or read the disk, and the dialogs *)

Inductive Event : Type :=
| EvTruncate (p : string)            (* [open(p, 'w')] *)
| EvOpenAppend (p : string)          (* [open(p, 'a')] *)
| EvAppend (p : string) (data : string)   (* [f.write(data)] on an open file *)
| EvMkdir (p : string)               (* [os.mkdir] *)
| EvRemove (p : string)              (* [os.remove] *)
| EvRename (src dst : string)        (* [os.rename] *)
| EvCopytree (src dst : string)      (* [shutil.copytree] *)
| EvRmtree (p : string)              (* [shutil.rmtree] *)
| EvOpenRead (p : string)            (* [open(p, 'r')], [open(p, 'rb')] *)
| EvRead (p : string) (n : nat) (data : string) (* [f.read(n)] returned [data] *)
| EvWarning (msg : string)           (* [messagebox.showwarning] *)
| EvAsk (msg : string) (answer : bool).   (* [messagebox.askyesno] *)

Module Sem.

  Import FS.

  (** A regular file is created or replaced at [p]. *)
Definition write_file (root : node) (p : string) (f : option string -> option string)
    : option node :=
    match canon root p with
    | None => None
    | Some cp =>
        match get root cp with
        | Some (Dir _) => None
        | o => match f (content o) with
               | Some d => put root cp (Some (File d))
               | None => None
               end
        end
    end.

Definition rename (root : node) (src dst : string) : option node :=
    match canon root src, canon root dst with
    | Some cs, Some cd =>
        match get root cs with
        | None => None
        | Some n =>
            if list_eq_dec string_dec cs cd then Some root
            else
              let ok :=
                match n, get root cd with
                | _, None => true
                | File _, Some (File _) => true
                | Dir _, Some (Dir []) => true
                | _, _ => false
                end in
              if ok then
                match put root cs None with
                | Some root1 => put root1 cd (Some n)
                | None => None
                end
              else None
        end
    | _, _ => None
    end.

  (** The disk after the call, [None] when the call raises [OSError]. *)
Definition apply_event (e : Event) (root : node) : option node :=
    match e with
    | EvTruncate p => write_file root p (fun _ => Some "")
    | EvOpenAppend p =>
        write_file root p (fun o => match o with Some d => Some d | None => Some "" end)
    | EvAppend p data =>
        write_file root p (fun o => match o with Some d => Some (d +++ data) | None => None end)
    | EvMkdir p =>
        match canon root p with
        | Some cp => match get root cp with
                     | None => put root cp (Some (Dir []))
                     | Some _ => None
                     end
        | None => None
        end
    | EvRemove p =>
        match canon root p with
        | Some cp => match get root cp with
                     | Some (File _) => put root cp None
                     | _ => None
                     end
        | None => None
        end
    | EvRename src dst => rename root src dst
    | EvCopytree src dst =>
        match lookup root src, canon root dst with
        | Some (Dir es), Some cd =>
            match get root cd with
            | None => put root cd (Some (Dir es))
            | Some _ => None
            end
        | _, _ => None
        end
    | EvRmtree p =>
        match canon root p with
        | Some cp => match get root cp with
                     | Some (Dir _) => put root cp None
                     | _ => None
                     end
        | None => None
        end
    | EvOpenRead p => if is_file (lookup root p) then Some root else None
    | EvRead _ _ _ => Some root
    | EvWarning _ => Some root
    | EvAsk _ _ => Some root
    end.

End Sem.

(* ================================================================== *)
(** * The outside world *)

(** What the run cannot decide: the operator's answers to the yes/no
    dialogs, the identifiers drawn by [uuid.uuid4()] and the clock read by
    [time.strftime], each as the sequence of values handed out. *)
Class Env : Type := {
  answer : nat -> bool;
  uuid4 : nat -> string;
  strftime_now : nat -> string
}.

(** [csv.reader] over the text of a file, and the text [csv.writer]
    produces for one row. *)
Class Csv : Type := {
  csv_reader : string -> list (list string);
  csv_writerow : list string -> string
}.

(** A [hashlib] algorithm: the accumulator, [update] and the raw
    [digest]. *)
Record HashAlg : Type := {
  h_state : Type;
  h_new : h_state;
  h_update : h_state -> string -> h_state;
  h_digest : h_state -> list nat
}.

Class Hashlib : Type := {
  hashlib_md5 : HashAlg;
  hashlib_sha3_256 : HashAlg
}.

(** The record [make_rdf] reads from a [metadata.csv] row. *)
Record MetaRecord : Type := {
  sysUUID : string;
  localID : string;
  deptName : string;
  persVTID : string;
  collName : string;
  description : string;
  objURI : string;
  collURI : string
}.

(** [rdflib]: the graph [make_rdf] builds, serialised as pretty XML. *)
Class Rdflib : Type := {
  serialize_pretty_xml : MetaRecord -> string
}.

(** [tarfile]: the bytes of an uncompressed archive holding the tree [n]
    under the name [arcname]. *)
Class Tarfile : Type := {
  tar_bytes : string -> node -> string
}.

(** [os.stat] fields other than the size, the local-time formatting of a
    timestamp, [mimetypes.guess_type], and the floating-point part of
    [convert_size]. *)
Record stat_result : Type := {
  st_mode : nat;
  st_ino : nat;
  st_dev : nat;
  st_nlink : nat;
  st_uid : nat;
  st_gid : nat;
  st_ctime : nat;
  st_mtime : nat;
  st_atime : nat
}.

Class Platform : Type := {
  os_stat : string -> stat_result;
  strftime_local : nat -> string;
  guess_type : string -> option string;
  round_size : nat -> string
}.

(* ================================================================== *)
(** * Running a stage: state, exceptions, log *)

Inductive exn : Type :=
| OSError | KeyError | IndexError | TypeError | ValueError | NameError.

(** Each step of the log keeps the disk as the call left it: the disk a
    crash right after that call would leave behind. *)
Record World : Type := mkWorld {
  w_fs : node;
  w_trace : list (Event * node);
  w_asked : nat;
  w_ids : nat;
  w_clock : nat
}.

Inductive Result (A : Type) : Type :=
| Ok (a : A) (w : World)
| Raise (e : exn) (w : World).
Arguments Raise {A} e w.

Definition M (A : Type) : Type := World -> Result A.

Definition ret {A} (a : A) : M A := fun w => Ok a w.

Definition bind {A B} (m : M A) (f : A -> M B) : M B :=
  fun w => match m w with
           | Ok a w' => f a w'
           | Raise e w' => Raise e w'
           end.

Definition raise {A} (e : exn) : M A := fun w => Raise e w.

Declare Scope M_scope.
Delimit Scope M_scope with M.
Notation "x <- m ;; k" := (bind m (fun x => k))
  (at level 61, m at next level, right associativity) : M_scope.
Notation "m ;; k" := (bind m (fun _ => k))
  (at level 61, right associativity) : M_scope.
Local Open Scope M_scope.

Fixpoint foldM {A B} (f : B -> A -> M A) (l : list B) (a : A) : M A :=
  match l with
  | [] => ret a
  | x :: r => a' <- f x a ;; foldM f r a'
  end.

Definition final_world {A} (r : Result A) : World :=
  match r with Ok _ w => w | Raise _ w => w end.

(** [str(n)], ['%d' % n] *)
Definition str_nat (n : nat) : string := NilZero.string_of_uint (Nat.to_uint n).

Section Primitives.

  Context {env : Env}.

  (** A call that changes or reads the disk, or a dialog. *)
Definition emit (e : Event) : M unit :=
    fun w =>
      match Sem.apply_event e (w_fs w) with
      | Some fs' =>
          Ok tt (mkWorld fs' (w_trace w ++ [(e, fs')]) (w_asked w) (w_ids w) (w_clock w))
      | None => Raise OSError w
      end.

Definition showwarning (msg : string) : M unit := emit (EvWarning msg).

Definition askyesno (msg : string) : M bool :=
    fun w =>
      let a := answer (w_asked w) in
      match emit (EvAsk msg a) w with
      | Ok _ w' =>
          Ok a (mkWorld (w_fs w') (w_trace w') (S (w_asked w')) (w_ids w') (w_clock w'))
      | Raise e w' => Raise e w'
      end.

Definition path_exists (p : string) : M bool :=
    fun w => Ok (FS.exists_ (w_fs w) p) w.

Definition path_isdir (p : string) : M bool :=
    fun w => Ok (FS.isdir (w_fs w) p) w.

Definition listdir (p : string) : M (list string) :=
    fun w => match FS.listdir (w_fs w) p with
             | Some l => Ok l w
             | None => Raise OSError w
             end.

  (** The node at [p], for the calls that read a whole tree. *)
Definition read_node (p : string) : M node :=
    fun w => match FS.lookup (w_fs w) p with
             | Some n => Ok n w
             | None => Raise OSError w
             end.

  (** [open(p, 'r')] followed by reading the text to its end. *)
Definition read_text (p : string) : M string :=
    emit (EvOpenRead p) ;;
    fun w => match FS.file_at (w_fs w) p with
             | Some d => Ok d w
             | None => Raise OSError w
             end.

Definition time_strftime : M string :=
    fun w => Ok (strftime_now (w_clock w))
                (mkWorld (w_fs w) (w_trace w) (w_asked w) (w_ids w) (S (w_clock w))).

Definition uuid_uuid4 : M string :=
    fun w => Ok (uuid4 (w_ids w))
                (mkWorld (w_fs w) (w_trace w) (w_asked w) (S (w_ids w)) (w_clock w)).

  (** The closing lines every stage shares: with further stages selected
      the operator is asked whether to go on (unless prompting is off),
      otherwise the count is shown. *)
Definition stage_end (moreopts prompting : nat) (msg : string) : M bool :=
    if negb (Nat.eqb moreopts 0) then
      if Nat.eqb prompting 0 then ret true
      else askyesno (msg +++ "

Proceed with the next action?")
    else
      showwarning msg ;; ret false.

End Primitives.

(** The events of a log, and the disks it went through. *)
Definition events (t : list (Event * node)) : list Event := map fst t.
Definition disks (t : list (Event * node)) : list node := map snd t.

(** The world a stage starts in. *)
Definition start (fs : node) : World := mkWorld fs [] 0 0 0.

(* ================================================================== *)
(** * Archiving: [run_tar] *)

Section RunTar.

  Context {env : Env} {tarlib : Tarfile}.

Record TarCounts : Type := {
    tarfiles : nat;
    alreadytar : nat;
    notfolder : nat
  }.

Definition tar_outfolder (tarfolder : string) : string :=
    fst (path.splitext tarfolder) +++ "-tarred".

Definition tar_outfile (outfolder i : string) : string :=
    path.join outfolder (fst (path.splitext i) +++ ".tar").

  (** [with tarfile.open(outfile, 'w') as newtar: newtar.add(infile, arcname=tarname)] *)
Definition tar_create (outfile infile tarname : string) : M unit :=
    emit (EvTruncate outfile) ;;
    n <- read_node infile ;;
    emit (EvAppend outfile (tar_bytes tarname n)).

  (** The body of [for i in listdir(tarfolder)]. *)
Definition run_tar_entry (tarfolder outfolder i : string) (c : TarCounts)
    : M TarCounts :=
    let infile := path.join tarfolder i in
    isd <- path_isdir infile ;;
    if isd then
      let outfile := tar_outfile outfolder i in
      ex <- path_exists outfile ;;
      if ex then
        showwarning ("The TAR file: 
'" +++ outfile +++ "'
already exists!
Tar archive not created.") ;;
        ret {| tarfiles := tarfiles c; alreadytar := alreadytar c + 1;
               notfolder := notfolder c |}
      else
        ex' <- path_exists outfile ;;
        if negb ex' then
          tar_create outfile infile (path.relpath infile tarfolder) ;;
          ret {| tarfiles := tarfiles c + 1; alreadytar := alreadytar c;
                 notfolder := notfolder c |}
        else ret c
    else
      ret {| tarfiles := tarfiles c; alreadytar := alreadytar c;
             notfolder := notfolder c + 1 |}.

  (** [run_tar] up to the end of its loop, with its three counters. *)
Definition run_tar_loop (tarfolder : string) : M TarCounts :=
    let outfolder := tar_outfolder tarfolder in
    ex <- path_exists outfolder ;;
    (if negb ex then emit (EvMkdir outfolder) else ret tt) ;;
    names <- listdir tarfolder ;;
    foldM (run_tar_entry tarfolder outfolder) names
          {| tarfiles := 0; alreadytar := 0; notfolder := 0 |}.

Definition run_tar (prompting : nat) (tarfolder : string) (moreopts5 : nat) : M bool :=
    c <- run_tar_loop tarfolder ;;
    (if negb (Nat.eqb (alreadytar c) 0) then
       showwarning ("The folder '" +++ tar_outfolder tarfolder +++ "' already contained "
                      +++ str_nat (alreadytar c) +++ " tar files which were skipped.")
     else ret tt) ;;
    stage_end moreopts5 prompting
              ("Created " +++ str_nat (tarfiles c) +++ " tar archives.").

End RunTar.

(* ================================================================== *)
(** * [csv.DictReader] and [csv.DictWriter] *)

Module DictCsv.

(** A row as [DictReader] yields it: the cells under the field names, in
    the order of the header ([None] where the row is shorter than the
    header), and the cells beyond the header, which Python keeps under
    the key [None]. *)
Record DictRow : Type := {
  dr_items : list (string * option string);
  dr_rest : list string
}.

Fixpoint zip_pad (hs : list string) (row : list string) : list (string * option string) :=
  match hs with
  | [] => []
  | h :: hs' =>
      match row with
      | [] => (h, None) :: zip_pad hs' []
      | c :: r => (h, Some c) :: zip_pad hs' r
      end
  end.

Definition dict_row (hs row : list string) : DictRow :=
  {| dr_items := zip_pad hs row; dr_rest := List.skipn (List.length hs) row |}.

(** [reader.fieldnames]: the first row of the file, [None] for an empty
    file. *)
Definition fieldnames (rows : list (list string)) : option (list string) :=
  match rows with
  | [] => None
  | h :: _ => Some h
  end.

Definition is_nil {A} (l : list A) : bool :=
  match l with [] => true | _ => false end.

(** [for row in reader]: the rows after the header, empty ones skipped. *)
Definition dict_rows (rows : list (list string)) : list DictRow :=
  match rows with
  | [] => []
  | h :: data => map (dict_row h) (filter (fun r => negb (is_nil r)) data)
  end.

(** [row[key]]: the outer [None] is a [KeyError]; of two fields of the
    same name the later one counts. *)
Fixpoint dict_get (key : string) (items : list (string * option string))
  : option (option string) :=
  match items with
  | [] => None
  | (k, v) :: r =>
      match dict_get key r with
      | Some v' => Some v'
      | None => if String.eqb k key then Some v else None
      end
  end.

(** [str(v)] *)
Definition str_value (v : option string) : string :=
  match v with Some s => s | None => "None" end.

(** The cell the writer produces for a value: [None] is written as the
    empty string. *)
Definition cell_value (v : option string) : string :=
  match v with Some s => s | None => "" end.

(** [DictWriter(f, fieldnames=hs)._dict_to_list(row)]: [None] when the
    row has a key that is no field name ([ValueError]). *)
Definition dict_to_list (hs : list string) (row : DictRow) : option (list string) :=
  if (negb (is_nil (dr_rest row)) ||
      negb (forallb (fun '(k, _) => existsb (String.eqb k) hs) (dr_items row)))%bool
  then None
  else Some (map (fun h => match dict_get h (dr_items row) with
                           | Some v => cell_value v
                           | None => ""
                           end) hs).

End DictCsv.

(* ================================================================== *)
(** * The Metadata stage: [make_rdf], [meta_from_csv], [create_meta] *)

Fixpoint list_eqb (a b : list string) : bool :=
  match a, b with
  | [], [] => true
  | x :: a', y :: b' => String.eqb x y && list_eqb a' b'
  | _, _ => false
  end.

Definition verifyHeadrs : list string :=
  ["System UUID"; "Local ID"; "Department Responsible"; "Person Responsible";
   "Collection"; "Brief Description"; "Object URI"; "Collection URI"].

(** [headers == verifyHeadrs], where [headers] is [None] for an empty
    file. *)
Definition headers_ok (headers : option (list string)) : bool :=
  match headers with
  | Some h => list_eqb h verifyHeadrs
  | None => false
  end.

Definition overwrite_msg : string :=
  "At least one 'metadata.csv' already
exists. Overwrite ALL of them?".

Definition bag_msg (foldname : string) : string :=
  "It appears that '" +++ foldname +++ "' is a bag.

Skip creating 'metadata.csv' for this one item?".

Definition bad_csv_msg : string :=
  "Your input CSV is not formatted correctly.

Quitting action.".

Section Metadata.

Context {env : Env} {csvlib : Csv} {rdflib : Rdflib}.

Import DictCsv.

(** The eight assignments in the body of [for row in reader2]. *)
Definition read_record (items : list (string * option string)) : option MetaRecord :=
  match dict_get "System UUID" items, dict_get "Local ID" items,
        dict_get "Department Responsible" items, dict_get "Person Responsible" items,
        dict_get "Collection" items, dict_get "Brief Description" items,
        dict_get "Object URI" items, dict_get "Collection URI" items with
  | Some a, Some b, Some c, Some d, Some e, Some f, Some g, Some h =>
      Some {| sysUUID := str_value a; localID := str_value b; deptName := str_value c;
              persVTID := str_value d; collName := str_value e;
              description := str_value f; objURI := str_value g;
              collURI := str_value h |}
  | _, _, _, _, _, _, _, _ => None
  end.

(** The loop over the rows of [metadata.csv]: the variables keep the
    values of the last row. *)
Fixpoint last_record (rows : list DictRow) (cur : option MetaRecord)
  : M (option MetaRecord) :=
  match rows with
  | [] => ret cur
  | r :: rest =>
      match read_record (dr_items r) with
      | Some m => last_record rest (Some m)
      | None => raise KeyError
      end
  end.

Definition make_rdf (metacsv : string) : M bool :=
  e <- path_exists metacsv ;;
  if negb e then
    showwarning "Error: The 'metadata.csv' was not found.
RDF file not created." ;;
    ret false
  else
    text <- read_text metacsv ;;
    cur <- last_record (dict_rows (csv_reader text)) None ;;
    match cur with
    | None => raise NameError
    | Some m =>
        let newrdf := path.join (path.dirname metacsv) "metadata.xml" in
        emit (EvTruncate newrdf) ;;
        emit (EvAppend newrdf (serialize_pretty_xml m)) ;;
        ret true
    end.

(** The local variables of [meta_from_csv] that live across rows. *)
Record MetaState : Type := {
  nfiles : nat;
  rfiles : nat;
  overwrite_all : bool;
  firstone : bool
}.

(** The [if skip1 == False:] block. *)
Definition write_meta (foldpath : string) (headers : list string) (row : DictRow)
           (s : MetaState) : M MetaState :=
  let metafile := path.join foldpath "metadata.csv" in
  emit (EvTruncate metafile) ;;
  emit (EvAppend metafile (csv_writerow headers)) ;;
  match dict_to_list headers row with
  | None => raise ValueError
  | Some cells =>
      emit (EvAppend metafile (csv_writerow cells)) ;;
      rdfok <- make_rdf metafile ;;
      ret {| nfiles := nfiles s + 1;
             rfiles := if rdfok then rfiles s + 1 else rfiles s;
             overwrite_all := overwrite_all s;
             firstone := firstone s |}
  end.

(** The body of [for row in reader] down to the last assignment of
    [skip1]: whether the row is skipped, and the two flags. *)
Definition meta_decide (fpath foldname : string) (s : MetaState) : M (bool * MetaState) :=
  let foldpath := path.join fpath foldname in
  there <- path_exists foldpath ;;
  let skip1 := negb there in
  isbag <- path_exists (path.join foldpath "data") ;;
  skip1 <- (if isbag then askyesno (bag_msg foldname) else ret skip1) ;;
  hasmeta <- path_exists (path.join foldpath "metadata.csv") ;;
  s <- (if (hasmeta && firstone s)%bool then
          a <- askyesno overwrite_msg ;;
          ret {| nfiles := nfiles s; rfiles := rfiles s;
                 overwrite_all := a; firstone := false |}
        else ret s) ;;
  hasmeta' <- path_exists (path.join foldpath "metadata.csv") ;;
  ret (if (hasmeta' && negb (overwrite_all s))%bool then true else skip1, s).

(** The body of [for row in reader]. *)
Definition meta_row (locids fpath : string) (headers : list string) (row : DictRow)
           (s : MetaState) : M MetaState :=
  match dict_get locids (dr_items row) with
  | None => raise KeyError
  | Some None => raise TypeError
  | Some (Some foldname) =>
      d <- meta_decide fpath foldname s ;;
      if negb (fst d) then write_meta (path.join fpath foldname) headers row (snd d)
      else ret (snd d)
  end.

Definition meta_from_csv (csvIn locids fpath : string) : M (nat * nat) :=
  text <- read_text csvIn ;;
  let rows := csv_reader text in
  let headers := fieldnames rows in
  if negb (headers_ok headers) then
    showwarning bad_csv_msg ;;
    ret (0, 0)
  else
    s <- foldM (meta_row locids fpath verifyHeadrs) (dict_rows rows)
               {| nfiles := 0; rfiles := 0; overwrite_all := false; firstone := true |} ;;
    ret (nfiles s, rfiles s).

Definition created_meta_msg (counts : nat * nat) : string :=
  "Created " +++ str_nat (fst counts) +++ " 'metadata.csv' and "
             +++ str_nat (snd counts) +++ " 'metadata.xml' files.".

Definition create_meta (prompting : nat) (folderpath myfile idcolname : string)
           (moreopts1 : nat) : M bool :=
  if String.eqb (snd (path.splitext myfile)) ".csv" then
    counts <- meta_from_csv myfile idcolname folderpath ;;
    stage_end moreopts1 prompting (created_meta_msg counts)
  else
    showwarning "The metadata source file must be CSV.
Quitting action." ;;
    ret false.

End Metadata.

(* ================================================================== *)
(** * Registration: [gen_ID], [register_obj] *)

Module Registration.

Record Counts : Type := {
  renamed : nat;
  rfiles : nat
}.

(** [lines[1][0] = newID]; [None] is an [IndexError]. *)
Definition set_identifier (newID : string) (lines : list (list string))
  : option (list (list string)) :=
  match lines with
  | header :: (_ :: cells) :: more => Some (header :: (newID :: cells) :: more)
  | _ => None
  end.

(** [lines[1][k]]; [None] is an [IndexError]. *)
Definition cell (lines : list (list string)) (k : nat) : option string :=
  match nth_error lines 1 with
  | Some row => nth_error row k
  | None => None
  end.

Definition log_header : list string := ["SysUID"; "LocalID"; "RegisDateTime"; "RegisPerson"].

Definition missing_meta_msg (metapath fo : string) : string :=
  "Could not find:
'" +++ metapath +++ "'.

Skipping registration of:
" +++ fo +++ ".".

Section Stage.

Context {env : Env} {csvlib : Csv} {rdflib : Rdflib}.

Definition gen_ID : M string :=
  u <- uuid_uuid4 ;;
  ret ("vtdata_" +++ u).

(** The [if not skip3:] block down to [make_rdf]: the new identifier is
    drawn, written into the record, logged, and the RDF rendering is
    replaced.  It returns the identifier and [rdfok]. *)
Definition register_update (logfile fopath : string) : M (string * bool) :=
  let metapath := path.join fopath "metadata.csv" in
  let oldrdf := path.join fopath "metadata.xml" in
  newID <- gen_ID ;;
  text <- read_text metapath ;;
  match set_identifier newID (csv_reader text) with
  | None => raise IndexError
  | Some lines =>
      match cell lines 1 with
      | None => raise IndexError
      | Some log2 =>
          log3 <- time_strftime ;;
          match cell lines 3 with
          | None => raise IndexError
          | Some log4 =>
              emit (EvOpenAppend logfile) ;;
              emit (EvAppend logfile (csv_writerow [newID; log2; log3; log4])) ;;
              emit (EvTruncate metapath) ;;
              foldM (fun row _ => emit (EvAppend metapath (csv_writerow row))) lines tt ;;
              hasrdf <- path_exists oldrdf ;;
              (if hasrdf then emit (EvRemove oldrdf) else ret tt) ;;
              rdfok <- make_rdf metapath ;;
              ret (newID, rdfok)
          end
      end
  end.

(** The body of [for fo in listdir(ofolder)]. *)
Definition register_entry (ofolder logfile fo : string) (c : Counts) : M Counts :=
  let fopath := path.join ofolder fo in
  isd <- path_isdir fopath ;;
  if negb isd then ret c
  else
    isd' <- path_isdir fopath ;;
    if isd' then
      let metapath := path.join fopath "metadata.csv" in
      hasmeta <- path_exists metapath ;;
      skip3 <- (if negb hasmeta then
                  showwarning (missing_meta_msg metapath fo) ;; ret true
                else ret false) ;;
      if negb skip3 then
        u <- register_update logfile fopath ;;
        let newpath := path.join (path.dirname fopath) (fst u) in
        emit (EvRename fopath newpath) ;;
        ret {| renamed := renamed c + 1;
               rfiles := if snd u then rfiles c + 1 else rfiles c |}
      else ret c
    else ret c.

(** [register_obj] up to the end of its loop. *)
Definition register_loop (ofolder : string) : M Counts :=
  let logfile := path.join ofolder "log4preservation.csv" in
  haslog <- path_exists logfile ;;
  (if negb haslog then
     emit (EvTruncate logfile) ;;
     emit (EvAppend logfile (csv_writerow log_header))
   else ret tt) ;;
  names <- listdir ofolder ;;
  foldM (register_entry ofolder logfile) names {| renamed := 0; rfiles := 0 |}.

Definition register_obj (prompting : nat) (ofolder : string) (moreopts2 : nat) : M bool :=
  c <- register_loop ofolder ;;
  stage_end moreopts2 prompting ("Registered " +++ str_nat (renamed c) +++ " objects.").

End Stage.

End Registration.

(* ================================================================== *)
(** * Checksums: [md5], [sha3hash] *)

Module Checksum.

(** [io.DEFAULT_BUFFER_SIZE] *)
Definition DEFAULT_BUFFER_SIZE : nat := 8192.

Definition hexdigit (n : nat) : ascii :=
  match n with
  | 0 => "0" | 1 => "1" | 2 => "2" | 3 => "3" | 4 => "4" | 5 => "5" | 6 => "6" | 7 => "7"
  | 8 => "8" | 9 => "9" | 10 => "a" | 11 => "b" | 12 => "c" | 13 => "d" | 14 => "e"
  | _ => "f"
  end%char.

(** [bytes.hex()]: two lowercase hexadecimal digits per byte. *)
Fixpoint hexlify (bytes : list nat) : string :=
  match bytes with
  | [] => ""
  | b :: r => String (hexdigit ((b mod 256) / 16)) (String (hexdigit (b mod 16)) (hexlify r))
  end.

(** [h.hexdigest()] *)
Definition hexdigest (alg : HashAlg) (st : h_state alg) : string :=
  hexlify (h_digest alg st).

(** The chunks [f.read(n)] returns before the empty one that ends the
    loop; [fuel] bounds their number by the number of bytes. *)
Fixpoint chunks_from (fuel n : nat) (rest : string) : list string :=
  match fuel with
  | 0 => []
  | S k =>
      match rest with
      | EmptyString => []
      | _ => Str.firstn n rest :: chunks_from k n (Str.skipn n rest)
      end
  end.

Definition chunks (n : nat) (data : string) : list string :=
  chunks_from (String.length data) n data.

Section Digests.

Context {env : Env} {hashlib : Hashlib}.

(** [with open(p, 'rb') as f: for chunk in iter(lambda: f.read(n), b''): h.update(chunk)]
    and then [return h.hexdigest()]. *)
Definition hash_file (alg : HashAlg) (n : nat) (p : string) : M string :=
  emit (EvOpenRead p) ;;
  data <- (fun w => match FS.file_at (w_fs w) p with
                    | Some d => Ok d w
                    | None => Raise OSError w
                    end) ;;
  st <- foldM (fun chunk st => emit (EvRead p n chunk) ;; ret (h_update alg st chunk))
              (chunks n data) (h_new alg) ;;
  emit (EvRead p n "") ;;
  ret (hexdigest alg st).

Definition md5 (finame : string) : M string :=
  hash_file hashlib_md5 4096 finame.

Definition sha3hash (filname : string) : M string :=
  hash_file hashlib_sha3_256 DEFAULT_BUFFER_SIZE filname.

End Digests.

End Checksum.

(* ================================================================== *)
(** * Inventory: [convert_size], [run_inventory] *)

Module Inventory.

Import Checksum.

(** The double quote. *)
Definition DQ : string := String (Ascii.ascii_of_nat 34) "".
Definition NL : string := String (Ascii.ascii_of_nat 10) "".

Definition manifest_header : string :=
  "No., Filename, Filesize, Filetype, C-Time, Modified, Accessed, MD5_Sum, SHA3_256, ChecksumDateTime, RelPath, => , mode, inode, device, enlink, user, group" +++ NL.

Definition manifest_trailer : string := "Comments, " +++ NL.

(** [os.walk(top)], top down, for the tree [n] found at [top]: one triple
    per directory, the subdirectories in listing order.  The loop of
    [run_inventory] removes only regular files of the directory it has
    just been handed, so the directories the generator scans later are
    as they were when the walk began. *)
Fixpoint walk (top : string) (n : node) : list (string * list string * list string) :=
  match n with
  | File _ => []
  | Dir es =>
      (top,
       map fst (filter (fun e => match snd e with Dir _ => true | File _ => false end) es),
       map fst (filter (fun e => match snd e with Dir _ => false | File _ => true end) es))
        :: flat_map (fun e => match snd e with
                              | Dir _ => walk (path.join top (fst e)) (snd e)
                              | File _ => []
                              end) es
  end.

(** The files of a walk, in the order the two nested loops visit them. *)
Definition walk_files (w : list (string * list string * list string))
  : list (string * string) :=
  flat_map (fun t => map (fun name => (fst (fst t), name)) (snd t)) w.

(** The two strings written for one file. *)
Definition row_head (rownum name csize filemime filectime modifdate accessdate
                     md5sum sha3sum runtime showpath : string) : string :=
  rownum +++ "," +++ DQ +++ name +++ DQ +++ "," +++ csize +++ "," +++
  DQ +++ filemime +++ DQ +++ "," +++ filectime +++ "," +++ modifdate +++ "," +++
  accessdate +++ "," +++ md5sum +++ "," +++ sha3sum +++ "," +++ runtime +++ "," +++
  DQ +++ showpath +++ DQ +++ ",".

Definition row_tail (filemode fileino filedevice filenlink fileuser filegroup : string)
  : string :=
  " ," +++ filemode +++ "," +++ fileino +++ "," +++ filedevice +++ "," +++
  filenlink +++ "," +++ fileuser +++ "," +++ filegroup +++ NL.

Definition bag_skip_msg (obj : string) : string :=
  "It appears that '" +++ obj +++ "' is a bag.
Skip this object?".

Definition has_manifest_msg (obj : string) : string :=
  "The file 'manifest.csv' already exists.
Skipping inventory of the object: 
'" +++ obj +++ "'".

Section Stage.

Context {env : Env} {hashlib : Hashlib} {platform : Platform}.

(** [convert_size]: the non-zero case is floating-point arithmetic, left
    to [round_size]. *)
Definition convert_size (size : nat) : string :=
  if Nat.eqb size 0 then "0B" else round_size size.

(** [os.stat(p)[6]], the size in bytes. *)
Definition stat_size (p : string) : M nat :=
  fun w => match FS.lookup (w_fs w) p with
           | Some (File d) => Ok (String.length d) w
           | Some (Dir es) => Ok (List.length es) w
           | None => Raise OSError w
           end.

(** The body of [for name in files]. *)
Definition inventory_file (temp workdir base name : string) (counter : nat) : M nat :=
  let filepathname := path.join base name in
  if String.eqb (path.basename filepathname) ".DS_Store" then
    emit (EvRemove filepathname) ;;
    ret counter
  else
    let counter := counter + 1 in
    let rownum := str_nat counter in
    filesize <- stat_size filepathname ;;
    let statinfo := os_stat filepathname in
    let csize := convert_size filesize in
    let filemime := match guess_type filepathname with Some t => t | None => "None" end in
    let filectime := strftime_local (st_ctime statinfo) in
    let modifdate := strftime_local (st_mtime statinfo) in
    let accessdate := strftime_local (st_atime statinfo) in
    md5sum <- md5 filepathname ;;
    sha3sum <- sha3hash filepathname ;;
    runtime <- time_strftime ;;
    let showpath := path.relpath filepathname workdir in
    emit (EvAppend temp (row_head rownum name csize filemime filectime modifdate
                                  accessdate md5sum sha3sum runtime showpath)) ;;
    emit (EvAppend temp (row_tail (str_nat (st_mode statinfo)) (str_nat (st_ino statinfo))
                                  (str_nat (st_dev statinfo)) (str_nat (st_nlink statinfo))
                                  (str_nat (st_uid statinfo)) (str_nat (st_gid statinfo)))) ;;
    ret counter.

(** [shutil.move(src, dst)] for a regular file [src] on the filesystem
    of [dst]: into [dst] if that is a directory, else onto it, by
    [os.rename]. *)
Definition shutil_move (src dst : string) : M unit :=
  isd <- path_isdir dst ;;
  if isd then
    let real_dst := path.join dst (path.basename src) in
    ex <- path_exists real_dst ;;
    if ex then raise OSError
    else emit (EvRename src real_dst)
  else emit (EvRename src dst).

(** The [if skipit == False:] block after [manifiles += 1]. *)
Definition inventory_object (indir objpath : string) : M unit :=
  let temp := path.join indir "temp_manifest.csv" in
  emit (EvTruncate temp) ;;
  emit (EvAppend temp manifest_header) ;;
  let workdir := path.dirname objpath in
  n <- read_node objpath ;;
  foldM (fun t counter =>
           foldM (inventory_file temp workdir (fst (fst t))) (snd t) counter)
        (walk objpath n) 0 ;;
  emit (EvAppend temp manifest_trailer) ;;
  let tomove := path.join (path.dirname objpath) "temp_manifest.csv" in
  let moveto := path.join objpath "manifest.csv" in
  shutil_move tomove moveto.

(** The tests that set [skipit]. *)
Definition inventory_skip (objpath obj : string) : M bool :=
  isd <- path_isdir objpath ;;
  if negb isd then ret true
  else
    isd' <- path_isdir objpath ;;
    if isd' then
      hasdata <- path_exists (path.join objpath "data") ;;
      skipit <- (if hasdata then askyesno (bag_skip_msg obj) else ret false) ;;
      hasmani <- path_exists (path.join objpath "manifest.csv") ;;
      if hasmani then
        showwarning (has_manifest_msg obj) ;;
        ret true
      else ret skipit
    else ret false.

(** The body of [for obj in listdir(indir)]. *)
Definition inventory_entry (indir obj : string) (manifiles : nat) : M nat :=
  let objpath := path.join indir obj in
  skipit <- inventory_skip objpath obj ;;
  if negb skipit then
    inventory_object indir objpath ;;
    ret (manifiles + 1)
  else ret manifiles.

(** [run_inventory] up to the end of its loop. *)
Definition inventory_loop (indir : string) : M nat :=
  names <- listdir indir ;;
  foldM (inventory_entry indir) names 0.

Definition run_inventory (prompting : nat) (indir : string) (moreopts3 : nat) : M bool :=
  manifiles <- inventory_loop indir ;;
  stage_end moreopts3 prompting
            ("Created " +++ str_nat manifiles +++ " 'manifest.csv' files.").

End Stage.

End Inventory.

(* ================================================================== *)
(** * Pre-pack restructuring: [pre_pack] *)

Module PrePack.

(** The body of [for thing in listdir(olditempath)]. *)
Definition pre_pack_thing (olditempath thing : string) : M unit :=
  let thingpath := path.join olditempath thing in
  if negb (String.eqb thing "temptemptemp") then
    isd <- path_isdir thingpath ;;
    if isd then emit (EvRmtree thingpath)
    else if negb (Str.contains "meta" thing) then emit (EvRemove thingpath)
    else ret tt
  else ret tt.

(** The body of [for item in listdir(packdir)]. *)
Definition pre_pack_item (packdir item : string) : M unit :=
  let olditempath := path.join packdir item in
  isd <- path_isdir olditempath ;;
  if isd then
    let newdirpath := path.join olditempath (path.basename olditempath) in
    let temppath := path.join olditempath "temptemptemp" in
    emit (EvCopytree olditempath temppath) ;;
    things <- listdir olditempath ;;
    foldM (fun thing _ => pre_pack_thing olditempath thing) things tt ;;
    emit (EvRename temppath newdirpath)
  else ret tt.

Definition pre_pack (packdir : string) : M string :=
  items <- listdir packdir ;;
  foldM (fun item _ => pre_pack_item packdir item) items tt ;;
  ret packdir.

End PrePack.

(* ================================================================== *)
(** * The transfer manifest: [trans_manifest] *)

(** The folder the operator picks in [askdirectory] (the empty string
    when the dialog is cancelled), as the sequence of the picks. *)
Class FileDialog : Type := {
  askdirectory : nat -> string
}.

(** [time.strftime("%m%d_%H%M%S")], as the sequence of the values read. *)
Class Stamp : Type := {
  strftime_mdHMS : nat -> string
}.

Module Transfer.

Import Checksum Inventory.

Definition tarred_question (askingdir : string) : string :=
  "Create manifest of '" +++ askingdir +++ "-tarred'?".

(** [indirectory + "-tarred"] *)
Definition tarred_dir (indirectory : string) : string := indirectory +++ "-tarred".

Definition missing_dir_msg (indir : string) : string :=
  "The directory: 
'" +++ indir +++ "'
 does not exist.

Cancelling action.".

(** ["Transfer_%s_%s.csv" % (path.basename(indir), stamp)] *)
Definition transfer_name (indir stamp : string) : string :=
  "Transfer_" +++ path.basename indir +++ "_" +++ stamp +++ ".csv".

(** ["%s, " % name + "%s\n" % sha3sum] *)
Definition transfer_line (name sha3sum : string) : string :=
  name +++ ", " +++ sha3sum +++ NL.

Section Stage.

Context {env : Env} {hashlib : Hashlib} {dialog : FileDialog} {stamp : Stamp}.

Definition ask_directory : M string :=
  fun w => Ok (askdirectory (w_asked w))
              (mkWorld (w_fs w) (w_trace w) (S (w_asked w)) (w_ids w) (w_clock w)).

Definition time_stamp : M string :=
  fun w => Ok (strftime_mdHMS (w_clock w))
              (mkWorld (w_fs w) (w_trace w) (w_asked w) (w_ids w) (S (w_clock w))).

(** The body of [for name in files]. *)
Definition transfer_file (compfile base name : string) : M unit :=
  let pathname := path.join base name in
  if String.eqb (path.basename pathname) ".DS_Store" then
    emit (EvRemove pathname)
  else
    sha3sum <- sha3hash pathname ;;
    emit (EvAppend compfile (transfer_line name sha3sum)).

Definition trans_manifest (indirectory : string) : M unit :=
  let askingdir :=
    path.join (path.basename (path.dirname indirectory)) (path.basename indirectory) in
  tardest <- askyesno (tarred_question askingdir) ;;
  indir <- (if tardest then ret (tarred_dir indirectory) else ask_directory) ;;
  ex <- path_exists indir ;;
  if negb ex then
    showwarning (missing_dir_msg indir)
  else
    let outdir := path.dirname indir in
    stamp <- time_stamp ;;
    let compfile := path.join outdir (transfer_name indir stamp) in
    emit (EvTruncate compfile) ;;
    n <- read_node indir ;;
    foldM (fun t _ =>
             foldM (fun name _ => transfer_file compfile (fst (fst t)) name) (snd t) tt)
          (walk indir n) tt ;;
    showwarning "Transfer Manifest Created.".

End Stage.

End Transfer.

(* ================================================================== *)
(** * The header menu: [get_headers] *)

Module Headers.

Definition placeholder_opts : list string := ["Select CSV"; "Then 'Refresh'"].

Section Menu.

Context {env : Env} {csvlib : Csv}.

(** [get_headers] for the text [csvfi] of the CSV entry.  It gives the
    value the identifier entry is set to, [opts[0]], and the labels the
    menu is rebuilt with. *)
Definition get_headers (csvfi : string) : M (string * list string) :=
  let csvpath := csvfi in
  ex <- path_exists csvpath ;;
  opts <- (if (ex && String.eqb (snd (path.splitext csvpath)) ".csv")%bool then
             text <- read_text csvfi ;;
             ret (DictCsv.fieldnames (csv_reader text))
           else ret (Some placeholder_opts)) ;;
  match opts with
  | None => raise TypeError
  | Some [] => raise IndexError
  | Some (first :: rest) => ret (first, first :: rest)
  end.

End Menu.

End Headers.

(* ================================================================== *)
(** * Bagging: [run_bagit] *)

(** [bagit]: [make_bag(inpath, checksums=['md5', 'sha512'])] and
    [is_valid()] of the bag made of [inpath], as calls on the world. *)
Class Bagit : Type := {
  make_bag : string -> M unit;
  is_valid : string -> M bool
}.

Module Bagging.

Record BagCounts : Type := {
  validbags : nat;
  totalbags : nat
}.

Definition already_bag_msg (f : string) : string :=
  "It appears that '" +++ f +++ "' is already a bag.
Bag it anyway?".

Definition invalid_bag_msg (f : string) : string :=
  "Bag '" +++ f +++ "' is not a valid bag.".

Section Stage.

Context {env : Env} {bagit : Bagit}.

(** The body of [for f in listdir(bagsdir)]. *)
Definition run_bagit_entry (bagsdir f : string) (c : BagCounts) : M BagCounts :=
  let inpath := path.join bagsdir f in
  isd <- path_isdir inpath ;;
  if isd then
    hasdata <- path_exists (path.join inpath "data") ;;
    cont <- (if hasdata then askyesno (already_bag_msg f) else ret true) ;;
    if cont then
      make_bag inpath ;;
      v <- is_valid inpath ;;
      if v then
        ret {| validbags := validbags c + 1; totalbags := totalbags c + 1 |}
      else
        v' <- is_valid inpath ;;
        (if negb v' then showwarning (invalid_bag_msg f) else ret tt) ;;
        ret {| validbags := validbags c; totalbags := totalbags c + 1 |}
    else ret c
  else ret c.

(** [run_bagit] up to the end of its loop. *)
Definition run_bagit_loop (bagsdir : string) : M BagCounts :=
  names <- listdir bagsdir ;;
  foldM (run_bagit_entry bagsdir) names {| validbags := 0; totalbags := 0 |}.

Definition run_bagit (prompting : nat) (bagsdir : string) (moreopts4 : nat) : M bool :=
  c <- run_bagit_loop bagsdir ;;
  stage_end moreopts4 prompting
            ("Created " +++ str_nat (totalbags c) +++ " total bags,
of which " +++ str_nat (validbags c) +++ " are valid.").

End Stage.

End Bagging.

(* ================================================================== *)
(** * The sequence of the stages: [run_procs] *)

Module Procs.

(** What [run_procs] reads from the window: the three entries, the six
    check boxes and the prompting box. *)
Record Form : Type := {
  e1 : string;
  e2 : string;
  e3 : string;
  metavar : nat;
  regisvar : nat;
  invenvar : nat;
  bagitvar : nat;
  tarvar : nat;
  transvar : nat;
  prompt : nat
}.

(** [for d in [...]: if d == 1: nselect += 1] *)
Definition count_selected (l : list nat) : nat :=
  fold_left (fun nselect d => if Nat.eqb d 1 then nselect + 1 else nselect) l 0.

Definition prepack_msg : string :=
  "Is this the first time running UDOF on THESE items?
(Clicking 'yes' will 'pre-package' them.)".

Definition folder_missing_msg (olditemsdir : string) : string :=
  "Items folder:
'" +++ olditemsdir +++ "'
not found.".

Definition csv_missing_msg (metainput : string) : string :=
  "CSV file:
'" +++ metainput +++ "'
not found. Stopping action.".

Section Stages.

Context {env : Env} {csvlib : Csv} {rdflib : Rdflib} {hashlib : Hashlib}
        {platform : Platform} {tarlib : Tarfile} {dialog : FileDialog} {stamp : Stamp}.

(** [self.run_bagit], with [self.prompting] as its first argument. *)
Variable bagging : nat -> string -> nat -> M bool.

Variable form : Form.

(** [# Make Transfer Manifest] *)
Definition from_transfer (itemsdir : string) : M unit :=
  if Nat.eqb (transvar form) 1 then Transfer.trans_manifest itemsdir else ret tt.

(** [# Run Tar] and what follows. *)
Definition from_tar (itemsdir : string) (nselect : nat) (runnext : bool) : M unit :=
  if Nat.eqb (tarvar form) 1 then
    let nselect := nselect - 1 in
    runnext <- run_tar (prompt form) itemsdir nselect ;;
    if negb runnext then ret tt else from_transfer itemsdir
  else from_transfer itemsdir.

(** [# Run BagIt] and what follows: the answer of [run_bagit] is not
    assigned, the test is on [runnext] as it was. *)
Definition from_bagit (itemsdir : string) (nselect : nat) (runnext : bool) : M unit :=
  if Nat.eqb (bagitvar form) 1 then
    let nselect := nselect - 1 in
    bagging (prompt form) itemsdir nselect ;;
    if negb runnext then ret tt else from_tar itemsdir nselect runnext
  else from_tar itemsdir nselect runnext.

(** [# Run Inventory] and what follows. *)
Definition from_inventory (itemsdir : string) (nselect : nat) (runnext : bool) : M unit :=
  if Nat.eqb (invenvar form) 1 then
    let nselect := nselect - 1 in
    runnext <- Inventory.run_inventory (prompt form) itemsdir nselect ;;
    if negb runnext then ret tt else from_bagit itemsdir nselect runnext
  else from_bagit itemsdir nselect runnext.

(** [# Assign UUID's and Register Objects] and what follows. *)
Definition from_registration (itemsdir : string) (nselect : nat) (runnext : bool) : M unit :=
  if Nat.eqb (regisvar form) 1 then
    let nselect := nselect - 1 in
    runnext <- Registration.register_obj (prompt form) itemsdir nselect ;;
    if negb runnext then ret tt else from_inventory itemsdir nselect runnext
  else from_inventory itemsdir nselect runnext.

(** [# Run CSV meta] and what follows. *)
Definition from_metadata (itemsdir : string) (nselect : nat) (runnext : bool) : M unit :=
  if Nat.eqb (metavar form) 1 then
    let nselect := nselect - 1 in
    let metainput := e2 form in
    let idcolumn := e3 form in
    if String.eqb metainput "" then
      showwarning "You must choose a CSV master metadata file."
    else
      ex <- path_exists metainput ;;
      if negb ex then showwarning (csv_missing_msg metainput)
      else if (String.eqb (snd (path.splitext metainput)) ".csv" && String.eqb idcolumn "")%bool
      then showwarning "You must choose the column of ID's in the CSV."
      else
        runnext <- create_meta (prompt form) itemsdir metainput idcolumn nselect ;;
        if negb runnext then ret tt else from_registration itemsdir nselect runnext
  else from_registration itemsdir nselect runnext.

Definition run_procs_with : M unit :=
  let runnext := true in
  let olditemsdir := e1 form in
  let nselect :=
    count_selected [metavar form; regisvar form; invenvar form; bagitvar form;
                    tarvar form; transvar form] in
  if String.eqb olditemsdir "" then
    showwarning "You must first select a folder."
  else
    ex <- path_exists olditemsdir ;;
    if negb ex then showwarning (folder_missing_msg olditemsdir)
    else if Nat.eqb nselect 0 then
      showwarning "You have not selected any 'Options'."
    else
      prepack <- askyesno prepack_msg ;;
      itemsdir <- (if negb prepack then ret olditemsdir
                   else PrePack.pre_pack olditemsdir) ;;
      from_metadata itemsdir nselect runnext.

End Stages.

Section Run.

Context {env : Env} {csvlib : Csv} {rdflib : Rdflib} {hashlib : Hashlib}
        {platform : Platform} {tarlib : Tarfile} {dialog : FileDialog} {stamp : Stamp}
        {bagit : Bagit}.

Definition run_procs (form : Form) : M unit :=
  run_procs_with Bagging.run_bagit form.

End Run.

End Procs.

(* ================================================================== *)
(** * A concrete environment, for running the stages on examples *)

Module Demo.

Definition LF : ascii := Ascii.ascii_of_nat 10.
Definition CR : ascii := Ascii.ascii_of_nat 13.

(** Comma-separated text without quoting: one row per line, a blank
    line is an empty row, rows are written with a CR LF terminator. *)
Definition parse_line (l : string) : list string :=
  let l := Str.rstrip CR l in
  if String.eqb l "" then [] else Str.split ","%char l.

Definition drop_last_empty (ls : list string) : list string :=
  match List.rev ls with
  | EmptyString :: r => List.rev r
  | _ => ls
  end.

#[export] Instance csv : Csv := {|
  csv_reader := fun text => map parse_line (drop_last_empty (Str.split LF text));
  csv_writerow := fun row => String.concat "," row +++ String CR (String LF "")
|}.

(** The operator says yes to everything; identifiers and times are
    numbered. *)
#[export] Instance env : Env := {|
  answer := fun _ => true;
  uuid4 := fun n => "00000000-0000-4000-8000-00000000000" +++ str_nat n;
  strftime_now := fun n => "2019.06.27 12:00:0" +++ str_nat n
|}.

#[export] Instance rdflib : Rdflib := {|
  serialize_pretty_xml := fun m =>
    "<rdf:Description rdf:about='" +++ objURI m +++ "'><dcterms:identifier>"
      +++ sysUUID m +++ "</dcterms:identifier></rdf:Description>"
|}.

Fixpoint flat (n : node) : string :=
  match n with
  | File d => "(" +++ d +++ ")"
  | Dir es => "[" +++ String.concat ";" (map (fun '(k, m) => k +++ flat m) es) +++ "]"
  end.

#[export] Instance tarlib : Tarfile := {|
  tar_bytes := fun arcname n => arcname +++ flat n
|}.

(** A toy accumulator standing for a digest: a running sum of the byte
    values, reported as two bytes. *)
Fixpoint byte_sum (s : string) (acc : nat) : nat :=
  match s with
  | EmptyString => acc
  | String a r => byte_sum r ((acc + Ascii.nat_of_ascii a) mod 65536)
  end.

Definition sum16 (seed : nat) : HashAlg := {|
  h_state := nat;
  h_new := seed;
  h_update := fun st chunk => byte_sum chunk st;
  h_digest := fun st => [st / 256; st mod 256]
|}.

#[export] Instance hashlib : Hashlib := {|
  hashlib_md5 := sum16 0;
  hashlib_sha3_256 := sum16 7
|}.

#[export] Instance platform : Platform := {|
  os_stat := fun _ => {| st_mode := 33188; st_ino := 1; st_dev := 2049; st_nlink := 1;
                         st_uid := 1000; st_gid := 1000;
                         st_ctime := 0; st_mtime := 0; st_atime := 0 |};
  strftime_local := fun _ => "2019.06.27 11:00:00";
  guess_type := fun _ => None;
  round_size := fun n => str_nat n +++ ".0B"
|}.

End Demo.

(* ================================================================== *)
(** * Worked examples *)

Module Examples.

Import Demo.

Definition record1 : string :=
  csv_writerow verifyHeadrs +++
  csv_writerow [""; "obj1"; "Dept"; "pid"; "Coll"; "Desc"; "http://o"; "http://c"].

(** A batch [/b] with one object, [obj1], that has its record. *)
Definition batch1 : node :=
  Dir [("b", Dir [("obj1", Dir [("metadata.csv", File record1); ("a.txt", File "AAAA")])])].

(** The batch after a first run of Registration. *)
Definition registered1 : World :=
  final_world (Registration.register_loop "/b" (start batch1)).

Definition is_rename (e : Event) : bool :=
  match e with EvRename _ _ => true | _ => false end.

Definition is_append_to (p : string) (e : Event) : bool :=
  match e with EvAppend q _ => String.eqb p q | _ => false end.

Definition is_open_of (p : string) (e : Event) : bool :=
  match e with EvOpenRead q => String.eqb p q | _ => false end.

Definition count (f : Event -> bool) (l : list Event) : nat := List.length (filter f l).

(** An object with two OS artifacts and three files, one in a
    subdirectory. *)
Definition batch2 : node :=
  Dir [("b", Dir [("obj1", Dir [(".DS_Store", File "x"); ("a.txt", File "AAAA");
                                ("sub", Dir [("c.bin", File "CC"); (".DS_Store", File "y")]);
                                ("z.txt", File "")]);
                  ("notes.txt", File "n")])].

(** A ledger without the column [Collection URI]. *)
Definition short_ledger : string :=
  csv_writerow ["System UUID"; "Local ID"; "Department Responsible"; "Person Responsible";
                "Collection"; "Brief Description"; "Object URI"] +++
  csv_writerow [""; "obj1"; "Dept"; "pid"; "Coll"; "Desc"; "http://o"].

Definition batch3 : node :=
  Dir [("ledger.csv", File short_ledger);
       ("b", Dir [("obj1", Dir [("a.txt", File "AAAA")])])].

(** A batch directory [batch.2019] holding [x.1] and [x.2]. *)
Definition batch4 : node :=
  Dir [("data", Dir [("batch.2019", Dir [("x.1", Dir [("a.txt", File "A")]);
                                          ("x.2", Dir [("b.txt", File "B")]);
                                          ("readme", File "r")])])].

Definition counts0 : TarCounts := {| tarfiles := 0; alreadytar := 0; notfolder := 0 |}.

(** The same batch with its output directory already made. *)
Definition tar_world : World :=
  start (Dir [("data", Dir [("batch.2019", Dir [("x.1", Dir []); ("x.2", Dir [])]);
                            ("batch-tarred", Dir [])])]).

(** A batch with a file and an object, [obj1], that has a record, a data
    file, a directory named [metadata] and a directory [sub]. *)
Definition batch5 : node :=
  Dir [("b", Dir [("obj1", Dir [("metadata.csv", File "m"); ("a.txt", File "AAAA");
                                ("metadata", Dir [("r.xml", File "x")]);
                                ("sub", Dir [("c.bin", File "CC")])]);
                  ("readme.txt", File "r")])].

Definition prepacked5 : Result string := PrePack.pre_pack "/b" (start batch5).

End Examples.

(* ================================================================== *)
(** * The environment and sample batches of the further stages *)

Module DemoMore.

(** The operator picks [/data/out] in every folder dialog. *)
#[export] Instance dialog : FileDialog := {|
  askdirectory := fun _ => "/data/out"
|}.

#[export] Instance stamp : Stamp := {|
  strftime_mdHMS := fun n => "0627_12000" +++ str_nat n
|}.

(** A bag is made by adding the directory [data] to the object; a bag
    is valid when it has that directory. *)
#[export] Instance bagit : Bagit := {|
  make_bag := fun inpath => emit (EvMkdir (path.join inpath "data"));
  is_valid := fun inpath => path_exists (path.join inpath "data")
|}.

End DemoMore.

Module ExamplesMore.

Import Demo.

(** A ledger with the eight columns and one row, for [obj1]. *)
Definition ledger1 : string :=
  csv_writerow verifyHeadrs +++
  csv_writerow [""; "obj1"; "Dept"; "pid"; "Coll"; "Desc"; "http://o"; "http://c"].

Definition row1 : list string :=
  [""; "obj1"; "Dept"; "pid"; "Coll"; "Desc"; "http://o"; "http://c"].

(** A row with one cell more than the header has names. *)
Definition long_row1 : list string := row1 ++ ["extra"].

(** A batch [/b] whose object [obj1] has no record yet, and the ledger. *)
Definition batch6 : node :=
  Dir [("ledger.csv", File ledger1);
       ("b", Dir [("obj1", Dir [("a.txt", File "AAAA")])])].

(** An object whose record has three cells in its data row. *)
Definition batch7 : node :=
  Dir [("b", Dir [("obj1", Dir [("metadata.csv",
                                 File (csv_writerow ["System UUID"; "Local ID"; "Dept"] +++
                                       csv_writerow [""; "obj1"; "Dept"]))])])].

(** An object that has an entry named [temptemptemp]. *)
Definition batch8 : node :=
  Dir [("b", Dir [("obj1", Dir [("a.txt", File "AAAA"); ("temptemptemp", File "t")])])].

(** A batch beside the directory of its archives, which has an OS
    artifact. *)
Definition batch9 : node :=
  Dir [("data", Dir [("batch", Dir [("x", Dir [("a.txt", File "A")])]);
                     ("batch-tarred", Dir [("x.tar", File "x[a.txt(A)]");
                                           (".DS_Store", File "d")])])].

(** A batch whose object has its manifest. *)
Definition batch10 : node :=
  Dir [("b", Dir [("obj1", Dir [("a.txt", File "AAAA"); ("manifest.csv", File "m")]);
                  ("notes.txt", File "n")])].

Definition empty_form : Procs.Form :=
  {| Procs.e1 := ""; Procs.e2 := ""; Procs.e3 := "";
     Procs.metavar := 0; Procs.regisvar := 0; Procs.invenvar := 0; Procs.bagitvar := 0;
     Procs.tarvar := 0; Procs.transvar := 0; Procs.prompt := 0 |}.

(** Bagging and archiving of [/data/batch.2019], without prompting. *)
Definition bag_tar_form : Procs.Form :=
  {| Procs.e1 := "/data/batch.2019"; Procs.e2 := ""; Procs.e3 := "";
     Procs.metavar := 0; Procs.regisvar := 0; Procs.invenvar := 0; Procs.bagitvar := 1;
     Procs.tarvar := 1; Procs.transvar := 0; Procs.prompt := 0 |}.

End ExamplesMore.

(* ================================================================== *)
(** * [os.path]: sample values *)

Example join_ex1 : path.join "/b" "x" = "/b/x". Proof. reflexivity. Qed.
Example join_ex2 : path.join "/b/" "x" = "/b/x". Proof. reflexivity. Qed.
Example join_ex3 : path.join "/b" "/x" = "/x". Proof. reflexivity. Qed.
Example dirname_ex1 : path.dirname "/b/x" = "/b". Proof. reflexivity. Qed.
Example dirname_ex2 : path.dirname "/x" = "/". Proof. reflexivity. Qed.
Example dirname_ex3 : path.dirname "x" = "". Proof. reflexivity. Qed.
Example basename_ex1 : path.basename "/b/x.y" = "x.y". Proof. reflexivity. Qed.
Example splitext_ex1 : path.splitext "/a.b/c" = ("/a.b/c", ""). Proof. reflexivity. Qed.
Example splitext_ex2 : path.splitext "/a/.bashrc" = ("/a/.bashrc", ""). Proof. reflexivity. Qed.
Example splitext_ex3 : path.splitext "/a/x.tar.gz" = ("/a/x.tar", ".gz"). Proof. reflexivity. Qed.
Example splitext_ex4 : path.splitext "x." = ("x", "."). Proof. reflexivity. Qed.
Example relpath_ex1 : path.relpath "/b/o/d/f.txt" "/b" = "o/d/f.txt". Proof. reflexivity. Qed.
Example relpath_ex2 : path.relpath "/b/o" "/b/o" = ".". Proof. reflexivity. Qed.

(* ================================================================== *)
(** * Facts about trees and canonical paths *)

Module FSFacts.

  Import FS.

Lemma assoc_set_same name v es : assoc name (set_entry name v es) = v.
  Proof.
    revert v. induction es as [|[k m] r IH]; intros v; simpl.
    - destruct v; simpl; [rewrite String.eqb_refl|]; reflexivity.
    - destruct (String.eqb k name) eqn:E.
      + destruct v; simpl; [rewrite E; reflexivity | apply IH].
      + simpl. rewrite E. apply IH.
  Qed.

Lemma assoc_set_other name k v es :
    k <> name -> assoc k (set_entry name v es) = assoc k es.
  Proof.
    intros Hne. revert v. induction es as [|[k' m] r IH]; intros v; simpl.
    - destruct v; simpl; [|reflexivity].
      destruct (String.eqb_spec name k); [congruence | reflexivity].
    - destruct (String.eqb_spec k' name) as [->|Hk'].
      + destruct (String.eqb_spec name k) as [Heq|_]; [congruence|].
        destruct v; simpl.
        * destruct (String.eqb_spec name k); [congruence | apply IH].
        * apply IH.
      + simpl. destruct (String.eqb_spec k' k); [reflexivity | apply IH].
  Qed.

Lemma get_app n p q :
    get n (p ++ q) = match get n p with Some m => get m q | None => None end.
  Proof.
    revert n. induction p as [|c r IH]; intros n; simpl; [reflexivity|].
    destruct n as [d|es]; [reflexivity|].
    destruct (assoc c es); [apply IH | reflexivity].
  Qed.

Lemma put_cons n c r v :
    put n (c :: r) v =
    match n with
    | File _ => None
    | Dir es =>
        match r with
        | [] => Some (Dir (set_entry c v es))
        | _ :: _ =>
            match assoc c es with
            | None => None
            | Some m =>
                match put m r v with
                | Some m' => Some (Dir (set_entry c (Some m') es))
                | None => None
                end
            end
        end
    end.
  Proof. reflexivity. Qed.

  (** What [put] leaves at the place it wrote. *)
Lemma get_put_same n cp v n' : put n cp v = Some n' -> get n' cp = v.
  Proof.
    revert n n'. induction cp as [|c r IH]; intros n n' H.
    - simpl in H. subst v. reflexivity.
    - rewrite put_cons in H. destruct n as [d|es]; [discriminate|].
      destruct r as [|c' r'].
      + inversion H; subst. simpl. rewrite assoc_set_same.
        destruct v; reflexivity.
      + destruct (assoc c es) as [m|] eqn:Ea; [|discriminate].
        destruct (put m (c' :: r') v) as [m'|] eqn:Ep; [|discriminate].
        inversion H; subst. change (get (Dir (set_entry c (Some m') es)) (c :: c' :: r'))
          with (match assoc c (set_entry c (Some m') es) with
                | Some k => get k (c' :: r') | None => None end).
        rewrite assoc_set_same. eapply IH; eauto.
  Qed.

  (** Below the place it wrote there is what was written. *)
Lemma get_put_below n cp v n' q :
    put n cp v = Some n' ->
    get n' (cp ++ q) = match v with Some m => get m q | None => None end.
  Proof.
    intros H. rewrite get_app. rewrite (get_put_same _ _ _ H). reflexivity.
  Qed.

  (** A path that leaves [cp] at some component is not affected. *)
Lemma get_put_diverge n pre a b r1 r2 v n' :
    put n (pre ++ a :: r1) v = Some n' -> a <> b ->
    get n' (pre ++ b :: r2) = get n (pre ++ b :: r2).
  Proof.
    revert n n'. induction pre as [|c pre IH]; intros n n' H Hab.
    - simpl app in *. rewrite put_cons in H. destruct n as [d|es]; [discriminate|].
      assert (Hn' : exists w, n' = Dir (set_entry a w es)).
      { destruct r1; [inversion H; eauto|].
        destruct (assoc a es); [|discriminate].
        destruct (put n _ v); inversion H; eauto. }
      destruct Hn' as [w ->]. simpl.
      rewrite assoc_set_other by congruence. reflexivity.
    - simpl app in *. rewrite put_cons in H. destruct n as [d|es]; [discriminate|].
      destruct (pre ++ a :: r1) as [|x xs] eqn:Ex; [destruct pre; discriminate|].
      destruct (assoc c es) as [m|] eqn:Ea; [|discriminate].
      destruct (put m (x :: xs) v) as [m'|] eqn:Ep; [|discriminate].
      inversion H; subst. simpl. rewrite assoc_set_same, Ea.
      eapply IH; eauto.
  Qed.

  (** Every proper prefix of the place written is a directory, before
      and after. *)
Lemma get_put_above n q c r v n' :
    put n (q ++ c :: r) v = Some n' ->
    is_dir (get n q) = true /\ is_dir (get n' q) = true.
  Proof.
    revert n n'. induction q as [|x q IH]; intros n n' H.
    - simpl app in H. rewrite put_cons in H. destruct n as [d|es]; [discriminate|].
      assert (Hn' : exists es', n' = Dir es').
      { destruct r; [inversion H; eauto|].
        destruct (assoc c es); [|discriminate].
        destruct (put n _ v); inversion H; eauto. }
      destruct Hn' as [es' ->]. split; reflexivity.
    - simpl app in H. rewrite put_cons in H. destruct n as [d|es]; [discriminate|].
      destruct (q ++ c :: r) as [|y ys] eqn:Ey; [destruct q; discriminate|].
      destruct (assoc x es) as [m|] eqn:Ea; [|discriminate].
      destruct (put m (y :: ys) v) as [m'|] eqn:Ep; [|discriminate].
      inversion H; subst. simpl. rewrite assoc_set_same, Ea.
      eapply IH; eauto.
  Qed.

  (** Two canonical paths are equal, one extends the other, or they part
      at some component. *)
Lemma cpath_cases (p q : cpath) :
    p = q \/
    (exists c r, p = q ++ c :: r) \/
    (exists c r, q = p ++ c :: r) \/
    (exists pre a b r1 r2, a <> b /\ p = pre ++ a :: r1 /\ q = pre ++ b :: r2).
  Proof.
    revert q. induction p as [|a p IH]; intros [|b q].
    - left; reflexivity.
    - right; right; left. exists b, q. reflexivity.
    - right; left. exists a, p. reflexivity.
    - destruct (string_dec a b) as [->|Hab].
      + destruct (IH q) as [->|[(c & r & ->)|[(c & r & ->)|(pre & x & y & r1 & r2 & Hxy & -> & ->)]]].
        * left; reflexivity.
        * right; left. exists c, r. reflexivity.
        * right; right; left. exists c, r. reflexivity.
        * right; right; right. exists (b :: pre), x, y, r1, r2. auto.
      + right; right; right. exists [], a, b, p, q. auto.
  Qed.

End FSFacts.

(* ================================================================== *)
(** * Frames: what a call leaves alone *)

Module Frame.

  Import FS FSFacts.

  (** [touch cp a b]: the trees [a] and [b] agree on every path that
      parts from [cp], and every proper prefix of [cp] is a directory in
      both: [b] is [a] changed at or below [cp] only. *)
Definition touch (cp : cpath) (a b : node) : Prop :=
    (forall pre x y r1 r2, x <> y -> cp = pre ++ x :: r1 ->
        get b (pre ++ y :: r2) = get a (pre ++ y :: r2)) /\
    (forall q c r, cp = q ++ c :: r ->
        is_dir (get a q) = true /\ is_dir (get b q) = true).

Lemma touch_put n cp v n' : put n cp v = Some n' -> touch cp n n'.
  Proof.
    intros H. split.
    - intros pre x y r1 r2 Hxy ->. eapply get_put_diverge; eauto.
    - intros q c r ->. eapply get_put_above; eauto.
  Qed.

Lemma touch_refl cp a : (forall q c r, cp = q ++ c :: r -> is_dir (get a q) = true) ->
                          touch cp a a.
  Proof. intros H. split; [reflexivity|]. intros q c r E. split; eapply H; eauto. Qed.

Lemma touch_trans cp a b c : touch cp a b -> touch cp b c -> touch cp a c.
  Proof.
    intros [H1 H2] [H3 H4]. split.
    - intros pre x y r1 r2 Hxy E. rewrite (H3 _ _ _ _ r2 Hxy E). eapply H1; eauto.
    - intros q k r E. split; [eapply H2 | eapply H4]; eauto.
  Qed.

Definition same_kind (n m : node) : Prop :=
    match n, m with
    | File c, File d => c = d
    | Dir _, Dir _ => True
    | _, _ => False
    end.

  (** [ext a b]: everything [a] holds is still in [b], regular files
      with the same bytes. *)
Definition ext (a b : node) : Prop :=
    forall cq n, get a cq = Some n -> exists m, get b cq = Some m /\ same_kind n m.

Lemma same_kind_refl n : same_kind n n.
  Proof. destruct n; simpl; auto. Qed.

Lemma same_kind_trans a b c : same_kind a b -> same_kind b c -> same_kind a c.
  Proof. destruct a, b, c; simpl; intros; try contradiction; congruence. Qed.

Lemma ext_refl a : ext a a.
  Proof. intros cq n H. exists n. split; [assumption | apply same_kind_refl]. Qed.

Lemma ext_trans a b c : ext a b -> ext b c -> ext a c.
  Proof.
    intros H1 H2 cq n H. destruct (H1 _ _ H) as (m & Hm & K1).
    destruct (H2 _ _ Hm) as (k & Hk & K2). exists k. split; [assumption|].
    eapply same_kind_trans; eauto.
  Qed.

Lemma ext_is_dir a b cq : ext a b -> is_dir (get a cq) = true -> is_dir (get b cq) = true.
  Proof.
    intros H Hd. destruct (get a cq) as [[d|es]|] eqn:E; try discriminate.
    destruct (H _ _ E) as (m & -> & K). destruct m; simpl in *; [contradiction | reflexivity].
  Qed.

  (** A change at a place where [a] had nothing only adds to [a]. *)
Lemma touch_ext cp a b : touch cp a b -> get a cp = None -> ext a b.
  Proof.
    intros [H1 H2] Hnone cq n Hget.
    destruct (cpath_cases cp cq) as [->|[(c & r & ->)|[(c & r & ->)|(pre & x & y & r1 & r2 & Hxy & -> & ->)]]].
    - congruence.
    - destruct (H2 _ _ _ eq_refl) as [Ha Hb]. rewrite Hget in Ha.
      destruct n as [d|es]; [discriminate|].
      destruct (get b cq) as [[d'|es']|]; try discriminate.
      exists (Dir es'). split; simpl; auto.
    - rewrite get_app, Hnone in Hget. discriminate.
    - exists n. split; [|apply same_kind_refl].
      rewrite (H1 _ _ _ _ r2 Hxy eq_refl). assumption.
  Qed.

Lemma ext_canon_from a b acc cs c :
    ext a b -> canon_from a acc cs = Some c -> canon_from b acc cs = Some c.
  Proof.
    intros He. revert acc. induction cs as [|x r IH]; intros acc H; simpl in *; [assumption|].
    destruct (is_dir (get a acc)) eqn:Ed; [|discriminate].
    rewrite (ext_is_dir _ He Ed).
    destruct (String.eqb x "" || String.eqb x ".")%bool; [apply IH; assumption|].
    destruct (String.eqb x ".."); apply IH; assumption.
  Qed.

Lemma ext_canon a b p c : ext a b -> canon a p = Some c -> canon b p = Some c.
  Proof.
    unfold canon. intros He. destruct (String.eqb p ""); [discriminate|].
    apply ext_canon_from; assumption.
  Qed.

Lemma ext_lookup a b p n :
    ext a b -> lookup a p = Some n -> exists m, lookup b p = Some m /\ same_kind n m.
  Proof.
    unfold lookup. intros He H. destruct (canon a p) as [c|] eqn:Ec; [|discriminate].
    rewrite (ext_canon _ He Ec). apply He; assumption.
  Qed.

Lemma ext_file_at a b p d : ext a b -> file_at a p = Some d -> file_at b p = Some d.
  Proof.
    unfold file_at. intros He H.
    destruct (lookup a p) as [[d'|es]|] eqn:E; simpl in H; try discriminate.
    destruct (ext_lookup _ He E) as (m & -> & K).
    destruct m; simpl in *; [congruence | contradiction].
  Qed.

Lemma ext_exists a b p : ext a b -> exists_ a p = true -> exists_ b p = true.
  Proof.
    unfold exists_. intros He H.
    destruct (lookup a p) as [n|] eqn:E; [|discriminate].
    destruct (ext_lookup _ He E) as (m & -> & _). reflexivity.
  Qed.

End Frame.

(* ================================================================== *)
(** * What each disk call touches *)

Module SemFacts.

  Import FS FSFacts Frame Sem.

Lemma lookup_canon root p cp : canon root p = Some cp -> lookup root p = get root cp.
  Proof. unfold lookup. intros ->. reflexivity. Qed.

Lemma write_file_inv root p f root' :
    write_file root p f = Some root' ->
    exists cp d, canon root p = Some cp /\ is_dir (get root cp) = false /\
                 f (content (get root cp)) = Some d /\
                 put root cp (Some (File d)) = Some root'.
  Proof.
    unfold write_file. intros H.
    destruct (canon root p) as [cp|]; [|discriminate].
    exists cp.
    destruct (get root cp) as [[d0|es]|] eqn:Eg; try discriminate;
      simpl in *;
      match type of H with
      | match ?x with _ => _ end = _ => destruct x as [d|] eqn:Ef; [|discriminate]
      end; exists d; auto.
  Qed.

Lemma mkdir_inv root p root' :
    apply_event (EvMkdir p) root = Some root' ->
    exists cp, canon root p = Some cp /\ get root cp = None /\
               put root cp (Some (Dir [])) = Some root'.
  Proof.
    simpl. intros H. destruct (canon root p) as [cp|]; [|discriminate].
    exists cp. destruct (get root cp) eqn:Eg; [discriminate|]. auto.
  Qed.

Lemma remove_inv root p root' :
    apply_event (EvRemove p) root = Some root' ->
    exists cp, canon root p = Some cp /\ is_file (get root cp) = true /\
               put root cp None = Some root'.
  Proof.
    simpl. intros H. destruct (canon root p) as [cp|]; [|discriminate].
    exists cp. destruct (get root cp) as [[d|es]|] eqn:Eg; try discriminate. auto.
  Qed.

Lemma mkdir_ext root p root' :
    apply_event (EvMkdir p) root = Some root' -> ext root root'.
  Proof.
    intros H. destruct (mkdir_inv _ _ H) as (cp & _ & Hn & Hp).
    eapply touch_ext; eauto using touch_put.
  Qed.

  (** Creating a file where nothing was, then writing to it, only adds
      to the disk. *)
Lemma create_ext root p root1 :
    exists_ root p = false ->
    apply_event (EvTruncate p) root = Some root1 ->
    ext root root1 /\
    forall data root2, apply_event (EvAppend p data) root1 = Some root2 -> ext root root2.
  Proof.
    intros Hex H1. simpl in H1.
    destruct (write_file_inv _ _ _ H1) as (cp & d & Hc & _ & _ & Hp).
    assert (Hnone : get root cp = None).
    { unfold exists_ in Hex. rewrite (lookup_canon _ _ Hc) in Hex.
      destruct (get root cp); [discriminate | reflexivity]. }
    assert (He : ext root root1) by (eapply touch_ext; eauto using touch_put).
    split; [assumption|].
    intros data root2 H2. simpl in H2.
    destruct (write_file_inv _ _ _ H2) as (cp' & d' & Hc' & _ & _ & Hp').
    rewrite (ext_canon _ He Hc) in Hc'. inversion Hc'; subst cp'.
    eapply touch_ext; [|eassumption].
    eapply touch_trans; eapply touch_put; eauto.
  Qed.

End SemFacts.

(* ================================================================== *)
(** * Reasoning about runs *)

Section Runs.

  Context {env : Env}.

  (** [preserves I m]: if [I] holds when [m] starts, it holds when [m]
      ends, normally or by an exception. *)
Definition preserves (I : World -> Prop) {A} (m : M A) : Prop :=
    forall w, I w -> I (final_world (m w)).

Lemma preserves_ret I A (a : A) : preserves I (ret a).
  Proof. intros w H. exact H. Qed.

Lemma preserves_bind I A B (m : M A) (f : A -> M B) :
    preserves I m -> (forall a, preserves I (f a)) -> preserves I (bind m f).
  Proof.
    intros Hm Hf w H. unfold bind. specialize (Hm w H).
    destruct (m w) as [a w'|e w']; simpl in *; [apply Hf; assumption | assumption].
  Qed.

Lemma preserves_foldM I A B (f : B -> A -> M A) l :
    (forall x a, preserves I (f x a)) -> forall a, preserves I (foldM f l a).
  Proof.
    intros Hf. induction l as [|x r IH]; intros a; simpl.
    - apply preserves_ret.
    - apply preserves_bind; [apply Hf | exact IH].
  Qed.

Lemma preserves_if I A (b : bool) (m1 m2 : M A) :
    preserves I m1 -> preserves I m2 -> preserves I (if b then m1 else m2).
  Proof. destruct b; auto. Qed.

  (** The disk after [emit]. *)
Lemma emit_fs e w :
    w_fs (final_world (emit e w)) =
    match Sem.apply_event e (w_fs w) with Some fs' => fs' | None => w_fs w end.
  Proof. unfold emit. destruct (Sem.apply_event e (w_fs w)); reflexivity. Qed.

  (** Invariants that only read the disk. *)
Definition on_disk (P : node -> Prop) : World -> Prop := fun w => P (w_fs w).

Lemma preserves_emit P e :
    (forall fs fs', P fs -> Sem.apply_event e fs = Some fs' -> P fs') ->
    preserves (on_disk P) (emit e).
  Proof.
    intros H w Hw. unfold on_disk in *. rewrite emit_fs.
    destruct (Sem.apply_event e (w_fs w)) eqn:E; eauto.
  Qed.

Lemma preserves_showwarning P msg : preserves (on_disk P) (showwarning msg).
  Proof. apply preserves_emit. simpl. intros fs fs' H E. inversion E; subst; assumption. Qed.

Lemma preserves_askyesno P msg : preserves (on_disk P) (askyesno msg).
  Proof. intros w Hw. exact Hw. Qed.

Lemma preserves_pure P A (f : World -> A) :
    preserves (on_disk P) (fun w => Ok (f w) w).
  Proof. intros w Hw. exact Hw. Qed.

Lemma preserves_listdir P p : preserves (on_disk P) (listdir p).
  Proof. intros w Hw. unfold listdir. destruct (FS.listdir (w_fs w) p); exact Hw. Qed.

Lemma preserves_read_node P p : preserves (on_disk P) (read_node p).
  Proof. intros w Hw. unfold read_node. destruct (FS.lookup (w_fs w) p); exact Hw. Qed.

Lemma preserves_stage_end P moreopts prompting msg :
    preserves (on_disk P) (stage_end moreopts prompting msg).
  Proof.
    unfold stage_end. repeat apply preserves_if.
    - apply preserves_ret.
    - apply preserves_askyesno.
    - apply preserves_bind; [apply preserves_showwarning | intros; apply preserves_ret].
  Qed.

End Runs.

(* ================================================================== *)
(** * Archiving never overwrites *)

Section RunTarFacts.

Context {env : Env} {tarlib : Tarfile}.

Import FS Frame.

Lemma tar_create_ext fs0 outfile infile tarname w :
  ext fs0 (w_fs w) -> exists_ (w_fs w) outfile = false ->
  ext fs0 (w_fs (final_world (tar_create outfile infile tarname w))).
Proof.
  intros H0 Hex. unfold tar_create, bind.
  unfold emit at 1.
  destruct (Sem.apply_event (EvTruncate outfile) (w_fs w)) as [fs1|] eqn:E1; [|exact H0].
  destruct (SemFacts.create_ext _ _ Hex E1) as [He1 He2].
  unfold read_node; cbn [w_fs].
  destruct (lookup fs1 infile) as [n|]; cbn [final_world w_fs];
    [|eapply ext_trans; eauto].
  rewrite emit_fs; cbn [w_fs].
  destruct (Sem.apply_event (EvAppend outfile (tar_bytes tarname n)) fs1) as [fs2|] eqn:E2;
    eapply ext_trans; eauto.
Qed.

Lemma run_tar_entry_ext fs0 tarfolder outfolder i c :
  preserves (on_disk (ext fs0)) (run_tar_entry tarfolder outfolder i c).
Proof.
  intros w Hw. unfold on_disk in *. unfold run_tar_entry, bind, path_isdir, path_exists.
  cbv beta.
  destruct (isdir (w_fs w) (path.join tarfolder i)); [|exact Hw].
  destruct (exists_ (w_fs w) (tar_outfile outfolder i)) eqn:Ex.
  - unfold showwarning, emit; simpl. exact Hw.
  - cbv beta. rewrite Ex. cbn [negb].
    pose proof (@tar_create_ext fs0 (tar_outfile outfolder i) (path.join tarfolder i)
                  (path.relpath (path.join tarfolder i) tarfolder) w Hw Ex) as H.
    destruct (tar_create _ _ _ w); exact H.
Qed.

Lemma run_tar_loop_ext fs0 tarfolder :
  preserves (on_disk (ext fs0)) (run_tar_loop tarfolder).
Proof.
  unfold run_tar_loop.
  apply preserves_bind; [apply preserves_pure|]. intros ex.
  apply preserves_bind.
  - apply preserves_if; [|apply preserves_ret].
    apply preserves_emit. intros fs fs' H E.
    eapply ext_trans; [exact H | eapply SemFacts.mkdir_ext; eauto].
  - intros _. apply preserves_bind; [apply preserves_listdir|]. intros names.
    apply preserves_foldM. intros x a. apply run_tar_entry_ext.
Qed.

Lemma run_tar_ext fs0 prompting tarfolder moreopts5 :
  preserves (on_disk (ext fs0)) (run_tar prompting tarfolder moreopts5).
Proof.
  unfold run_tar.
  apply preserves_bind; [apply run_tar_loop_ext|]. intros c.
  apply preserves_bind.
  - apply preserves_if; [apply preserves_showwarning | apply preserves_ret].
  - intros _. apply preserves_stage_end.
Qed.

(** What the loop body does with an entry whose archive is there. *)
Definition already_archived (outfile : string) (c : TarCounts) (w : World)
  : Result TarCounts :=
  Ok {| tarfiles := tarfiles c; alreadytar := alreadytar c + 1; notfolder := notfolder c |}
     (mkWorld (w_fs w)
        (w_trace w ++
           [(EvWarning ("The TAR file: 
'" +++ outfile +++ "'
already exists!
Tar archive not created."), w_fs w)])
        (w_asked w) (w_ids w) (w_clock w)).

(** C8. Archiving never overwrites.  Whatever the disk and the operator's
    answers, a run of [run_tar] (to its end or to an exception) leaves
    every regular file that existed with the bytes it had, so an
    archive found in the output directory is unchanged; and a directory
    entry whose archive file exists when the loop reaches it is counted
    in [alreadytar], shown in a warning, and nothing is written. *)
Theorem run_tar_never_overwrites prompting tarfolder moreopts5 (w : World) :
  (forall p d,
      file_at (w_fs w) p = Some d ->
      file_at (w_fs (final_world (run_tar prompting tarfolder moreopts5 w))) p = Some d) /\
  (forall i c,
      isdir (w_fs w) (path.join tarfolder i) = true ->
      exists_ (w_fs w) (tar_outfile (tar_outfolder tarfolder) i) = true ->
      run_tar_entry tarfolder (tar_outfolder tarfolder) i c w =
      already_archived (tar_outfile (tar_outfolder tarfolder) i) c w).
Proof.
  split.
  - intros p d H.
    eapply ext_file_at; [|exact H].
    apply (run_tar_ext (fs0 := w_fs w) prompting tarfolder moreopts5 (w := w)).
    apply ext_refl.
  - intros i c Hd Hex. unfold run_tar_entry, bind, path_isdir, path_exists.
    rewrite Hd, Hex. reflexivity.
Qed.

End RunTarFacts.

(* ================================================================== *)
(** * Calls that change regular files only *)

Module FileFrame.

Import FS FSFacts Frame.

(** The two trees have the same directories. *)
Definition same_dirs (a b : node) : Prop :=
  forall cq, is_dir (get a cq) = is_dir (get b cq).

Lemma same_dirs_refl a : same_dirs a a.
Proof. intros cq. reflexivity. Qed.

Lemma same_dirs_trans a b c : same_dirs a b -> same_dirs b c -> same_dirs a c.
Proof. intros H1 H2 cq. rewrite H1. apply H2. Qed.

Lemma same_dirs_sym a b : same_dirs a b -> same_dirs b a.
Proof. intros H cq. symmetry. apply H. Qed.

Lemma get_below_nondir a cp c r : is_dir (get a cp) = false -> get a (cp ++ c :: r) = None.
Proof.
  intros H. rewrite get_app. destruct (get a cp) as [[d|es]|]; try reflexivity. discriminate.
Qed.

(** A change at [cp], not a directory before or after, changes no
    directory and no other file. *)
Lemma touch_file cp a b :
  touch cp a b -> is_dir (get a cp) = false -> is_dir (get b cp) = false ->
  same_dirs a b /\ (forall cq, cq <> cp -> content (get b cq) = content (get a cq)).
Proof.
  intros [H1 H2] Ha Hb. split.
  - intros cq.
    destruct (cpath_cases cp cq) as [->|[(c & r & ->)|[(c & r & ->)|(pre & x & y & r1 & r2 & Hxy & -> & ->)]]].
    + congruence.
    + destruct (H2 _ _ _ eq_refl) as [-> ->]. reflexivity.
    + rewrite !get_below_nondir by assumption. reflexivity.
    + rewrite (H1 _ _ _ _ r2 Hxy eq_refl). reflexivity.
  - intros cq Hne.
    destruct (cpath_cases cp cq) as [->|[(c & r & ->)|[(c & r & ->)|(pre & x & y & r1 & r2 & Hxy & -> & ->)]]].
    + congruence.
    + destruct (H2 _ _ _ eq_refl) as [Da Db].
      destruct (get a cq) as [[?|?]|]; try discriminate.
      destruct (get b cq) as [[?|?]|]; try discriminate. reflexivity.
    + rewrite !get_below_nondir by assumption. reflexivity.
    + rewrite (H1 _ _ _ _ r2 Hxy eq_refl). reflexivity.
Qed.

Lemma same_dirs_canon_from a b acc cs :
  same_dirs a b -> canon_from a acc cs = canon_from b acc cs.
Proof.
  intros H. revert acc. induction cs as [|x r IH]; intros acc; simpl; [reflexivity|].
  rewrite (H acc). destruct (is_dir (get b acc)); [|reflexivity].
  destruct (String.eqb x "" || String.eqb x ".")%bool; [apply IH|].
  destruct (String.eqb x ".."); apply IH.
Qed.

Lemma same_dirs_canon a b p : same_dirs a b -> canon a p = canon b p.
Proof.
  intros H. unfold canon. destruct (String.eqb p ""); [reflexivity|].
  apply same_dirs_canon_from; assumption.
Qed.

(** A successful write leaves a regular file at [p]. *)
Lemma write_file_spec root p f root' :
  Sem.write_file root p f = Some root' ->
  exists cp d, canon root p = Some cp /\ canon root' p = Some cp /\
               f (content (get root cp)) = Some d /\
               get root' cp = Some (File d) /\
               same_dirs root root' /\
               (forall cq, cq <> cp -> content (get root' cq) = content (get root cq)).
Proof.
  intros H. destruct (SemFacts.write_file_inv _ _ _ H) as (cp & d & Hc & Hd & Hf & Hp).
  pose proof (get_put_same _ _ _ Hp) as Hg.
  assert (Hd' : is_dir (get root' cp) = false) by (rewrite Hg; reflexivity).
  destruct (touch_file (touch_put _ _ _ Hp) Hd Hd') as [Hs Ho].
  exists cp, d. repeat split; auto.
  rewrite <- (same_dirs_canon p Hs). assumption.
Qed.

Lemma write_file_file_at root p f root' :
  Sem.write_file root p f = Some root' ->
  exists d, f (file_at root p) = Some d /\ file_at root' p = Some d.
Proof.
  intros H. destruct (write_file_spec _ _ _ H) as (cp & d & Hc & Hc' & Hf & Hg & _).
  exists d. unfold file_at, lookup. rewrite Hc, Hc', Hg. auto.
Qed.

Lemma write_file_exists root p f root' :
  Sem.write_file root p f = Some root' -> exists_ root' p = true.
Proof.
  intros H. destruct (write_file_spec _ _ _ H) as (cp & d & _ & Hc' & _ & Hg & _).
  unfold exists_, lookup. rewrite Hc', Hg. reflexivity.
Qed.

End FileFrame.

(* ================================================================== *)
(** * Archive names *)

Section TarNames.

Context {env : Env} {tarlib : Tarfile}.

Import FS.

Lemma tar_create_exists outfile infile tarname w w' :
  tar_create outfile infile tarname w = Ok tt w' ->
  exists_ (w_fs w') outfile = true.
Proof.
  unfold tar_create, bind. unfold emit at 1.
  destruct (Sem.apply_event (EvTruncate outfile) (w_fs w)) as [fs1|]; [|discriminate].
  unfold read_node; cbn [w_fs]. destruct (lookup fs1 infile) as [n|]; [|discriminate].
  unfold emit; cbn [w_fs].
  destruct (Sem.apply_event (EvAppend outfile (tar_bytes tarname n)) fs1) as [fs2|] eqn:E2;
    [|discriminate].
  intros H. inversion H; subst. cbn [w_fs].
  simpl in E2. eapply FileFrame.write_file_exists; eauto.
Qed.

(** After the loop body has run for a directory, its archive file is
    there. *)
Lemma run_tar_entry_archived tarfolder outfolder i c w c' w' :
  isdir (w_fs w) (path.join tarfolder i) = true ->
  run_tar_entry tarfolder outfolder i c w = Ok c' w' ->
  exists_ (w_fs w') (tar_outfile outfolder i) = true.
Proof.
  intros Hd. unfold run_tar_entry, bind, path_isdir, path_exists. cbv beta.
  rewrite Hd.
  destruct (exists_ (w_fs w) (tar_outfile outfolder i)) eqn:Ex.
  - unfold showwarning, emit; simpl. intros H. inversion H; subst. exact Ex.
  - cbv beta. rewrite Ex. cbn [negb].
    destruct (tar_create _ _ _ w) as [[] w1|] eqn:Et; [|discriminate].
    intros H. inversion H; subst. eapply tar_create_exists; eauto.
Qed.

(** C10. Both names of the archiving stage come from [splitext]: the
    output directory of ['batch.2019'] is ['batch-tarred']; the entries
    ['x.1'] and ['x.2'] (and any two entries equal up to their last dot)
    have the same archive file, ['x.tar']; and once the loop body has run
    for one of them, the other is counted as already archived and not
    archived. *)
Theorem run_tar_names_by_splitext :
  tar_outfolder "batch.2019" = "batch-tarred" /\
  (forall outfolder,
      tar_outfile outfolder "x.1" = path.join outfolder "x.tar" /\
      tar_outfile outfolder "x.2" = path.join outfolder "x.tar") /\
  (forall tarfolder, tar_outfolder tarfolder = fst (path.splitext tarfolder) +++ "-tarred") /\
  (forall tarfolder outfolder i j c w c1 w1,
      fst (path.splitext i) = fst (path.splitext j) ->
      isdir (w_fs w) (path.join tarfolder i) = true ->
      run_tar_entry tarfolder outfolder i c w = Ok c1 w1 ->
      isdir (w_fs w1) (path.join tarfolder j) = true ->
      run_tar_entry tarfolder outfolder j c1 w1 =
      already_archived (tar_outfile outfolder i) c1 w1).
Proof.
  split; [reflexivity|]. split; [intros; split; reflexivity|]. split; [reflexivity|].
  intros tarfolder outfolder i j c w c1 w1 Hij Hd Hrun Hd1.
  pose proof (run_tar_entry_archived _ _ _ _ _ Hd Hrun) as Hex.
  assert (Eo : tar_outfile outfolder j = tar_outfile outfolder i)
    by (unfold tar_outfile; rewrite Hij; reflexivity).
  unfold run_tar_entry, bind, path_isdir, path_exists. cbv beta.
  rewrite Hd1, Eo, Hex. reflexivity.
Qed.

End TarNames.

(* ================================================================== *)
(** * Invariants of the disk and the log *)

Section LogInvariants.

Context {env : Env}.

(** Invariants that read the disk and the log, not the counters. *)
Definition on_log (P : node -> list (Event * node) -> Prop) : World -> Prop :=
  fun w => P (w_fs w) (w_trace w).

Lemma log_emit P e :
  (forall fs t fs', P fs t -> Sem.apply_event e fs = Some fs' -> P fs' (t ++ [(e, fs')])) ->
  preserves (on_log P) (emit e).
Proof.
  intros H w Hw. unfold on_log in *. unfold emit.
  destruct (Sem.apply_event e (w_fs w)) eqn:E; simpl; eauto.
Qed.



Lemma log_pure P A (f : World -> A) : preserves (on_log P) (fun w => Ok (f w) w).
Proof. intros w Hw. exact Hw. Qed.

Lemma log_raise P A e : preserves (on_log P) (@raise A e).
Proof. intros w Hw. exact Hw. Qed.

Lemma log_listdir P p : preserves (on_log P) (listdir p).
Proof. intros w Hw. unfold listdir. destruct (FS.listdir (w_fs w) p); exact Hw. Qed.



Lemma log_time P : preserves (on_log P) time_strftime.
Proof. intros w Hw. exact Hw. Qed.

Lemma log_uuid P : preserves (on_log P) uuid_uuid4.
Proof. intros w Hw. exact Hw. Qed.

(** A loop invariant that also reads the loop's variables; [E] is what
    holds if the loop is left by an exception. *)
Lemma foldM_inv A B (I : A -> World -> Prop) (E : World -> Prop)
      (f : B -> A -> M A) (l : list B) :
  (forall x a w, I a w ->
                 match f x a w with Ok a' w' => I a' w' | Raise _ w' => E w' end) ->
  forall a w, I a w ->
              match foldM f l a w with Ok a' w' => I a' w' | Raise _ w' => E w' end.
Proof.
  intros Hf. induction l as [|x r IH]; intros a w H; simpl.
  - exact H.
  - unfold bind. specialize (Hf x a w H).
    destruct (f x a w) as [a' w'|e w']; [apply IH; assumption | assumption].
Qed.

End LogInvariants.

(** The events a run added to the log. *)
Definition added (w w' : World) : list Event :=
  List.skipn (List.length (w_trace w)) (events (w_trace w')).

(* ================================================================== *)
(** * The ledger's header *)

Section Header.

Context {env : Env} {csvlib : Csv} {rdflib : Rdflib}.

Import FS DictCsv.

Lemma list_eqb_eq a b : list_eqb a b = true <-> a = b.
Proof.
  revert b. induction a as [|x a IH]; intros [|y b]; simpl; split; intros H;
    try reflexivity; try discriminate.
  - apply andb_true_iff in H. destruct H as [H1 H2].
    apply String.eqb_eq in H1. apply IH in H2. congruence.
  - inversion H; subst. rewrite String.eqb_refl. simpl. apply IH. reflexivity.
Qed.

Lemma headers_ok_iff h : headers_ok h = true <-> h = Some verifyHeadrs.
Proof.
  destruct h as [h|]; simpl.
  - rewrite list_eqb_eq. split; congruence.
  - split; discriminate.
Qed.

Lemma read_text_ok p w d :
  file_at (w_fs w) p = Some d ->
  read_text p w =
  Ok d (mkWorld (w_fs w) (w_trace w ++ [(EvOpenRead p, w_fs w)])
                (w_asked w) (w_ids w) (w_clock w)).
Proof.
  intros H. unfold read_text, bind, emit. simpl.
  assert (Hf : is_file (lookup (w_fs w) p) = true).
  { unfold file_at in H. destruct (lookup (w_fs w) p) as [[?|?]|]; try discriminate.
    reflexivity. }
  rewrite Hf. simpl. rewrite H. reflexivity.
Qed.

(** C5. A ledger whose header row is not exactly the eight required
    field names: [meta_from_csv] opens it, shows the warning and
    returns [(0, 0)]; the disk is as it was, no row is processed, no
    record or rendering is written. *)
Theorem bad_header_writes_nothing csvIn locids fpath (w : World) text :
  file_at (w_fs w) csvIn = Some text ->
  fieldnames (csv_reader text) <> Some verifyHeadrs ->
  meta_from_csv csvIn locids fpath w =
  Ok (0, 0)
     (mkWorld (w_fs w)
        (w_trace w ++ [(EvOpenRead csvIn, w_fs w); (EvWarning bad_csv_msg, w_fs w)])
        (w_asked w) (w_ids w) (w_clock w)).
Proof.
  intros Hf Hh. unfold meta_from_csv. unfold bind at 1.
  rewrite (read_text_ok _ _ Hf).
  destruct (headers_ok (fieldnames (csv_reader text))) eqn:E.
  - apply headers_ok_iff in E. contradiction.
  - cbn [negb]. unfold bind, showwarning, emit. simpl.
    rewrite <- app_assoc. reflexivity.
Qed.

End Header.

(* ================================================================== *)
(** * The overwrite question *)

(** The calls on regular files, and the warnings. *)
Definition file_event (e : Event) : bool :=
  match e with
  | EvTruncate _ | EvOpenAppend _ | EvAppend _ _ | EvRemove _
  | EvOpenRead _ | EvRead _ _ _ | EvWarning _ => true
  | _ => false
  end.

Definition is_overwrite_ask (e : Event) : bool :=
  match e with
  | EvAsk msg _ => String.eqb msg overwrite_msg
  | _ => false
  end.

(** How often the log shows the dialog "Overwrite ALL of them?". *)
Definition overwrite_asks (t : list (Event * node)) : nat :=
  List.length (filter is_overwrite_ask (events t)).

(** [closed ok P]: no successful call among those [ok] admits breaks
    the property [P] of the disk and the log. *)
Definition closed (ok : Event -> bool) (P : node -> list (Event * node) -> Prop) : Prop :=
  forall fs t e fs', P fs t -> ok e = true -> Sem.apply_event e fs = Some fs' ->
                     P fs' (t ++ [(e, fs')]).

(** The calls [make_rdf] makes: the warning, reading the record, and
    writing [metadata.xml] beside it. *)
Definition rdf_event (metacsv : string) (e : Event) : bool :=
  match e with
  | EvWarning _ => true
  | EvOpenRead p => String.eqb p metacsv
  | EvTruncate p | EvAppend p _ =>
      String.eqb p (path.join (path.dirname metacsv) "metadata.xml")
  | _ => false
  end.

Section Overwrite.

Context {env : Env} {csvlib : Csv} {rdflib : Rdflib}.

Import FS DictCsv.

Lemma closed_weaken (ok ok' : Event -> bool) P :
  (forall e, ok' e = true -> ok e = true) -> closed ok P -> closed ok' P.
Proof. intros H HP fs t e fs' Hp He Ha. eapply HP; eauto. Qed.

Lemma closed_emit ok P e :
  closed ok P -> ok e = true -> preserves (on_log P) (emit e).
Proof. intros HP He. apply log_emit. intros fs t fs' H Ha. eapply HP; eauto. Qed.

Lemma rdf_event_file metacsv e : rdf_event metacsv e = true -> file_event e = true.
Proof. destruct e; simpl; congruence. Qed.

Lemma make_rdf_closed P metacsv :
  closed (rdf_event metacsv) P -> preserves (on_log P) (make_rdf metacsv).
Proof.
  intros HP. unfold make_rdf.
  apply preserves_bind; [apply log_pure|]. intros e.
  apply preserves_if.
  - apply preserves_bind; [eapply closed_emit; eauto | intros; apply preserves_ret].
  - apply preserves_bind.
    + unfold read_text. apply preserves_bind.
      * eapply closed_emit; eauto. simpl. apply String.eqb_refl.
      * intros _ w Hw. destruct (file_at (w_fs w) metacsv); exact Hw.
    + intros text. apply preserves_bind.
      * generalize (@None MetaRecord).
        induction (dict_rows (csv_reader text)) as [|r rest IH]; intros cur; simpl.
        -- apply preserves_ret.
        -- destruct (read_record (dr_items r)); [apply IH | apply log_raise].
      * intros [m|]; [|apply log_raise].
        apply preserves_bind;
          [eapply closed_emit; eauto; simpl; apply String.eqb_refl|]. intros _.
        apply preserves_bind;
          [eapply closed_emit; eauto; simpl; apply String.eqb_refl|]. intros _.
        apply preserves_ret.
Qed.

Lemma make_rdf_file_only P metacsv :
  closed file_event P -> preserves (on_log P) (make_rdf metacsv).
Proof.
  intros HP. apply make_rdf_closed.
  eapply closed_weaken; [|exact HP]. apply rdf_event_file.
Qed.



Lemma overwrite_asks_app t e fs :
  overwrite_asks (t ++ [(e, fs)]) =
  overwrite_asks t + (if is_overwrite_ask e then 1 else 0).
Proof.
  unfold overwrite_asks, events. rewrite map_app, filter_app, length_app. simpl.
  destruct (is_overwrite_ask e); reflexivity.
Qed.




(** The decision part of a row: it always completes, leaves the disk
    alone, and asks the overwrite question exactly when the object has a
    record and the question has not been asked before. *)
Lemma meta_decide_spec fpath foldname s w :
  let has := exists_ (w_fs w) (path.join (path.join fpath foldname) "metadata.csv") in
  exists skip1 s1 w1,
    meta_decide fpath foldname s w = Ok (skip1, s1) w1 /\
    w_fs w1 = w_fs w /\
    overwrite_asks (w_trace w1) =
      overwrite_asks (w_trace w) + (if (has && firstone s)%bool then 1 else 0) /\
    firstone s1 = (firstone s && negb has)%bool /\
    (firstone s = false -> overwrite_all s1 = overwrite_all s) /\
    (firstone s = true -> has = true ->
       exists fs, In (EvAsk overwrite_msg (overwrite_all s1), fs) (w_trace w1)) /\
    (has = true -> overwrite_all s1 = false -> skip1 = true) /\
    nfiles s1 = nfiles s /\ rfiles s1 = rfiles s.
Proof.
  intros has. subst has. unfold meta_decide, bind, path_exists, ret. cbv beta.
  destruct (exists_ (w_fs w) (path.join (path.join fpath foldname) "data"));
    repeat (cbv beta; cbn [askyesno emit Sem.apply_event w_fs w_trace w_asked w_ids w_clock]);
    destruct (exists_ (w_fs w) (path.join (path.join fpath foldname) "metadata.csv")) eqn:Eh;
    destruct (firstone s) eqn:Ef;
    repeat (cbv beta;
            cbn [askyesno emit Sem.apply_event w_fs w_trace w_asked w_ids w_clock
                 overwrite_all firstone nfiles rfiles andb negb]);
    rewrite ?Eh; cbn [andb negb];
    (do 3 eexists; split; [reflexivity|]);
    cbn [w_fs w_trace overwrite_all firstone nfiles rfiles];
    rewrite ?overwrite_asks_app; cbn [is_overwrite_ask];
    repeat split; try discriminate; try (simpl; lia); auto;
    try (intros _ ->; reflexivity);
    try (intros _ _; eexists; apply in_or_app; right; left; reflexivity).
Qed.



End Overwrite.

(* ================================================================== *)
(** * Joined paths *)

Unset Implicit Arguments.

(** A name as a directory lists it: not empty, not [.] or [..], and with
    no separator in it. *)
Definition plain (n : string) : bool :=
  (negb (String.eqb n "") && negb (String.eqb n ".") && negb (String.eqb n "..")
   && negb (Str.has_char Str.sep n))%bool.

Module PathFacts.

Import Str FS.

Lemma split_nonempty c s : Str.split c s <> [].
Proof.
  destruct s as [|a r]; simpl; [discriminate|].
  destruct (Ascii.eqb a c); [discriminate|].
  destruct (Str.split c r); discriminate.
Qed.

Lemma split_nosep c n : has_char c n = false -> Str.split c n = [n].
Proof.
  induction n as [|a r IH]; simpl; intros H; [reflexivity|].
  apply orb_false_iff in H. destruct H as [Ha Hr]. rewrite Ha, (IH Hr). reflexivity.
Qed.

Lemma split_app_sep c a b :
  Str.split c (a +++ String c b) = Str.split c a ++ Str.split c b.
Proof.
  induction a as [|x a IH]; simpl.
  - rewrite Ascii.eqb_refl. reflexivity.
  - destruct (Ascii.eqb x c); [rewrite IH; reflexivity|].
    rewrite IH. destruct (Str.split c a) as [|w ws] eqn:E.
    + exfalso. eapply split_nonempty; eauto.
    + reflexivity.
Qed.

(** Text without a separator, appended after a trailing separator, is
    the last component. *)
Lemma split_app_last_ne c a n :
  has_char c n = false -> endswith_char c a = true ->
  exists x xs, Str.split c (a +++ n) = (x :: xs) ++ [n].
Proof.
  intros Hn. induction a as [|x a IH]; intros He; [discriminate|].
  destruct a as [|y a'].
  - simpl in He. simpl. rewrite He. rewrite (split_nosep _ _ Hn). exists "", []. reflexivity.
  - assert (He' : endswith_char c (String y a') = true) by exact He.
    destruct (IH He') as (w & ws & Hxs).
    change (String x (String y a') +++ n) with (String x (String y a' +++ n)).
    cbn [Str.split]. rewrite Hxs. destruct (Ascii.eqb x c).
    + exists "", (w :: ws). reflexivity.
    + exists (String x w), ws. reflexivity.
Qed.

Lemma split_app_last c a n :
  has_char c n = false -> endswith_char c a = true ->
  exists xs, Str.split c (a +++ n) = xs ++ [n].
Proof.
  intros Hn He. destruct (split_app_last_ne c a n Hn He) as (x & xs & H). eauto.
Qed.

Lemma plain_inv n :
  plain n = true ->
  n <> "" /\ n <> "." /\ n <> ".." /\ has_char sep n = false.
Proof.
  unfold plain. rewrite !andb_true_iff, !negb_true_iff.
  intros [[[H1 H2] H3] H4]. repeat split; try assumption;
    intros ->; discriminate.
Qed.

Lemma plain_no_leading_sep n : plain n = true -> startswith_char sep n = false.
Proof.
  intros H. destruct (plain_inv _ H) as (_ & _ & _ & Hs).
  destruct n as [|a r]; [reflexivity|]. simpl in *.
  apply orb_false_iff in Hs. tauto.
Qed.

(** The last component of a joined path is the name joined. *)
Lemma split_join d n :
  plain n = true -> exists xs, Str.split sep (path.join d n) = xs ++ [n].
Proof.
  intros H. destruct (plain_inv _ H) as (_ & _ & _ & Hs).
  unfold path.join. rewrite (plain_no_leading_sep _ H).
  destruct (String.eqb_spec d "") as [->|Hd]; cbn [orb].
  - simpl. rewrite (split_nosep _ _ Hs). exists []. reflexivity.
  - destruct (endswith_char sep d) eqn:E.
    + apply split_app_last; assumption.
    + change (d +++ "/" +++ n) with (d +++ String sep n).
      rewrite split_app_sep, (split_nosep _ _ Hs). eauto.
Qed.

Lemma canon_from_last root xs n :
  n <> "" -> n <> "." -> n <> ".." ->
  forall acc cp,
    canon_from root acc (xs ++ [n]) = Some cp ->
    exists cd, cp = cd ++ [n] /\ canon_from root acc xs = Some cd /\
               is_dir (get root cd) = true.
Proof.
  intros H1 H2 H3. induction xs as [|x r IH]; intros acc cp H; cbn [app canon_from] in *.
  - destruct (is_dir (get root acc)) eqn:Ed; [|discriminate].
    destruct (String.eqb_spec n ""); [contradiction|].
    destruct (String.eqb_spec n "."); [contradiction|]. cbn [orb] in H.
    destruct (String.eqb_spec n ".."); [contradiction|].
    inversion H; subst. eauto.
  - destruct (is_dir (get root acc)); [|discriminate].
    destruct (String.eqb x "" || String.eqb x ".")%bool; [apply IH; assumption|].
    destruct (String.eqb x ".."); apply IH; assumption.
Qed.

(** A joined path resolves to the canonical path of a directory followed
    by the name joined. *)
Lemma canon_join root d n cp :
  plain n = true -> canon root (path.join d n) = Some cp ->
  exists cd, cp = cd ++ [n] /\ is_dir (get root cd) = true.
Proof.
  intros H Hc. destruct (plain_inv _ H) as (H1 & H2 & H3 & _).
  unfold canon in Hc. destruct (String.eqb (path.join d n) ""); [discriminate|].
  destruct (split_join d n H) as [xs Hxs]. rewrite Hxs in Hc.
  destruct (canon_from_last root xs n H1 H2 H3 _ _ Hc) as (cd & -> & _ & Hd). eauto.
Qed.

(** Paths joined with different names are different places. *)
Lemma canon_join_neq root root' d d' n m cp cq :
  plain n = true -> plain m = true -> n <> m ->
  canon root (path.join d n) = Some cp ->
  canon root' (path.join d' m) = Some cq ->
  cp <> cq.
Proof.
  intros Hn Hm Hne Hp Hq.
  destruct (canon_join _ _ _ _ Hn Hp) as (cd & -> & _).
  destruct (canon_join _ _ _ _ Hm Hq) as (cd' & -> & _).
  intros E. apply app_inj_tail in E. destruct E. congruence.
Qed.

End PathFacts.

(* ================================================================== *)
(** * Steps of a run *)

(** The log of [w'] is the log of [w] followed by [l]. *)
Definition steps_since (w w' : World) (l : list (Event * node)) : Prop :=
  w_trace w' = w_trace w ++ l.

Section Steps.

Context {env : Env}.

Lemma steps_refl w : steps_since w w [].
Proof. unfold steps_since. rewrite app_nil_r. reflexivity. Qed.

Lemma steps_trans w1 w2 w3 l1 l2 :
  steps_since w1 w2 l1 -> steps_since w2 w3 l2 -> steps_since w1 w3 (l1 ++ l2).
Proof. unfold steps_since. intros H1 H2. rewrite H2, H1, app_assoc. reflexivity. Qed.

Lemma steps_added w w' l : steps_since w w' l -> added w w' = events l.
Proof.
  unfold steps_since, added, events. intros ->.
  rewrite map_app, <- (length_map fst (w_trace w)), skipn_app, Nat.sub_diag, skipn_all.
  reflexivity.
Qed.

Lemma bind_ok A B (m : M A) (f : A -> M B) w b w2 :
  bind m f w = Ok b w2 -> exists a w1, m w = Ok a w1 /\ f a w1 = Ok b w2.
Proof.
  unfold bind. destruct (m w) as [a w1|e w1]; [eauto | discriminate].
Qed.

Lemma emit_ok e w u w1 :
  emit e w = Ok u w1 ->
  Sem.apply_event e (w_fs w) = Some (w_fs w1) /\
  steps_since w w1 [(e, w_fs w1)] /\
  w_asked w1 = w_asked w /\ w_ids w1 = w_ids w /\ w_clock w1 = w_clock w.
Proof.
  unfold emit, steps_since. destruct (Sem.apply_event e (w_fs w)) as [fs'|]; [|discriminate].
  intros H. inversion H; subst. simpl. auto.
Qed.


(** The steps of a loop of writes. *)
Lemma foldM_emit_ok A (f : A -> Event) (l : list A) w w1 :
  foldM (fun x _ => emit (f x)) l tt w = Ok tt w1 ->
  exists st, steps_since w w1 st /\ events st = map f l.
Proof.
  revert w. induction l as [|x r IH]; intros w H; simpl in H.
  - inversion H; subst. exists []. split; [apply steps_refl | reflexivity].
  - apply bind_ok in H. destruct H as ([] & w' & He & Hr).
    apply emit_ok in He. destruct He as (_ & Hs & _).
    destruct (IH _ Hr) as (st & Hst & Hev).
    exists ((f x, w_fs w') :: st). split.
    + apply (steps_trans _ _ _ _ _ Hs Hst).
    + simpl. rewrite Hev. reflexivity.
Qed.

(** The steps a run added are what a [closed] property sees. *)
Definition grown_by (ok : Event -> bool) (w0 : World) : node -> list (Event * node) -> Prop :=
  fun _ t => exists l, t = w_trace w0 ++ l /\ Forall (fun st => ok (fst st) = true) l.

Lemma grown_by_closed ok w0 : closed ok (grown_by ok w0).
Proof.
  intros fs t e fs' (l & -> & Hl) He _. exists (l ++ [(e, fs')]).
  split; [rewrite app_assoc; reflexivity|].
  apply Forall_app. split; [assumption|]. constructor; [exact He | constructor].
Qed.

Lemma grown_by_start ok w0 : on_log (grown_by ok w0) w0.
Proof. exists []. split; [rewrite app_nil_r; reflexivity | constructor]. Qed.

End Steps.

(* ================================================================== *)
(** * Calls on files keep the directories *)

Module FileEvents.

Import FS FSFacts Frame FileFrame.

Lemma remove_spec root p root' :
  Sem.apply_event (EvRemove p) root = Some root' ->
  exists cp, canon root p = Some cp /\ is_file (get root cp) = true /\
             get root' cp = None /\ same_dirs root root' /\
             (forall cq, cq <> cp -> content (get root' cq) = content (get root cq)).
Proof.
  intros H. destruct (SemFacts.remove_inv _ _ H) as (cp & Hc & Hf & Hp).
  pose proof (get_put_same _ _ _ Hp) as Hg.
  assert (Hd : is_dir (get root cp) = false)
    by (destruct (get root cp) as [[?|?]|]; simpl in *; congruence).
  assert (Hd' : is_dir (get root' cp) = false) by (rewrite Hg; reflexivity).
  destruct (touch_file (touch_put _ _ _ Hp) Hd Hd') as [Hs Ho].
  exists cp. repeat split; auto.
Qed.

Lemma file_event_same_dirs e fs fs' :
  file_event e = true -> Sem.apply_event e fs = Some fs' -> same_dirs fs fs'.
Proof.
  destruct e; simpl; intros He H; try discriminate.
  - destruct (write_file_spec _ _ _ H) as (cp & d & _ & _ & _ & _ & Hs & _). exact Hs.
  - destruct (write_file_spec _ _ _ H) as (cp & d & _ & _ & _ & _ & Hs & _). exact Hs.
  - destruct (write_file_spec _ _ _ H) as (cp & d & _ & _ & _ & _ & Hs & _). exact Hs.
  - destruct (remove_spec _ _ _ H) as (cp & _ & _ & _ & Hs & _). exact Hs.
  - destruct (is_file (lookup fs p)); inversion H; subst. apply same_dirs_refl.
  - inversion H; subst. apply same_dirs_refl.
  - inversion H; subst. apply same_dirs_refl.
Qed.

Lemma same_dirs_isdir a b p : same_dirs a b -> isdir a p = isdir b p.
Proof.
  intros H. unfold isdir, lookup. rewrite (same_dirs_canon p H).
  destruct (canon b p) as [cp|]; [apply H | reflexivity].
Qed.

(** The path a call on a file writes to. *)
Definition target (e : Event) : option string :=
  match e with
  | EvTruncate p | EvOpenAppend p | EvAppend p _ | EvRemove p => Some p
  | _ => None
  end.

(** A call on a file changes the bytes found at its own place only. *)
Lemma file_event_frame e fs fs' q :
  file_event e = true -> Sem.apply_event e fs = Some fs' ->
  (forall p cp, target e = Some p -> canon fs p = Some cp -> canon fs q <> Some cp) ->
  file_at fs' q = file_at fs q /\ exists_ fs' q = exists_ fs q.
Proof.
  intros He H Hq. pose proof (file_event_same_dirs _ _ _ He H) as Hs.
  assert (Hgen : forall cq, canon fs q = Some cq ->
                            content (get fs' cq) = content (get fs cq) ->
                            file_at fs' q = file_at fs q /\ exists_ fs' q = exists_ fs q).
  { intros cq Ecq Hc. unfold file_at, exists_, lookup.
    rewrite <- (same_dirs_canon q Hs), Ecq. split; [exact Hc|].
    specialize (Hs cq).
    destruct (get fs cq) as [[?|?]|], (get fs' cq) as [[?|?]|]; simpl in *;
      try reflexivity; try discriminate. }
  destruct (canon fs q) as [cq|] eqn:Ecq.
  2:{ unfold file_at, exists_, lookup. rewrite <- (same_dirs_canon q Hs), Ecq. auto. }
  apply (Hgen cq eq_refl).
  destruct e; simpl in He, H; try discriminate.
  - destruct (write_file_spec _ _ _ H) as (cp & d & Hc & _ & _ & _ & _ & Ho).
    apply Ho. intros ->. exact (Hq p cp eq_refl Hc eq_refl).
  - destruct (write_file_spec _ _ _ H) as (cp & d & Hc & _ & _ & _ & _ & Ho).
    apply Ho. intros ->. exact (Hq p cp eq_refl Hc eq_refl).
  - destruct (write_file_spec _ _ _ H) as (cp & d & Hc & _ & _ & _ & _ & Ho).
    apply Ho. intros ->. exact (Hq p cp eq_refl Hc eq_refl).
  - destruct (remove_spec _ _ _ H) as (cp & Hc & _ & _ & _ & Ho).
    apply Ho. intros ->. exact (Hq p cp eq_refl Hc eq_refl).
  - destruct (is_file (lookup fs p)); inversion H; subst. reflexivity.
  - inversion H; subst. reflexivity.
  - inversion H; subst. reflexivity.
Qed.




End FileEvents.

(* ================================================================== *)
(** * Registration: the order of the calls *)

Section RegistrationFacts.

Context {env : Env} {csvlib : Csv} {rdflib : Rdflib}.

Import FS Registration.

Lemma register_update_file_only P logfile fopath :
  closed file_event P -> preserves (on_log P) (register_update logfile fopath).
Proof.
  intros HP. unfold register_update, gen_ID.
  apply preserves_bind.
  { apply preserves_bind; [apply log_uuid | intros; apply preserves_ret]. }
  intros newID. apply preserves_bind.
  { unfold read_text. apply preserves_bind; [eapply closed_emit; eauto|].
    intros _ w Hw. destruct (file_at (w_fs w) _); exact Hw. }
  intros text. destruct (set_identifier newID (csv_reader text)) as [lines|]; [|apply log_raise].
  destruct (cell lines 1); [|apply log_raise].
  apply preserves_bind; [apply log_time|]. intros log3.
  destruct (cell lines 3); [|apply log_raise].
  apply preserves_bind; [eapply closed_emit; eauto|]. intros _.
  apply preserves_bind; [eapply closed_emit; eauto|]. intros _.
  apply preserves_bind; [eapply closed_emit; eauto|]. intros _.
  apply preserves_bind.
  { apply preserves_foldM. intros x a. eapply closed_emit; eauto. }
  intros _. apply preserves_bind; [apply log_pure|]. intros hasrdf.
  apply preserves_bind.
  { apply preserves_if; [eapply closed_emit; eauto | apply preserves_ret]. }
  intros _. apply preserves_bind; [apply make_rdf_file_only; assumption|].
  intros rdfok. apply preserves_ret.
Qed.

(** The calls of a completed [register_update], in order. *)
Definition update_events (logfile fopath newID log2 log3 log4 : string)
           (lines : list (list string)) (rm rdf : list Event) : list Event :=
  [EvOpenRead (path.join fopath "metadata.csv");
   EvOpenAppend logfile;
   EvAppend logfile (csv_writerow [newID; log2; log3; log4]);
   EvTruncate (path.join fopath "metadata.csv")]
  ++ map (fun row => EvAppend (path.join fopath "metadata.csv") (csv_writerow row)) lines
  ++ rm ++ rdf.

Lemma register_update_ok logfile fopath w newID rdfok w1 :
  register_update logfile fopath w = Ok (newID, rdfok) w1 ->
  exists text header old cells more log2 log4 rm rdf,
    newID = "vtdata_" +++ uuid4 (w_ids w) /\
    file_at (w_fs w) (path.join fopath "metadata.csv") = Some text /\
    csv_reader text = header :: (old :: cells) :: more /\
    nth_error (newID :: cells) 1 = Some log2 /\
    nth_error (newID :: cells) 3 = Some log4 /\
    added w w1 =
      update_events logfile fopath newID log2 (strftime_now (w_clock w)) log4
                    (header :: (newID :: cells) :: more) rm rdf /\
    (rm = [] \/ rm = [EvRemove (path.join fopath "metadata.xml")]) /\
    Forall (fun e => rdf_event (path.join fopath "metadata.csv") e = true) rdf.
Proof.
  unfold register_update. intros H.
  apply bind_ok in H. destruct H as (id & wa & Hid & H).
  unfold gen_ID, bind, uuid_uuid4, ret in Hid. inversion Hid; subst id wa. clear Hid.
  apply bind_ok in H. destruct H as (text & wb & Hrd & H).
  unfold read_text in Hrd. apply bind_ok in Hrd. destruct Hrd as ([] & wb' & Hop & Hrd).
  apply emit_ok in Hop. destruct Hop as (Hfsb & Hsb & Hab & Hib & Hcb).
  simpl in Hfsb. cbn [w_fs] in Hfsb.
  destruct (is_file (lookup (w_fs w) (path.join fopath "metadata.csv"))) eqn:Eif;
    [|discriminate].
  inversion Hfsb as [Hfs']. clear Hfsb.
  destruct (file_at (w_fs wb') (path.join fopath "metadata.csv")) as [d|] eqn:Efa;
    [|discriminate].
  inversion Hrd; subst d wb'. clear Hrd.
  rewrite <- Hfs' in Efa.
  destruct (set_identifier _ (csv_reader text)) as [lines|] eqn:Eset; [|discriminate].
  destruct (cell lines 1) as [log2|] eqn:E1; [|discriminate].
  apply bind_ok in H. destruct H as (log3 & wc & Ht & H).
  unfold time_strftime in Ht. inversion Ht; subst log3 wc. clear Ht.
  destruct (cell lines 3) as [log4|] eqn:E3; [|discriminate].
  apply bind_ok in H. destruct H as ([] & w2 & He2 & H).
  apply emit_ok in He2. destruct He2 as (_ & Hs2 & _).
  apply bind_ok in H. destruct H as ([] & w3 & He3 & H).
  apply emit_ok in He3. destruct He3 as (_ & Hs3 & _).
  apply bind_ok in H. destruct H as ([] & w4 & He4 & H).
  apply emit_ok in He4. destruct He4 as (_ & Hs4 & _).
  apply bind_ok in H. destruct H as ([] & w5 & Hf5 & H).
  apply foldM_emit_ok in Hf5. destruct Hf5 as (st5 & Hs5 & Hev5).
  apply bind_ok in H. destruct H as (hasrdf & w6 & Hx & H).
  unfold path_exists in Hx. inversion Hx; subst hasrdf w6. clear Hx.
  apply bind_ok in H. destruct H as ([] & w7 & Hrm & H).
  assert (Hs7 : exists st7, steps_since w5 w7 st7 /\
                  (events st7 = [] \/ events st7 = [EvRemove (path.join fopath "metadata.xml")])).
  { destruct (exists_ (w_fs w5) (path.join fopath "metadata.xml")).
    - apply emit_ok in Hrm. destruct Hrm as (_ & Hs & _). eexists. split; [exact Hs|].
      right. reflexivity.
    - inversion Hrm; subst. exists []. split; [apply steps_refl | left; reflexivity]. }
  destruct Hs7 as (st7 & Hs7 & Hrm7).
  apply bind_ok in H. destruct H as (ok & w8 & Hrdf & H).
  unfold ret in H. inversion H; subst ok w8. clear H.
  pose proof (make_rdf_closed
                (grown_by_closed (rdf_event (path.join fopath "metadata.csv")) w7) w7
                (grown_by_start _ w7)) as Hg.
  unfold on_log in Hg.
  rewrite Hrdf in Hg. destruct Hg as (st8 & Hs8 & Hall8).
  unfold set_identifier in Eset.
  destruct (csv_reader text) as [|header [|[|old cells] more]] eqn:Ecsv; try discriminate.
  inversion Eset; subst lines. clear Eset.
  exists text, header, old, cells, more, log2, log4, (events st7), (events st8).
  repeat split; auto.
  - pose proof (steps_trans _ _ _ _ _ Hsb
                 (steps_trans _ _ _ _ _ Hs2
                   (steps_trans _ _ _ _ _ Hs3
                     (steps_trans _ _ _ _ _ Hs4
                       (steps_trans _ _ _ _ _ Hs5
                         (steps_trans _ _ _ _ _ Hs7 Hs8)))))) as Hall.
    unfold steps_since in Hall. cbn [w_trace] in Hall.
    rewrite (steps_added w w1 _ Hall). unfold update_events, events.
    rewrite !map_app. cbn [map fst]. fold (events st5). rewrite Hev5.
    cbn [w_clock]. rewrite Hcb. reflexivity.
  - unfold events. apply Forall_map. exact Hall8.
Qed.



Lemma register_entry_go ofolder logfile fo c w :
  isdir (w_fs w) (path.join ofolder fo) = true ->
  exists_ (w_fs w) (path.join (path.join ofolder fo) "metadata.csv") = true ->
  register_entry ofolder logfile fo c w =
  bind (register_update logfile (path.join ofolder fo))
       (fun u =>
          bind (emit (EvRename (path.join ofolder fo)
                               (path.join (path.dirname (path.join ofolder fo)) (fst u))))
               (fun _ => ret {| renamed := renamed c + 1;
                                rfiles := if snd u then rfiles c + 1 else rfiles c |})) w.
Proof.
  intros Hd Hm. unfold register_entry. unfold bind at 1, path_isdir at 1. cbv beta.
  rewrite Hd. cbn [negb]. unfold bind at 1, path_isdir at 1. cbv beta. rewrite Hd.
  unfold bind at 1, path_exists at 1. cbv beta. rewrite Hm. cbn [negb].
  unfold bind at 1. unfold ret at 1. cbn [negb]. reflexivity.
Qed.

(** A completed registration of an object: the update, then the
    rename. *)
Lemma register_entry_ok ofolder logfile fo c w c' w' :
  isdir (w_fs w) (path.join ofolder fo) = true ->
  exists_ (w_fs w) (path.join (path.join ofolder fo) "metadata.csv") = true ->
  register_entry ofolder logfile fo c w = Ok c' w' ->
  exists newID rdfok w1,
    register_update logfile (path.join ofolder fo) w = Ok (newID, rdfok) w1 /\
    steps_since w1 w'
      [(EvRename (path.join ofolder fo)
                 (path.join (path.dirname (path.join ofolder fo)) newID), w_fs w')] /\
    c' = {| renamed := renamed c + 1; rfiles := if rdfok then rfiles c + 1 else rfiles c |}.
Proof.
  intros Hd Hm H. rewrite (register_entry_go _ _ _ _ _ Hd Hm) in H.
  apply bind_ok in H. destruct H as ([newID rdfok] & w1 & Hu & H).
  apply bind_ok in H. destruct H as ([] & w2 & Hr & H).
  unfold ret in H. inversion H; subst. clear H.
  apply emit_ok in Hr. destruct Hr as (_ & Hs & _).
  exists newID, rdfok, w1. cbn [fst snd] in *. auto.
Qed.


(** C1, as the code has it.  [register_obj] never looks at the
    identifier an object already bears: a directory with a
    [metadata.csv] is registered whatever its name and whatever the
    record says.  Every completed pass of the loop body over such a
    directory draws a fresh identifier, appends one audit line with it
    and renames the directory to it; so does a second run over a batch
    that the first run registered. *)
Theorem registration_repeats ofolder logfile fo c (w : World) c' w' :
  isdir (w_fs w) (path.join ofolder fo) = true ->
  exists_ (w_fs w) (path.join (path.join ofolder fo) "metadata.csv") = true ->
  register_entry ofolder logfile fo c w = Ok c' w' ->
  let newID := "vtdata_" +++ uuid4 (w_ids w) in
  renamed c' = renamed c + 1 /\
  exists pre log2 log3 log4,
    added w w' =
      pre ++ [EvRename (path.join ofolder fo)
                       (path.join (path.dirname (path.join ofolder fo)) newID)] /\
    In (EvAppend logfile (csv_writerow [newID; log2; log3; log4])) pre /\
    Forall (fun e => file_event e = true) pre.
Proof.
  intros Hd Hm Er newID.
  destruct (register_entry_ok _ _ _ _ _ _ _ Hd Hm Er) as (id & rdfok & w1 & Hu & Hs & Hc).
  subst c'. split; [reflexivity|].
  destruct (register_update_ok _ _ _ _ _ _ Hu)
    as (text & header & old & cells & more & log2 & log4 & rm & rdf &
        Hid & Hf & Hcsv & _ & _ & Hadd & Hrm & Hrdf).
  subst id. fold newID in Hs, Hadd.
  pose proof (register_update_file_only _ logfile (path.join ofolder fo)
                (grown_by_closed file_event w) w (grown_by_start _ w)) as Hg.
  unfold on_log in Hg. rewrite Hu in Hg. cbn [final_world] in Hg.
  destruct Hg as (l & Hl & Hall).
  exists (events l), log2, (strftime_now (w_clock w)), log4.
  assert (Hev : added w w1 = events l) by (apply steps_added; exact Hl).
  split; [|split].
  - unfold steps_since in Hs. unfold added in *. rewrite Hs.
    unfold events in *. rewrite map_app. rewrite Hl in *. rewrite !map_app in *.
    rewrite <- (length_map fst (w_trace w)) in *.
    rewrite <- app_assoc. rewrite skipn_app, Nat.sub_diag, skipn_all in *.
    reflexivity.
  - rewrite <- Hev, Hadd. unfold update_events. simpl. auto.
  - unfold events. apply Forall_map. exact Hall.
Qed.

End RegistrationFacts.

(* ================================================================== *)
(** * Checksums: one pass per digest *)

Definition is_lower_hex (c : ascii) : bool :=
  Str.has_char c "0123456789abcdef".

Fixpoint all_chars (f : ascii -> bool) (s : string) : bool :=
  match s with
  | EmptyString => true
  | String a r => f a && all_chars f r
  end.

Section ChecksumFacts.

Context {env : Env} {hashlib : Hashlib}.

Import FS Checksum.

Lemma firstn_skipn_str n s : Str.firstn n s +++ Str.skipn n s = s.
Proof.
  revert s. induction n as [|k IH]; intros s; [reflexivity|].
  destruct s as [|a r]; [reflexivity|]. simpl. rewrite IH. reflexivity.
Qed.

Lemma length_skipn_str n s : String.length (Str.skipn n s) = String.length s - n.
Proof.
  revert s. induction n as [|k IH]; intros s; simpl; [lia|].
  destruct s as [|a r]; simpl; [reflexivity | apply IH].
Qed.

Lemma length_firstn_str n s : String.length (Str.firstn n s) = Nat.min n (String.length s).
Proof.
  revert s. induction n as [|k IH]; intros s; simpl; [reflexivity|].
  destruct s as [|a r]; simpl; [reflexivity | rewrite IH; reflexivity].
Qed.

(** The chunks are the file, cut into pieces of [n] bytes, the last one
    possibly shorter; none is empty. *)
Lemma chunks_from_spec n : 0 < n -> forall fuel rest,
  String.length rest <= fuel ->
  String.concat "" (chunks_from fuel n rest) = rest /\
  Forall (fun c => 0 < String.length c <= n) (chunks_from fuel n rest).
Proof.
  intros Hn. induction fuel as [|k IH]; intros rest Hlen.
  - destruct rest; [|simpl in Hlen; lia]. simpl. split; [reflexivity | constructor].
  - destruct rest as [|a r]; [simpl; split; [reflexivity | constructor]|].
    cbn [chunks_from].
    assert (Hk : String.length (Str.skipn n (String a r)) <= k).
    { rewrite length_skipn_str. cbn [String.length] in *. lia. }
    destruct (IH _ Hk) as [Hc Hall]. split.
    + cbn [String.concat].
      destruct (chunks_from k n (Str.skipn n (String a r))) as [|c cs] eqn:E.
      * simpl in Hc. rewrite <- (firstn_skipn_str n (String a r)) at 2.
        rewrite <- Hc. clear. induction (Str.firstn n (String a r)); simpl; congruence.
      * rewrite Hc. simpl. apply (firstn_skipn_str n (String a r)).
    + constructor; [|exact Hall].
      rewrite length_firstn_str. cbn [String.length]. lia.
Qed.

Lemma chunks_spec n data : 0 < n ->
  String.concat "" (chunks n data) = data /\
  Forall (fun c => 0 < String.length c <= n) (chunks n data).
Proof. intros Hn. apply chunks_from_spec; [assumption | apply le_n]. Qed.

Lemma hexdigit_lower n : is_lower_hex (hexdigit n) = true.
Proof. do 16 (destruct n as [|n]; [reflexivity|]). reflexivity. Qed.

Lemma hexlify_lower bytes : all_chars is_lower_hex (hexlify bytes) = true.
Proof.
  induction bytes as [|b r IH]; [reflexivity|].
  cbn [hexlify all_chars]. rewrite !hexdigit_lower, IH. reflexivity.
Qed.

Lemma hexlify_length bytes : String.length (hexlify bytes) = 2 * List.length bytes.
Proof. induction bytes as [|b r IH]; simpl; [reflexivity | rewrite IH; lia]. Qed.

(** The read loop: every chunk goes to the one accumulator. *)
Lemma read_loop_ok (alg : HashAlg) p n cs st w :
  foldM (fun chunk st => emit (EvRead p n chunk) ;; ret (h_update alg st chunk))%M cs st w =
  Ok (fold_left (h_update alg) cs st)
     (mkWorld (w_fs w) (w_trace w ++ map (fun c => (EvRead p n c, w_fs w)) cs)
              (w_asked w) (w_ids w) (w_clock w)).
Proof.
  revert st w. induction cs as [|c r IH]; intros st w; simpl.
  - unfold ret. rewrite app_nil_r. destruct w; reflexivity.
  - unfold bind at 1. unfold bind at 1. unfold emit. simpl. unfold ret at 1.
    rewrite IH. simpl. rewrite <- app_assoc. reflexivity.
Qed.

(** The calls of one pass over a file. *)
Definition pass_events (p : string) (n : nat) (data : string) : list Event :=
  EvOpenRead p :: map (EvRead p n) (chunks n data) ++ [EvRead p n ""].

Lemma hash_file_ok (alg : HashAlg) n p w data :
  file_at (w_fs w) p = Some data ->
  exists w1,
    hash_file alg n p w =
      Ok (hexdigest alg (fold_left (h_update alg) (chunks n data) (h_new alg))) w1 /\
    w_fs w1 = w_fs w /\ w_asked w1 = w_asked w /\ w_ids w1 = w_ids w /\
    w_clock w1 = w_clock w /\
    exists st, steps_since w w1 st /\ events st = pass_events p n data /\
               Forall (fun x => snd x = w_fs w) st.
Proof.
  intros Hf. unfold hash_file.
  assert (Hif : is_file (lookup (w_fs w) p) = true).
  { unfold file_at in Hf. destruct (lookup (w_fs w) p) as [[?|?]|]; try discriminate.
    reflexivity. }
  unfold bind at 1. unfold emit at 1. simpl Sem.apply_event. rewrite Hif.
  unfold bind at 1. cbn [w_fs]. rewrite Hf.
  unfold bind at 1. rewrite read_loop_ok. cbn [w_fs w_trace w_asked w_ids w_clock].
  unfold bind, emit, ret. simpl Sem.apply_event. cbn [w_fs w_trace w_asked w_ids w_clock].
  eexists. split; [reflexivity|]. cbn [w_fs w_trace w_asked w_ids w_clock].
  repeat split.
  exists ((EvOpenRead p, w_fs w) ::
          map (fun c => (EvRead p n c, w_fs w)) (chunks n data) ++ [(EvRead p n "", w_fs w)]).
  split; [|split].
  - unfold steps_since. cbn [w_trace]. rewrite <- !app_assoc. reflexivity.
  - unfold events, pass_events. cbn [map fst]. rewrite map_app, map_map. reflexivity.
  - constructor; [reflexivity|]. apply Forall_app. split.
    + apply Forall_map. apply Forall_forall. reflexivity.
    + constructor; [reflexivity | constructor].
Qed.

End ChecksumFacts.

(* ================================================================== *)
(** * Inventory: one file *)

Section InventoryFile.

Context {env : Env} {hashlib : Hashlib} {platform : Platform}.

Import FS Checksum Inventory.

Lemma hash_file_reads (alg : HashAlg) n p w r w1 :
  hash_file alg n p w = Ok r w1 -> exists data, file_at (w_fs w) p = Some data.
Proof.
  unfold hash_file. intros H. apply bind_ok in H. destruct H as ([] & wa & He & H).
  apply emit_ok in He. destruct He as (Ha & _). simpl in Ha.
  destruct (is_file (lookup (w_fs w) p)) eqn:E; [|discriminate].
  unfold file_at. destruct (lookup (w_fs w) p) as [[d|es]|]; simpl in *; try discriminate E.
  eauto.
Qed.

(** The row written for a file with bytes [data], numbered [rownum], at
    the time [runtime]. *)
Definition manifest_row (workdir base name : string) (rownum : nat) (data runtime : string)
  : string * string :=
  let filepathname := path.join base name in
  let statinfo := os_stat filepathname in
  (row_head (str_nat rownum) name (convert_size (String.length data))
            (match guess_type filepathname with Some t => t | None => "None" end)
            (strftime_local (st_ctime statinfo)) (strftime_local (st_mtime statinfo))
            (strftime_local (st_atime statinfo))
            (hexdigest hashlib_md5
               (fold_left (h_update hashlib_md5) (chunks 4096 data) (h_new hashlib_md5)))
            (hexdigest hashlib_sha3_256
               (fold_left (h_update hashlib_sha3_256) (chunks DEFAULT_BUFFER_SIZE data)
                          (h_new hashlib_sha3_256)))
            runtime (path.relpath filepathname workdir),
   row_tail (str_nat (st_mode statinfo)) (str_nat (st_ino statinfo))
            (str_nat (st_dev statinfo)) (str_nat (st_nlink statinfo))
            (str_nat (st_uid statinfo)) (str_nat (st_gid statinfo))).

(** The calls made for a file that is listed: the two passes, then the
    two writes. *)
Definition listed_events (temp workdir base name : string) (rownum : nat)
           (data runtime : string) : list Event :=
  let fp := path.join base name in
  pass_events fp 4096 data ++ pass_events fp DEFAULT_BUFFER_SIZE data ++
  [EvAppend temp (fst (manifest_row workdir base name rownum data runtime));
   EvAppend temp (snd (manifest_row workdir base name rownum data runtime))].

Lemma inventory_file_ok temp workdir base name counter w c' w' :
  inventory_file temp workdir base name counter w = Ok c' w' ->
  let fp := path.join base name in
  (path.basename fp = ".DS_Store" /\ c' = counter /\
   steps_since w w' [(EvRemove fp, w_fs w')] /\ w_clock w' = w_clock w) \/
  (path.basename fp <> ".DS_Store" /\ c' = counter + 1 /\
   w_clock w' = S (w_clock w) /\
   exists data st,
     file_at (w_fs w) fp = Some data /\ steps_since w w' st /\
     events st = listed_events temp workdir base name (counter + 1) data
                               (strftime_now (w_clock w))).
Proof.
  unfold inventory_file. intros H. cbv zeta. set (fp := path.join base name) in *.
  destruct (String.eqb_spec (path.basename fp) ".DS_Store") as [Eb|Eb].
  - left. apply bind_ok in H. destruct H as ([] & w1 & He & H).
    unfold ret in H. inversion H; subst. apply emit_ok in He.
    destruct He as (_ & Hs & _ & _ & Hc). auto.
  - right. apply bind_ok in H. destruct H as (filesize & w1 & Hst & H).
    assert (Hw1 : w1 = w).
    { unfold stat_size in Hst. destruct (lookup (w_fs w) fp) as [[?|?]|]; inversion Hst; auto. }
    subst w1.
    apply bind_ok in H. destruct H as (md5sum & w2 & Hm & H).
    unfold md5 in Hm. destruct (hash_file_reads _ _ _ _ _ _ Hm) as [data Hf].
    destruct (hash_file_ok hashlib_md5 4096 fp w data Hf)
      as (w2' & Hm' & Hfs2 & Ha2 & Hi2 & Hc2 & st2 & Hs2 & Hev2 & _).
    rewrite Hm' in Hm. inversion Hm; subst md5sum w2'. clear Hm Hm'.
    apply bind_ok in H. destruct H as (sha3sum & w3 & Hs & H).
    unfold sha3hash in Hs. rewrite <- Hfs2 in Hf.
    destruct (hash_file_ok hashlib_sha3_256 DEFAULT_BUFFER_SIZE fp w2 data Hf)
      as (w3' & Hs' & Hfs3 & Ha3 & Hi3 & Hc3 & st3 & Hs3 & Hev3 & _).
    rewrite Hs' in Hs. inversion Hs; subst sha3sum w3'. clear Hs Hs'.
    apply bind_ok in H. destruct H as (runtime & w4 & Ht & H).
    unfold time_strftime in Ht. inversion Ht; subst runtime w4. clear Ht.
    apply bind_ok in H. destruct H as ([] & w5 & He5 & H).
    apply emit_ok in He5. destruct He5 as (_ & Hs5 & _ & _ & Hc5).
    apply bind_ok in H. destruct H as ([] & w6 & He6 & H).
    apply emit_ok in He6. destruct He6 as (_ & Hs6 & _ & _ & Hc6).
    unfold ret in H. inversion H; subst c' w6. clear H.
    split; [exact Eb|]. split; [reflexivity|].
    split; [rewrite Hc6, Hc5; cbn [w_clock]; congruence|].
    rewrite Hfs2 in Hf. exists data. eexists. split; [exact Hf|]. split.
    + unfold steps_since in *. cbn [w_trace] in Hs5.
      rewrite Hs6, Hs5, Hs3, Hs2. rewrite <- !app_assoc. reflexivity.
    + unfold events in *. rewrite !map_app, Hev2, Hev3. cbn [map fst].
      unfold listed_events, manifest_row. cbn [fst snd]. fold fp.
      assert (Hsz : filesize = String.length data).
      { unfold stat_size in Hst. unfold file_at in Hf.
        destruct (lookup (w_fs w) fp) as [[d|es]|]; simpl in Hf; inversion Hf; subst.
        inversion Hst. reflexivity. }
      rewrite Hsz, Hc3, Hc2. reflexivity.
Qed.

(** C2, as the code has it.  Each digest has a pass of its own over the
    file: [md5] opens it, reads it to the end in chunks of 4096 bytes and
    feeds every chunk to the MD5 accumulator alone; [sha3hash] opens it
    again, reads it in chunks of [io.DEFAULT_BUFFER_SIZE] bytes and feeds
    every chunk to the SHA3-256 accumulator alone.  In each pass the
    chunks are the whole file, in order, none longer than the chunk
    size, and the result is the digest in lowercase hexadecimal.  A row
    of the manifest calls both, so an inventoried file is read twice. *)
Theorem checksum_pass_per_digest finame (w : World) data :
  file_at (w_fs w) finame = Some data ->
  let md5_state :=
    fold_left (h_update hashlib_md5) (chunks 4096 data) (h_new hashlib_md5) in
  let sha3_state :=
    fold_left (h_update hashlib_sha3_256) (chunks DEFAULT_BUFFER_SIZE data)
              (h_new hashlib_sha3_256) in
  (exists w1, md5 finame w = Ok (hexdigest hashlib_md5 md5_state) w1 /\
              w_fs w1 = w_fs w /\ added w w1 = pass_events finame 4096 data) /\
  (exists w1, sha3hash finame w = Ok (hexdigest hashlib_sha3_256 sha3_state) w1 /\
              w_fs w1 = w_fs w /\
              added w w1 = pass_events finame DEFAULT_BUFFER_SIZE data) /\
  String.concat "" (chunks 4096 data) = data /\
  String.concat "" (chunks DEFAULT_BUFFER_SIZE data) = data /\
  Forall (fun c => 0 < String.length c <= 4096) (chunks 4096 data) /\
  Forall (fun c => 0 < String.length c <= DEFAULT_BUFFER_SIZE)
         (chunks DEFAULT_BUFFER_SIZE data) /\
  all_chars is_lower_hex (hexdigest hashlib_md5 md5_state) = true /\
  all_chars is_lower_hex (hexdigest hashlib_sha3_256 sha3_state) = true /\
  (forall temp workdir base name counter c' w',
      path.join base name = finame ->
      path.basename finame <> ".DS_Store" ->
      inventory_file temp workdir base name counter w = Ok c' w' ->
      exists row1 row2,
        added w w' =
          pass_events finame 4096 data ++ pass_events finame DEFAULT_BUFFER_SIZE data ++
          [EvAppend temp row1; EvAppend temp row2]).
Proof.
  intros Hf md5_state sha3_state.
  assert (H4096 : 0 < 4096) by (apply Nat.lt_0_succ).
  assert (Hbuf : 0 < DEFAULT_BUFFER_SIZE) by (unfold DEFAULT_BUFFER_SIZE; apply Nat.ltb_lt; reflexivity).
  destruct (chunks_spec 4096 data H4096) as [Hc1 Hl1].
  destruct (chunks_spec DEFAULT_BUFFER_SIZE data Hbuf) as [Hc2 Hl2].
  repeat split; try assumption; try apply hexlify_lower.
  - destruct (hash_file_ok hashlib_md5 4096 finame w data Hf)
      as (w1 & Hm & Hfs & _ & _ & _ & st & Hs & Hev & _).
    exists w1. repeat split; auto. rewrite (steps_added _ _ _ Hs). exact Hev.
  - destruct (hash_file_ok hashlib_sha3_256 DEFAULT_BUFFER_SIZE finame w data Hf)
      as (w1 & Hm & Hfs & _ & _ & _ & st & Hs & Hev & _).
    exists w1. repeat split; auto. rewrite (steps_added _ _ _ Hs). exact Hev.
  - intros temp workdir base name counter c' w' Hj Hb Hrun.
    destruct (inventory_file_ok _ _ _ _ _ _ _ _ Hrun) as [(Hb' & _)|(_ & _ & _ & d & st & Hd & Hs & Hev)].
    + rewrite Hj in Hb'. contradiction.
    + rewrite Hj in Hd. rewrite Hf in Hd. inversion Hd; subst d.
      rewrite (steps_added _ _ _ Hs), Hev. unfold listed_events. rewrite Hj.
      eauto.
Qed.

End InventoryFile.

(* ================================================================== *)
(** * Base names and directory names *)

Module NameFacts.

Import Str FS PathFacts.

Lemma rsplit_none c p : rsplit c p = None -> has_char c p = false.
Proof.
  induction p as [|a r IH]; simpl; intros H; [reflexivity|].
  destruct (rsplit c r) as [[h t]|]; [discriminate|].
  destruct (Ascii.eqb a c); [discriminate|]. simpl. apply IH. reflexivity.
Qed.

Lemma rsplit_some c p h t :
  rsplit c p = Some (h, t) -> p = h +++ String c t /\ has_char c t = false.
Proof.
  revert h t. induction p as [|a r IH]; simpl; intros h t H; [discriminate|].
  destruct (rsplit c r) as [[h' t']|] eqn:E.
  - inversion H; subst. destruct (IH _ _ eq_refl) as [-> Ht]. split; [reflexivity | exact Ht].
  - destruct (Ascii.eqb_spec a c) as [->|]; [|discriminate].
    inversion H; subst. split; [reflexivity | apply rsplit_none; exact E].
Qed.

Lemma rsplit_app c a o :
  has_char c o = false -> rsplit c (a +++ String c o) = Some (a, o).
Proof.
  intros Ho. induction a as [|x a IH]; simpl.
  - assert (E : rsplit c o = None).
    { clear -Ho. induction o as [|y o IH]; simpl in *; [reflexivity|].
      apply orb_false_iff in Ho. destruct Ho as [Hy Ho]. rewrite (IH Ho), Hy. reflexivity. }
    rewrite E, Ascii.eqb_refl. reflexivity.
  - rewrite IH. reflexivity.
Qed.

(** The last component of a path is its base name. *)
Lemma split_basename p : exists xs, Str.split sep p = xs ++ [path.basename p].
Proof.
  unfold path.basename, path.split.
  destruct (rsplit sep p) as [[h t]|] eqn:E; cbn [snd].
  - destruct (rsplit_some _ _ _ _ E) as [-> Ht].
    rewrite split_app_sep, (split_nosep _ _ Ht). eauto.
  - rewrite (split_nosep _ _ (rsplit_none _ _ E)). exists []. reflexivity.
Qed.

Lemma canon_basename root p n cp :
  path.basename p = n -> n <> "" -> n <> "." -> n <> ".." ->
  canon root p = Some cp -> exists cd, cp = cd ++ [n].
Proof.
  intros Hb H1 H2 H3 Hc. unfold canon in Hc.
  destruct (String.eqb p ""); [discriminate|].
  destruct (split_basename p) as [xs Hxs]. rewrite Hb in Hxs. rewrite Hxs in Hc.
  destruct (canon_from_last root xs n H1 H2 H3 _ _ Hc) as (cd & -> & _). eauto.
Qed.

Lemma all_char_app_false c d x :
  d <> "" -> endswith_char c d = false -> all_char c (d +++ x) = false.
Proof.
  induction d as [|a r IH]; intros Hne He; [congruence|].
  simpl. destruct r as [|b r'].
  - simpl in He. rewrite He. reflexivity.
  - rewrite IH; [apply andb_false_r | discriminate | exact He].
Qed.

Lemma rstrip_app_sep c d :
  d <> "" -> endswith_char c d = false -> rstrip c (d +++ String c "") = d.
Proof.
  induction d as [|a r IH]; intros Hne He; [congruence|].
  destruct r as [|b r'].
  - simpl in *. rewrite Ascii.eqb_refl, He. reflexivity.
  - change (String a (String b r') +++ String c "")
      with (String a (String b r' +++ String c "")).
    cbn [rstrip]. rewrite IH; [reflexivity | discriminate | exact He].
Qed.

(** The directory of a joined path is the directory joined, when that
    has no trailing separator. *)
Lemma dirname_join d o :
  endswith_char sep d = false -> plain o = true ->
  path.dirname (path.join d o) = d.
Proof.
  intros Hd Ho. destruct (plain_inv _ Ho) as (_ & _ & _ & Hs).
  unfold path.join. rewrite (plain_no_leading_sep _ Ho), Hd.
  destruct (String.eqb_spec d "") as [->|Hne]; cbn [orb].
  - unfold path.dirname, path.split. simpl.
    assert (E : rsplit sep o = None).
    { clear -Hs. induction o as [|y o IH]; simpl in *; [reflexivity|].
      apply orb_false_iff in Hs. destruct Hs as [Hy Hs]. rewrite (IH Hs), Hy. reflexivity. }
    rewrite E. reflexivity.
  - unfold path.dirname, path.split.
    change (d +++ "/" +++ o) with (d +++ String sep o).
    rewrite (rsplit_app _ _ _ Hs). cbn [fst].
    change (d +++ "/") with (d +++ String sep "").
    rewrite (all_char_app_false _ _ _ Hne Hd). apply rstrip_app_sep; assumption.
Qed.

End NameFacts.

(* ================================================================== *)
(** * Renaming a regular file *)

Module RenameFacts.

Import FS FSFacts Frame FileFrame.

Lemma rename_file root src dst root' d :
  Sem.rename root src dst = Some root' ->
  file_at root src = Some d ->
  exists cs cd,
    canon root src = Some cs /\ canon root dst = Some cd /\
    same_dirs root root' /\
    (forall cq, cq <> cs -> cq <> cd -> content (get root' cq) = content (get root cq)) /\
    content (get root' cd) = Some d.
Proof.
  unfold Sem.rename, file_at, lookup. intros H Hf.
  destruct (canon root src) as [cs|]; [|discriminate].
  destruct (canon root dst) as [cd|]; [|discriminate].
  destruct (get root cs) as [[d0|es]|] eqn:Egs; try discriminate.
  simpl in Hf. inversion Hf; subst d0. exists cs, cd.
  destruct (list_eq_dec string_dec cs cd) as [->|Hne].
  - inversion H; subst root'. repeat split; auto using same_dirs_refl.
    rewrite Egs. reflexivity.
  - destruct (get root cd) as [[d1|es1]|] eqn:Egd; try discriminate.
    + destruct (put root cs None) as [root1|] eqn:Ep1; [|discriminate].
      assert (D1 : is_dir (get root cs) = false) by (rewrite Egs; reflexivity).
      assert (D1' : is_dir (get root1 cs) = false)
        by (rewrite (get_put_same _ _ _ Ep1); reflexivity).
      destruct (touch_file (touch_put _ _ _ Ep1) D1 D1') as [S1 O1].
      assert (D2 : is_dir (get root1 cd) = false).
      { rewrite <- (S1 cd), Egd. reflexivity. }
      assert (D2' : is_dir (get root' cd) = false)
        by (rewrite (get_put_same _ _ _ H); reflexivity).
      destruct (touch_file (touch_put _ _ _ H) D2 D2') as [S2 O2].
      repeat split; auto.
      * eapply same_dirs_trans; eauto.
      * intros cq H1 H2. rewrite (O2 cq H2). apply O1. exact H1.
      * rewrite (get_put_same _ _ _ H). reflexivity.
    + destruct (put root cs None) as [root1|] eqn:Ep1; [|discriminate].
      assert (D1 : is_dir (get root cs) = false) by (rewrite Egs; reflexivity).
      assert (D1' : is_dir (get root1 cs) = false)
        by (rewrite (get_put_same _ _ _ Ep1); reflexivity).
      destruct (touch_file (touch_put _ _ _ Ep1) D1 D1') as [S1 O1].
      assert (D2 : is_dir (get root1 cd) = false).
      { rewrite <- (S1 cd), Egd. reflexivity. }
      assert (D2' : is_dir (get root' cd) = false)
        by (rewrite (get_put_same _ _ _ H); reflexivity).
      destruct (touch_file (touch_put _ _ _ H) D2 D2') as [S2 O2].
      repeat split; auto.
      * eapply same_dirs_trans; eauto.
      * intros cq H1 H2. rewrite (O2 cq H2). apply O1. exact H1.
      * rewrite (get_put_same _ _ _ H). reflexivity.
Qed.

End RenameFacts.

(* ================================================================== *)
(** * Pre- and postconditions *)

(** [triple P m Q X]: started in a world satisfying [P], [m] ends in a
    world satisfying [Q] if it returns and [X] if it raises. *)
Definition triple (P : World -> Prop) {A} (m : M A) (Q : A -> World -> Prop)
           (X : World -> Prop) : Prop :=
  forall w, P w -> match m w with Ok a w' => Q a w' | Raise _ w' => X w' end.

Section Triples.

Context {env : Env}.

Lemma triple_ret P A (a : A) X : triple P (ret a) (fun _ => P) X.
Proof. intros w H. exact H. Qed.







End Triples.

(* ================================================================== *)
(** * Inventory: the manifest appears whole *)

(** The calls of the walk of one object: appends to the temporary file,
    removals of [.DS_Store] files, and reads. *)
Definition inv_event (temp : string) (e : Event) : bool :=
  match e with
  | EvAppend p _ => String.eqb p temp
  | EvRemove p => String.eqb (path.basename p) ".DS_Store"
  | EvOpenRead _ | EvRead _ _ _ => true
  | _ => false
  end.

Section InventoryClosed.

Context {env : Env} {hashlib : Hashlib} {platform : Platform}.

Import FS Checksum Inventory.




End InventoryClosed.




Section InventoryAtomic.

Context {env : Env} {hashlib : Hashlib} {platform : Platform}.

Import FS Checksum Inventory.

Variables (indir qdir : string) (w0 : World).

Definition temp_of (d : string) : string := path.join d "temp_manifest.csv".
Definition manifest_of (d : string) : string := path.join d "manifest.csv".



Lemma append_assoc_str a b c : (a +++ b) +++ c = a +++ b +++ c.
Proof. induction a as [|x a IH]; simpl; [reflexivity | rewrite IH; reflexivity]. Qed.

Lemma append_nil_r_str a : a +++ "" = a.
Proof. induction a as [|x a IH]; simpl; [reflexivity | rewrite IH; reflexivity]. Qed.


Lemma last_differs (n m : string) (cp : cpath) :
  n <> m -> (exists cd, cp = cd ++ [n]) -> (exists cd, cp = cd ++ [m]) -> False.
Proof.
  intros Hne [cd ->] [cd' H]. apply app_inj_tail in H. destruct H. congruence.
Qed.

(** The place of a manifest is not the place of a temporary file or of a
    [.DS_Store]; nor is the temporary file a [.DS_Store]. *)
Lemma manifest_not_temp fs d d' cp :
  canon fs (temp_of d) = Some cp -> canon fs (manifest_of d') <> Some cp.
Proof.
  intros H1 H2. unfold temp_of, manifest_of in *.
  destruct (PathFacts.canon_join fs d "temp_manifest.csv" cp eq_refl H1) as (c1 & E1 & _).
  destruct (PathFacts.canon_join fs d' "manifest.csv" cp eq_refl H2) as (c2 & E2 & _).
  eapply (last_differs "temp_manifest.csv" "manifest.csv"); eauto. discriminate.
Qed.

Lemma manifest_not_artifact fs p d' cp :
  path.basename p = ".DS_Store" ->
  canon fs p = Some cp -> canon fs (manifest_of d') <> Some cp.
Proof.
  intros Hb H1 H2. unfold manifest_of in *.
  assert (E1 : exists cd, cp = cd ++ [".DS_Store"]).
  { eapply NameFacts.canon_basename; eauto; discriminate. }
  destruct (PathFacts.canon_join fs d' "manifest.csv" cp eq_refl H2) as (c2 & E2 & _).
  eapply (last_differs ".DS_Store" "manifest.csv"); eauto. discriminate.
Qed.

Lemma temp_not_artifact fs p d cp :
  path.basename p = ".DS_Store" ->
  canon fs p = Some cp -> canon fs (temp_of d) <> Some cp.
Proof.
  intros Hb H1 H2. unfold temp_of in *.
  assert (E1 : exists cd, cp = cd ++ [".DS_Store"]).
  { eapply NameFacts.canon_basename; eauto; discriminate. }
  destruct (PathFacts.canon_join fs d "temp_manifest.csv" cp eq_refl H2) as (c2 & E2 & _).
  eapply (last_differs ".DS_Store" "temp_manifest.csv"); eauto. discriminate.
Qed.









End InventoryAtomic.

Section InventoryAtomicRun.

Context {env : Env} {hashlib : Hashlib} {platform : Platform}.

Import Inventory.




End InventoryAtomicRun.

(* ================================================================== *)
(** * Inventory: the rows of the manifest *)

(** Concatenation of the strings written one after the other. *)
Definition cat (l : list string) : string := fold_right String.append "" l.

(** The test of the loop body: an OS artifact is removed, not listed. *)
Definition artifact (f : string * string) : bool :=
  String.eqb (path.basename (path.join (fst f) (snd f))) ".DS_Store".

Definition listed (files : list (string * string)) : list (string * string) :=
  filter (fun f => negb (artifact f)) files.

Section InventoryRows.

Context {env : Env} {hashlib : Hashlib} {platform : Platform}.

Import Checksum Inventory.

(** The text of the row of a file: the two strings written for it. *)
Definition row_text (workdir base name : string) (rownum : nat) (data runtime : string)
  : string :=
  fst (manifest_row workdir base name rownum data runtime) +++
  snd (manifest_row workdir base name rownum data runtime).

(** [rows] are the rows of [files], in order, numbered from [k]. *)
Fixpoint rows_for (workdir : string) (k : nat) (files : list (string * string))
         (rows : list string) : Prop :=
  match files, rows with
  | [], [] => True
  | f :: files', row :: rows' =>
      (exists data runtime, row = row_text workdir (fst f) (snd f) k data runtime) /\
      rows_for workdir (S k) files' rows'
  | _, _ => False
  end.

Lemma rows_for_length workdir k files rows :
  rows_for workdir k files rows -> List.length rows = List.length files.
Proof.
  revert k rows. induction files as [|f r IH]; intros k [|row rows]; simpl; try tauto.
  intros [_ H]. rewrite (IH _ _ H). reflexivity.
Qed.

Lemma rows_for_app workdir k l1 r1 l2 r2 :
  rows_for workdir k l1 r1 -> rows_for workdir (k + List.length r1) l2 r2 ->
  rows_for workdir k (l1 ++ l2) (r1 ++ r2).
Proof.
  revert k r1. induction l1 as [|f l1 IH]; intros k [|row r1]; simpl; try tauto.
  - intros _ H. rewrite Nat.add_0_r in H. exact H.
  - intros [H1 H2] H3. split; [exact H1|]. apply IH; [exact H2|].
    replace (S k + List.length r1) with (k + S (List.length r1)) by lia. exact H3.
Qed.

Lemma cat_app l1 l2 : cat (l1 ++ l2) = cat l1 +++ cat l2.
Proof.
  induction l1 as [|x l1 IH]; simpl; [reflexivity|].
  rewrite IH. symmetry. apply append_assoc_str.
Qed.

Lemma pass_events_inv temp p n data :
  Forall (fun e => inv_event temp e = true) (pass_events p n data).
Proof.
  unfold pass_events. constructor; [reflexivity|].
  apply Forall_app. split; [|constructor; [reflexivity | constructor]].
  apply Forall_map. apply Forall_forall. reflexivity.
Qed.

Lemma pass_events_no_remove p n data :
  Forall (fun e => match e with EvRemove _ => False | _ => True end) (pass_events p n data).
Proof.
  unfold pass_events. constructor; [exact I|].
  apply Forall_app. split; [|constructor; [exact I | constructor]].
  apply Forall_map. apply Forall_forall. intros; exact I.
Qed.

(** One file, with the disks: an artifact is removed; for a listed file
    the two passes leave the disk alone and the two writes follow. *)
Lemma inventory_file_disks temp workdir base name counter w c' w' :
  inventory_file temp workdir base name counter w = Ok c' w' ->
  let fp := path.join base name in
  (artifact (base, name) = true /\ c' = counter /\
   Sem.apply_event (EvRemove fp) (w_fs w) = Some (w_fs w') /\
   steps_since w w' [(EvRemove fp, w_fs w')]) \/
  (artifact (base, name) = false /\ c' = counter + 1 /\
   exists data runtime fs1 st,
     Sem.apply_event
       (EvAppend temp (fst (manifest_row workdir base name (counter + 1) data runtime)))
       (w_fs w) = Some fs1 /\
     Sem.apply_event
       (EvAppend temp (snd (manifest_row workdir base name (counter + 1) data runtime)))
       fs1 = Some (w_fs w') /\
     steps_since w w' st /\
     Forall (fun e => inv_event temp e = true) (events st) /\
     Forall (fun e => match e with EvRemove _ => False | _ => True end) (events st)).
Proof.
  unfold inventory_file, artifact. cbn [fst snd]. intros H. cbv zeta.
  set (fp := path.join base name) in *.
  destruct (String.eqb (path.basename fp) ".DS_Store") eqn:Eb.
  - left. apply bind_ok in H. destruct H as ([] & w1 & He & H).
    unfold ret in H. inversion H; subst. apply emit_ok in He.
    destruct He as (Ha & Hs & _). auto.
  - right. split; [reflexivity|].
    apply bind_ok in H. destruct H as (filesize & w1 & Hst & H).
    assert (Hw1 : w1 = w).
    { unfold stat_size in Hst.
      destruct (FS.lookup (w_fs w) fp) as [[?|?]|]; inversion Hst; auto. }
    subst w1.
    apply bind_ok in H. destruct H as (md5sum & w2 & Hm & H).
    unfold md5 in Hm. destruct (hash_file_reads _ _ _ _ _ _ Hm) as [data Hf].
    destruct (hash_file_ok hashlib_md5 4096 fp w data Hf)
      as (w2' & Hm' & Hfs2 & Ha2 & Hi2 & Hc2 & st2 & Hs2 & Hev2 & _).
    rewrite Hm' in Hm. inversion Hm; subst md5sum w2'. clear Hm Hm'.
    apply bind_ok in H. destruct H as (sha3sum & w3 & Hs & H).
    unfold sha3hash in Hs. rewrite <- Hfs2 in Hf.
    destruct (hash_file_ok hashlib_sha3_256 DEFAULT_BUFFER_SIZE fp w2 data Hf)
      as (w3' & Hs' & Hfs3 & Ha3 & Hi3 & Hc3 & st3 & Hs3 & Hev3 & _).
    rewrite Hs' in Hs. inversion Hs; subst sha3sum w3'. clear Hs Hs'.
    apply bind_ok in H. destruct H as (runtime & w4 & Ht & H).
    unfold time_strftime in Ht. inversion Ht; subst runtime w4. clear Ht.
    apply bind_ok in H. destruct H as ([] & w5 & He5 & H).
    apply emit_ok in He5. destruct He5 as (Ha5 & Hs5 & _).
    apply bind_ok in H. destruct H as ([] & w6 & He6 & H).
    apply emit_ok in He6. destruct He6 as (Ha6 & Hs6 & _).
    unfold ret in H. inversion H; subst c' w6. clear H.
    split; [reflexivity|].
    assert (Hsz : filesize = String.length data).
    { unfold stat_size in Hst. rewrite Hfs2 in Hf. unfold FS.file_at in Hf.
      destruct (FS.lookup (w_fs w) fp) as [[d|es]|]; simpl in Hf; inversion Hf; subst.
      inversion Hst. reflexivity. }
    cbn [w_fs] in Ha5. rewrite Hfs3, Hfs2 in Ha5.
    exists data, (strftime_now (w_clock w3)), (w_fs w5). eexists.
    unfold manifest_row. cbn [fst snd]. fold fp. rewrite <- Hsz.
    split; [exact Ha5|]. split; [exact Ha6|]. split.
    + unfold steps_since in *. cbn [w_trace] in Hs5.
      rewrite Hs6, Hs5, Hs3, Hs2. rewrite <- !app_assoc. reflexivity.
    + unfold events in *. rewrite !map_app, Hev2, Hev3. cbn [map fst].
      split.
      * apply Forall_app. split; [apply pass_events_inv|].
        apply Forall_app. split; [apply pass_events_inv|].
        apply Forall_app. split; (constructor; [simpl; apply String.eqb_refl | constructor]).
      * apply Forall_app. split; [apply pass_events_no_remove|].
        apply Forall_app. split; [apply pass_events_no_remove|].
        apply Forall_app. split; (constructor; [exact I | constructor]).
Qed.

End InventoryRows.

Section InventoryWalk.

Context {env : Env} {hashlib : Hashlib} {platform : Platform}.

Import Checksum Inventory.

Variables (indir objdir : string).

(** What a part of the walk over [files] does, from [w] to [w'], to the
    temporary file that held [content], to the counter, and to the
    artifacts. *)
Definition walked (workdir : string) (files : list (string * string)) (counter : nat)
           (content : string) (w w' : World) (c' : nat) : Prop :=
  exists rows st,
    FS.file_at (w_fs w') (temp_of indir) = Some (content +++ cat rows) /\
    rows_for workdir (S counter) (listed files) rows /\
    c' = counter + List.length rows /\
    steps_since w w' st /\
    Forall (fun f => artifact f = true ->
                     In (EvRemove (path.join (fst f) (snd f))) (events st)) files /\
    Forall (fun e => match e with EvRename _ _ => False | _ => True end) (events st) /\
    FS.exists_ (w_fs w') (manifest_of objdir) = FS.exists_ (w_fs w) (manifest_of objdir).

Lemma walked_nil workdir counter content w :
  FS.file_at (w_fs w) (temp_of indir) = Some content ->
  walked workdir [] counter content w w counter.
Proof.
  intros H. exists [], []. simpl. rewrite append_nil_r_str.
  repeat split; auto using steps_refl; try lia.
Qed.

Lemma walked_app workdir l1 l2 counter content w w1 w2 c1 c2 :
  walked workdir l1 counter content w w1 c1 ->
  (forall content1, FS.file_at (w_fs w1) (temp_of indir) = Some content1 ->
                    walked workdir l2 c1 content1 w1 w2 c2) ->
  walked workdir (l1 ++ l2) counter content w w2 c2.
Proof.
  intros (rows1 & st1 & Hf1 & Hr1 & Hc1 & Hs1 & Ha1 & Hn1 & He1) H2.
  destruct (H2 _ Hf1) as (rows2 & st2 & Hf2 & Hr2 & Hc2 & Hs2 & Ha2 & Hn2 & He2).
  exists (rows1 ++ rows2), (st1 ++ st2). repeat split.
  - rewrite Hf2, cat_app, append_assoc_str. reflexivity.
  - unfold listed. rewrite filter_app. apply rows_for_app; [exact Hr1|].
    subst c1. exact Hr2.
  - rewrite length_app. lia.
  - eapply steps_trans; eauto.
  - apply Forall_app. split.
    + eapply Forall_impl; [|exact Ha1]. intros f Hf Hart.
      unfold events. rewrite map_app. apply in_or_app. left. apply Hf. exact Hart.
    + eapply Forall_impl; [|exact Ha2]. intros f Hf Hart.
      unfold events. rewrite map_app. apply in_or_app. right. apply Hf. exact Hart.
  - unfold events. rewrite map_app. apply Forall_app. split; assumption.
  - rewrite He2. exact He1.
Qed.

(** The calls of the walk leave the existence of a manifest and, unless
    they write to it, the temporary file as they are. *)
Lemma walk_event_exists e fs fs' :
  inv_event (temp_of indir) e = true ->
  Sem.apply_event e fs = Some fs' ->
  FS.exists_ fs' (manifest_of objdir) = FS.exists_ fs (manifest_of objdir).
Proof.
  intros He Ha.
  assert (Hf : file_event e = true) by (destruct e; simpl in *; congruence).
  apply (FileEvents.file_event_frame e fs fs' (manifest_of objdir) Hf Ha).
  intros p cp Ht Hc.
  destruct e; simpl in Ht, He; try discriminate; inversion Ht; subst.
  - apply String.eqb_eq in He. subst. eapply manifest_not_temp; eauto.
  - apply String.eqb_eq in He. eapply manifest_not_artifact; eauto.
Qed.

Lemma remove_artifact_temp p fs fs' :
  path.basename p = ".DS_Store" ->
  Sem.apply_event (EvRemove p) fs = Some fs' ->
  FS.file_at fs' (temp_of indir) = FS.file_at fs (temp_of indir).
Proof.
  intros Hb Ha.
  apply (FileEvents.file_event_frame (EvRemove p) fs fs' (temp_of indir) eq_refl Ha).
  intros p' cp Ht Hc. simpl in Ht. inversion Ht; subst p'.
  eapply temp_not_artifact; eauto.
Qed.

Lemma append_temp data fs fs' content :
  Sem.apply_event (EvAppend (temp_of indir) data) fs = Some fs' ->
  FS.file_at fs (temp_of indir) = Some content ->
  FS.file_at fs' (temp_of indir) = Some (content +++ data).
Proof.
  intros Ha Hc. simpl in Ha.
  destruct (FileFrame.write_file_file_at _ _ _ Ha) as (d & Hd & Hd').
  rewrite Hc in Hd. rewrite Hd'. congruence.
Qed.

Lemma inventory_file_walked workdir base name counter content w c' w' :
  inventory_file (temp_of indir) workdir base name counter w = Ok c' w' ->
  FS.file_at (w_fs w) (temp_of indir) = Some content ->
  walked workdir [(base, name)] counter content w w' c'.
Proof.
  intros H Hc.
  destruct (inventory_file_disks _ _ _ _ _ _ _ _ H)
    as [(Hart & -> & Ha & Hs)|(Hart & -> & data & runtime & fs1 & st & Ha1 & Ha2 & Hs & Hinv & Hnr)].
  - assert (Hb : path.basename (path.join base name) = ".DS_Store")
      by (apply String.eqb_eq; exact Hart).
    exists [], [(EvRemove (path.join base name), w_fs w')].
    unfold listed, cat. cbn [filter]. rewrite Hart. cbn [negb rows_for fold_right List.length].
    rewrite append_nil_r_str. repeat split; auto.
    + rewrite (remove_artifact_temp _ _ _ Hb Ha). exact Hc.
    + constructor; [|constructor]. intros _. left. reflexivity.
    + constructor; [exact I | constructor].
    + apply (walk_event_exists (EvRemove (path.join base name))); [|exact Ha].
      simpl. exact Hart.
  - exists [row_text workdir base name (counter + 1) data runtime], st.
    unfold listed, cat. cbn [filter]. rewrite Hart.
    cbn [negb rows_for fold_right List.length fst snd].
    rewrite append_nil_r_str. repeat split; auto.
    + rewrite (append_temp _ _ _ _ Ha2 (append_temp _ _ _ _ Ha1 Hc)).
      unfold row_text. rewrite append_assoc_str. reflexivity.
    + exists data, runtime. rewrite Nat.add_1_r. reflexivity.
    + constructor; [|constructor]. intros Hart'. cbn [fst snd] in Hart'. congruence.
    + eapply Forall_impl; [|exact Hinv]. intros e He. destruct e; auto; discriminate He.
    + eapply eq_trans.
      * eapply walk_event_exists; [|exact Ha2]. simpl. apply String.eqb_refl.
      * eapply walk_event_exists; [|exact Ha1]. simpl. apply String.eqb_refl.
Qed.

Lemma inventory_files_walked workdir base names : forall counter content w c' w',
  foldM (inventory_file (temp_of indir) workdir base) names counter w = Ok c' w' ->
  FS.file_at (w_fs w) (temp_of indir) = Some content ->
  walked workdir (map (fun name => (base, name)) names) counter content w w' c'.
Proof.
  induction names as [|name rest IH]; intros counter content w c' w' H Hc.
  - simpl in H. inversion H; subst. apply walked_nil. exact Hc.
  - simpl in H. apply bind_ok in H. destruct H as (c1 & w1 & H1 & H2).
    change (map (fun n => (base, n)) (name :: rest))
      with ([(base, name)] ++ map (fun n => (base, n)) rest).
    eapply walked_app.
    + eapply inventory_file_walked; eauto.
    + intros content1 Hc1. eapply IH; eauto.
Qed.

Lemma inventory_walk_walked workdir triples : forall counter content w c' w',
  foldM (fun t counter =>
           foldM (inventory_file (temp_of indir) workdir (fst (fst t))) (snd t) counter)
        triples counter w = Ok c' w' ->
  FS.file_at (w_fs w) (temp_of indir) = Some content ->
  walked workdir (walk_files triples) counter content w w' c'.
Proof.
  induction triples as [|t rest IH]; intros counter content w c' w' H Hc.
  - simpl in H. inversion H; subst. apply walked_nil. exact Hc.
  - simpl in H. apply bind_ok in H. destruct H as (c1 & w1 & H1 & H2).
    unfold walk_files. cbn [flat_map]. fold (walk_files rest).
    eapply walked_app.
    + eapply inventory_files_walked; eauto.
    + intros content1 Hc1. eapply IH; eauto.
Qed.

End InventoryWalk.

(** The regular files in the tree below a directory, at any depth. *)
Fixpoint files_in (n : node) : nat :=
  match n with
  | File _ => 0
  | Dir es =>
      (fix go (l : list (string * node)) : nat :=
         match l with
         | [] => 0
         | (_, File _) :: r => S (go r)
         | (_, (Dir _) as m) :: r => files_in m + go r
         end) es
  end.

Lemma node_induction (P : node -> Prop) :
  (forall d, P (File d)) ->
  (forall es, Forall (fun e => P (snd e)) es -> P (Dir es)) ->
  forall n, P n.
Proof.
  intros Hf Hd. fix IH 1. intros [d|es]; [apply Hf|]. apply Hd.
  induction es as [|[k m] r IHr]; constructor; [apply IH | apply IHr].
Qed.

Lemma walk_files_app a b :
  Inventory.walk_files (a ++ b) = Inventory.walk_files a ++ Inventory.walk_files b.
Proof. unfold Inventory.walk_files. apply flat_map_app. Qed.

(** The walk hands every regular file of the tree to the loop, once. *)
Lemma walk_files_count n : forall top,
  List.length (Inventory.walk_files (Inventory.walk top n)) = files_in n.
Proof.
  induction n as [d|es IH] using node_induction; intros top; [reflexivity|].
  cbn [Inventory.walk files_in].
  change (Inventory.walk_files (?t :: ?l)) with
    (map (fun name => (fst (fst t), name)) (snd t) ++ Inventory.walk_files l).
  rewrite length_app, length_map. cbn [fst snd]. rewrite length_map.
  induction es as [|[k m] r IHr]; [reflexivity|].
  inversion IH as [|? ? Hm Hr]; subst. cbn [filter flat_map snd fst].
  destruct m as [d|es']; cbn [List.length].
  - rewrite <- (IHr Hr). cbn [app]. reflexivity.
  - cbn [snd] in Hm. rewrite walk_files_app, length_app, (Hm (path.join top k)), <- (IHr Hr).
    lia.
Qed.

Section InventoryObject.

Context {env : Env} {hashlib : Hashlib} {platform : Platform}.

Import Checksum Inventory.

Lemma truncate_temp_exists indir objdir fs fs' :
  Sem.apply_event (EvTruncate (temp_of indir)) fs = Some fs' ->
  FS.exists_ fs' (manifest_of objdir) = FS.exists_ fs (manifest_of objdir).
Proof.
  intros Ha.
  apply (FileEvents.file_event_frame (EvTruncate (temp_of indir)) fs fs'
           (manifest_of objdir) eq_refl Ha).
  intros p cp Ht Hc. simpl in Ht. inversion Ht; subst. eapply manifest_not_temp; eauto.
Qed.

(** A test that lets the object through leaves the disk alone, and the
    object has no manifest. *)
Lemma inventory_skip_false objpath obj w w1 :
  inventory_skip objpath obj w = Ok false w1 ->
  w_fs w1 = w_fs w /\
  FS.exists_ (w_fs w) (manifest_of objpath) = false /\
  exists st, steps_since w w1 st.
Proof.
  unfold inventory_skip, bind, path_isdir, path_exists. cbv beta.
  destruct (FS.isdir (w_fs w) objpath) eqn:Ed; cbn [negb]; [|discriminate].
  cbv beta. rewrite Ed.
  destruct (FS.exists_ (w_fs w) (path.join objpath "data")).
  - unfold askyesno, emit. cbn [Sem.apply_event w_fs w_trace].
    fold (manifest_of objpath).
    destruct (FS.exists_ (w_fs w) (manifest_of objpath)) eqn:Em.
    + unfold showwarning, emit. simpl. discriminate.
    + unfold ret. intros H. inversion H; subst. cbn [w_fs]. repeat split.
      eexists. unfold steps_since. cbn [w_trace]. reflexivity.
  - unfold ret at 1. fold (manifest_of objpath).
    destruct (FS.exists_ (w_fs w) (manifest_of objpath)) eqn:Em.
    + unfold showwarning, emit. simpl. discriminate.
    + unfold ret. intros H. inversion H; subst. repeat split.
      exists []. apply steps_refl.
Qed.

(** A completed inventory of an object, call by call. *)
Lemma inventory_object_ok indir objpath w w' :
  path.dirname objpath = indir ->
  FS.exists_ (w_fs w) (manifest_of objpath) = false ->
  inventory_object indir objpath w = Ok tt w' ->
  exists fs_a fs_b n rows st_walk fs_c,
    steps_since w w'
      ([(EvTruncate (temp_of indir), fs_a); (EvAppend (temp_of indir) manifest_header, fs_b)]
         ++ st_walk ++
         [(EvAppend (temp_of indir) manifest_trailer, fs_c);
          (EvRename (temp_of indir) (manifest_of objpath), w_fs w')]) /\
    FS.lookup fs_b objpath = Some n /\
    FS.file_at (w_fs w') (manifest_of objpath) =
      Some (manifest_header +++ cat rows +++ manifest_trailer) /\
    rows_for indir 1 (listed (walk_files (walk objpath n))) rows /\
    Forall (fun f => artifact f = true ->
                     In (EvRemove (path.join (fst f) (snd f))) (events st_walk))
           (walk_files (walk objpath n)) /\
    Forall (fun e => match e with EvRename _ _ => False | _ => True end) (events st_walk).
Proof.
  intros Hd Hex H. unfold inventory_object in H. rewrite Hd in H.
  fold (temp_of indir) in H. fold (manifest_of objpath) in H.
  apply bind_ok in H. destruct H as ([] & wa & Ea & H).
  apply emit_ok in Ea. destruct Ea as (Ha & Hsa & _).
  apply bind_ok in H. destruct H as ([] & wb & Eb & H).
  apply emit_ok in Eb. destruct Eb as (Hb & Hsb & _).
  apply bind_ok in H. destruct H as (n & wb' & En & H).
  assert (Hn : wb' = wb /\ FS.lookup (w_fs wb) objpath = Some n).
  { unfold read_node in En. destruct (FS.lookup (w_fs wb) objpath); inversion En; auto. }
  destruct Hn as [-> Hn]. clear En.
  apply bind_ok in H. destruct H as (c & wd & Ew & H).
  apply bind_ok in H. destruct H as ([] & we & Ee & H).
  apply emit_ok in Ee. destruct Ee as (He & Hse & _).
  assert (Hta : FS.file_at (w_fs wa) (temp_of indir) = Some "").
  { simpl in Ha. destruct (FileFrame.write_file_file_at _ _ _ Ha) as (d & Hd1 & Hd2).
    rewrite Hd2. congruence. }
  assert (Htb : FS.file_at (w_fs wb) (temp_of indir) = Some manifest_header).
  { rewrite (append_temp indir _ _ _ _ Hb Hta). reflexivity. }
  destruct (inventory_walk_walked indir objpath indir (walk objpath n) 0 manifest_header
              wb c wd Ew Htb)
    as (rows & st & Hfd & Hrows & Hc & Hsd & Hart & Hnr & Hexd).
  assert (Hte : FS.file_at (w_fs we) (temp_of indir) =
                Some (manifest_header +++ cat rows +++ manifest_trailer)).
  { rewrite (append_temp indir _ _ _ _ He Hfd). rewrite append_assoc_str. reflexivity. }
  assert (Hexe : FS.exists_ (w_fs we) (manifest_of objpath) = false).
  { rewrite (walk_event_exists indir objpath (EvAppend (temp_of indir) manifest_trailer)
               _ _ (String.eqb_refl (temp_of indir)) He).
    rewrite Hexd.
    rewrite (walk_event_exists indir objpath (EvAppend (temp_of indir) manifest_header)
               _ _ (String.eqb_refl (temp_of indir)) Hb).
    rewrite (truncate_temp_exists indir objpath _ _ Ha). exact Hex. }
  unfold shutil_move, bind, path_isdir in H. cbv beta in H.
  assert (Hnd : FS.isdir (w_fs we) (manifest_of objpath) = false).
  { unfold FS.exists_, FS.isdir in *.
    destruct (FS.lookup (w_fs we) (manifest_of objpath)); [discriminate | reflexivity]. }
  rewrite Hnd in H. apply emit_ok in H. destruct H as (Hr & Hsr & _).
  simpl in Hr.
  destruct (RenameFacts.rename_file _ _ _ _ _ Hr Hte)
    as (cs & cd & Hcs & Hcd & Hsd' & _ & Hdst).
  exists (w_fs wa), (w_fs wb), n, rows, st, (w_fs we). repeat split; auto.
  - unfold steps_since in *. rewrite Hsr, Hse, Hsd, Hsb, Hsa.
    rewrite <- !app_assoc. reflexivity.
  - unfold FS.file_at, FS.lookup.
    rewrite <- (FileFrame.same_dirs_canon (manifest_of objpath) Hsd'), Hcd. exact Hdst.
Qed.

(** C6. An object that [run_inventory] processes gets a manifest that
    holds the header, then one row for every file the walk of the object
    finds that is not an OS artifact, in the order of the walk and
    numbered from 1, then the row [Comments, ]; so with [N] such files
    there are [N] rows.  The walk finds every regular file of the
    object, at any depth.  The files named [.DS_Store] are removed from
    the disk during the walk and have no row.  The walk is that of the
    object as it is when the header has been written; the batch
    directory is the directory part of the object's path. *)
Theorem manifest_lists_every_file indir obj manifiles (w : World) w' :
  path.dirname (path.join indir obj) = indir ->
  inventory_entry indir obj manifiles w = Ok (manifiles + 1) w' ->
  let objpath := path.join indir obj in
  let temp := path.join indir "temp_manifest.csv" in
  let manifest := path.join objpath "manifest.csv" in
  exists dialogs fs_a fs_b n rows st_walk fs_c,
    steps_since w w'
      (dialogs ++
       [(EvTruncate temp, fs_a); (EvAppend temp manifest_header, fs_b)] ++ st_walk ++
       [(EvAppend temp manifest_trailer, fs_c); (EvRename temp manifest, w_fs w')]) /\
    FS.lookup fs_b objpath = Some n /\
    List.length (walk_files (walk objpath n)) = files_in n /\
    FS.file_at (w_fs w') manifest = Some (manifest_header +++ cat rows +++ manifest_trailer) /\
    rows_for indir 1 (listed (walk_files (walk objpath n))) rows /\
    List.length rows = List.length (listed (walk_files (walk objpath n))) /\
    Forall (fun f => artifact f = true ->
                     In (EvRemove (path.join (fst f) (snd f))) (events st_walk))
           (walk_files (walk objpath n)) /\
    Forall (fun e => match e with EvRename _ _ => False | _ => True end) (events st_walk).
Proof.
  intros Hd H. cbv zeta. unfold inventory_entry in H.
  apply bind_ok in H. destruct H as (skipit & w1 & Hskip & H).
  destruct skipit; cbn [negb] in H.
  { unfold ret in H. inversion H. lia. }
  destruct (inventory_skip_false _ _ _ _ Hskip) as (Hfs & Hex & dialogs & Hs1).
  apply bind_ok in H. destruct H as ([] & w2 & Hobj & H).
  unfold ret in H. inversion H; subst w2. clear H.
  rewrite <- Hfs in Hex.
  destruct (inventory_object_ok indir (path.join indir obj) w1 w' Hd Hex Hobj)
    as (fs_a & fs_b & n & rows & st & fs_c & Hs & Hn & Hf & Hrows & Hart & Hnr).
  exists dialogs, fs_a, fs_b, n, rows, st, fs_c. repeat split; auto.
  - eapply steps_trans; eauto.
  - apply walk_files_count.
  - eapply rows_for_length; eauto.
Qed.

End InventoryObject.

(* ================================================================== *)
(** * Paths below a directory whose own path has no [..] *)

Definition no_dotdot (p : string) : bool :=
  forallb (fun c => negb (String.eqb c "..")) (Str.split Str.sep p).

Module ChildPaths.

Import Str FS FSFacts PathFacts.

Lemma endswith_app c a n :
  n <> "" -> endswith_char c (a +++ n) = endswith_char c n.
Proof.
  intros Hn. induction a as [|x a IH]; [reflexivity|].
  change (String x a +++ n) with (String x (a +++ n)).
  cbn [endswith_char]. destruct (a +++ n) eqn:E.
  - destruct a; simpl in E; [contradiction | discriminate].
  - exact IH.
Qed.

Lemma endswith_nosep c n : has_char c n = false -> endswith_char c n = false.
Proof.
  induction n as [|x n IH]; intros H; [reflexivity|].
  simpl in H. apply orb_false_iff in H. destruct H as [Hx Hn].
  cbn [endswith_char]. destruct n; [exact Hx | exact (IH Hn)].
Qed.

Lemma join_plain d n :
  plain n = true ->
  path.join d n <> "" /\ endswith_char sep (path.join d n) = false.
Proof.
  intros H. destruct (plain_inv _ H) as (Hne & _ & _ & Hs).
  unfold path.join. rewrite (plain_no_leading_sep _ H).
  assert (Hx : forall a, a +++ n <> "").
  { intros a E. destruct a; simpl in E; [contradiction | discriminate]. }
  destruct (String.eqb d "" || endswith_char sep d)%bool.
  - split; [apply Hx|]. rewrite endswith_app by assumption. apply endswith_nosep, Hs.
  - split.
    + intros E. destruct d; simpl in E; discriminate.
    + replace (d +++ "/" +++ n) with ((d +++ "/") +++ n).
      * rewrite endswith_app by assumption. apply endswith_nosep, Hs.
      * clear. induction d as [|x d IH]; simpl; [reflexivity | rewrite IH; reflexivity].
Qed.

Lemma split_join_plain d n :
  d <> "" -> endswith_char sep d = false -> plain n = true ->
  Str.split sep (path.join d n) = Str.split sep d ++ [n].
Proof.
  intros Hd He H. destruct (plain_inv _ H) as (_ & _ & _ & Hs).
  unfold path.join. rewrite (plain_no_leading_sep _ H), He.
  destruct (String.eqb_spec d ""); [contradiction|]. cbn [orb].
  change (d +++ "/" +++ n) with (d +++ String sep n).
  rewrite split_app_sep, (split_nosep _ _ Hs). reflexivity.
Qed.

Lemma basename_join d n : plain n = true -> path.basename (path.join d n) = n.
Proof.
  intros H. destruct (split_join d n H) as [xs Hxs].
  destruct (NameFacts.split_basename (path.join d n)) as [ys Hys].
  rewrite Hxs in Hys. apply app_inj_tail in Hys. destruct Hys as [_ E]. auto.
Qed.

Lemma canon_from_snoc root xs n :
  plain n = true ->
  forall acc,
    canon_from root acc (xs ++ [n]) =
    match canon_from root acc xs with
    | Some cd => if is_dir (get root cd) then Some (cd ++ [n]) else None
    | None => None
    end.
Proof.
  intros H. destruct (plain_inv _ H) as (H1 & H2 & H3 & _).
  induction xs as [|x r IH]; intros acc; cbn [app canon_from].
  - destruct (is_dir (get root acc)); [|reflexivity].
    destruct (String.eqb_spec n ""); [contradiction|].
    destruct (String.eqb_spec n "."); [contradiction|].
    destruct (String.eqb_spec n ".."); [contradiction|]. reflexivity.
  - destruct (is_dir (get root acc)); [|reflexivity].
    destruct (String.eqb x "" || String.eqb x ".")%bool; [apply IH|].
    destruct (String.eqb x ".."); apply IH.
Qed.

(** Where a name joined to a directory path resolves. *)
Lemma canon_child root d n :
  d <> "" -> endswith_char sep d = false -> plain n = true ->
  canon root (path.join d n) =
  match canon root d with
  | Some cd => if is_dir (get root cd) then Some (cd ++ [n]) else None
  | None => None
  end.
Proof.
  intros Hd He H. unfold canon.
  destruct (String.eqb_spec (path.join d n) "") as [E|_].
  { exfalso. exact (proj1 (join_plain d n H) E). }
  destruct (String.eqb_spec d ""); [contradiction|].
  rewrite (split_join_plain d n Hd He H). apply canon_from_snoc, H.
Qed.

Lemma no_dotdot_join d n :
  d <> "" -> endswith_char sep d = false -> plain n = true ->
  no_dotdot d = true -> no_dotdot (path.join d n) = true.
Proof.
  intros Hd He H Hn. unfold no_dotdot in *.
  rewrite (split_join_plain d n Hd He H), forallb_app, Hn. cbn.
  destruct (plain_inv _ H) as (_ & _ & H3 & _).
  destruct (String.eqb_spec n ".."); [contradiction | reflexivity].
Qed.

(** Without [..] a resolution only goes down. *)
Lemma canon_from_grows root cs : forall acc c,
  forallb (fun c => negb (String.eqb c "..")) cs = true ->
  canon_from root acc cs = Some c -> exists r, c = acc ++ r.
Proof.
  induction cs as [|x cs IH]; intros acc c Hn H; cbn [canon_from forallb] in *.
  - inversion H; subst. exists []. rewrite app_nil_r. reflexivity.
  - apply andb_true_iff in Hn. destruct Hn as [Hx Hn].
    destruct (is_dir (get root acc)); [|discriminate].
    destruct (String.eqb x "" || String.eqb x ".")%bool; [eapply IH; eauto|].
    destruct (String.eqb x ".."); [discriminate|].
    destruct (IH _ _ Hn H) as [r ->]. rewrite <- app_assoc. eauto.
Qed.

(** It depends on the directories above the place it reaches only. *)
Lemma canon_from_stable a b cs : forall acc c,
  forallb (fun c => negb (String.eqb c "..")) cs = true ->
  canon_from a acc cs = Some c ->
  (forall q r, c = q ++ r -> is_dir (get a q) = true -> is_dir (get b q) = true) ->
  canon_from b acc cs = Some c.
Proof.
  induction cs as [|x cs IH]; intros acc c Hn H Hb; cbn [canon_from forallb] in *.
  - exact H.
  - apply andb_true_iff in Hn. destruct Hn as [Hx Hn].
    destruct (is_dir (get a acc)) eqn:Ea; [|discriminate].
    assert (Hacc : is_dir (get b acc) = true).
    { destruct (String.eqb x "" || String.eqb x ".")%bool.
      - destruct (canon_from_grows _ _ _ _ Hn H) as [r ->]. eapply Hb; eauto.
      - destruct (String.eqb x ".."); [discriminate|].
        destruct (canon_from_grows _ _ _ _ Hn H) as [r ->].
        rewrite <- app_assoc in Hb. eapply Hb; eauto. }
    rewrite Hacc.
    destruct (String.eqb x "" || String.eqb x ".")%bool; [eapply IH; eauto|].
    destruct (String.eqb x ".."); [discriminate|]. eapply IH; eauto.
Qed.

Lemma canon_stable a b p c :
  no_dotdot p = true -> canon a p = Some c ->
  (forall q r, c = q ++ r -> is_dir (get a q) = true -> is_dir (get b q) = true) ->
  canon b p = Some c.
Proof.
  unfold canon, no_dotdot. intros Hn H Hb.
  destruct (String.eqb p ""); [discriminate|]. eapply canon_from_stable; eauto.
Qed.

End ChildPaths.

(* ================================================================== *)
(** * The entries of one directory *)

Module DirFacts.

Import FS FSFacts.

Lemma assoc_in name es n : assoc name es = Some n -> In (name, n) es.
Proof.
  induction es as [|[k m] r IH]; simpl; [discriminate|].
  destruct (String.eqb_spec k name) as [->|Hk]; intros H.
  - inversion H; subst. auto.
  - auto.
Qed.

Lemma assoc_none name es : assoc name es = None -> ~ In name (map fst es).
Proof.
  induction es as [|[k m] r IH]; simpl; [tauto|].
  destruct (String.eqb_spec k name) as [->|Hk]; [discriminate|].
  intros H [E|Hi]; [contradiction | exact (IH H Hi)].
Qed.

Lemma assoc_some name es : In name (map fst es) -> exists n, assoc name es = Some n.
Proof.
  induction es as [|[k m] r IH]; simpl; [tauto|].
  destruct (String.eqb_spec k name) as [->|Hk]; [eauto|].
  intros [E|Hi]; [contradiction | auto].
Qed.

Lemma set_entry_fresh name n es :
  assoc name es = None -> set_entry name (Some n) es = es ++ [(name, n)].
Proof.
  induction es as [|[k m] r IH]; simpl; [reflexivity|].
  destruct (String.eqb k name); [discriminate|]. intros H. rewrite (IH H). reflexivity.
Qed.

(** The entry of a directory, as a path below it. *)
Lemma get_child root cp es name :
  get root cp = Some (Dir es) -> get root (cp ++ [name]) = assoc name es.
Proof.
  intros H. rewrite get_app, H. simpl. destruct (assoc name es); reflexivity.
Qed.

(** Writing an entry of a directory changes that entry in its listing. *)
Lemma put_child cp : forall root es name v root',
  get root cp = Some (Dir es) ->
  put root (cp ++ [name]) v = Some root' ->
  get root' cp = Some (Dir (set_entry name v es)).
Proof.
  induction cp as [|c r IH]; intros root es name v root' Hg Hp.
  - simpl in Hg. inversion Hg; subst. simpl in Hp. inversion Hp; subst. reflexivity.
  - change ((c :: r) ++ [name]) with (c :: (r ++ [name])) in Hp.
    rewrite put_cons in Hp. destruct root as [d|es0]; [discriminate|].
    simpl in Hg. destruct (assoc c es0) as [m|] eqn:Em; [|discriminate].
    destruct (r ++ [name]) as [|x xs] eqn:Er.
    { destruct r; discriminate. }
    destruct (put m (x :: xs) v) as [m'|] eqn:Epm; [|discriminate].
    inversion Hp; subst. simpl. rewrite assoc_set_same.
    rewrite <- Er in Epm. eapply IH; eauto.
Qed.

End DirFacts.

(* ================================================================== *)
(** * Pre-pack: copy, prune, rename *)

Lemma listdir_ok p w l w' :
  listdir p w = Ok l w' -> w' = w /\ FS.listdir (w_fs w) p = Some l.
Proof.
  unfold listdir. destruct (FS.listdir (w_fs w) p); intros H; inversion H; subst; auto.
Qed.

Lemma NoDup_snoc (A : Type) (l : list A) (a : A) :
  NoDup l -> ~ In a l -> NoDup (l ++ [a]).
Proof.
  induction l as [|x l IH]; intros Hn Hi; simpl.
  - constructor; [intros [] | constructor].
  - inversion Hn as [|? ? Hx Hl]; subst. constructor.
    + intros Hin. apply in_app_or in Hin. destruct Hin as [Hin|[->|[]]].
      * contradiction.
      * apply Hi. left. reflexivity.
    + apply IH; [assumption|]. intros Hin. apply Hi. right. exact Hin.
Qed.

Section PrePackObject.

Import FS FSFacts ChildPaths DirFacts PrePack.

Variables (packdir item : string) (cpp : cpath).
Hypothesis Hpd : packdir <> "".
Hypothesis Hpe : Str.endswith_char Str.sep packdir = false.
Hypothesis Hpn : no_dotdot packdir = true.
Hypothesis Hitem : plain item = true.

(** The batch directory resolves to [cpp], and [item] is a directory in
    it. *)
Definition at_object (fs : node) : Prop :=
  canon fs packdir = Some cpp /\
  is_dir (get fs cpp) = true /\
  is_dir (get fs (cpp ++ [item])) = true.

(** The entry [t] of the object. *)
Definition child (fs : node) (t : string) : option node :=
  get fs (cpp ++ [item; t]).

Lemma canon_object fs :
  at_object fs -> canon fs (path.join packdir item) = Some (cpp ++ [item]).
Proof.
  intros (Hc & Hd & _). rewrite (canon_child fs packdir item Hpd Hpe Hitem), Hc, Hd.
  reflexivity.
Qed.

Lemma canon_thing fs t :
  at_object fs -> plain t = true ->
  canon fs (path.join (path.join packdir item) t) = Some (cpp ++ [item; t]).
Proof.
  intros Ho Ht. destruct (join_plain packdir item Hitem) as [Hne He].
  rewrite (canon_child fs _ t Hne He Ht), (canon_object fs Ho).
  destruct Ho as (_ & _ & Hd). rewrite Hd, <- app_assoc. reflexivity.
Qed.

Lemma lookup_thing fs t :
  at_object fs -> plain t = true ->
  lookup fs (path.join (path.join packdir item) t) = child fs t.
Proof. intros Ho Ht. unfold lookup. rewrite (canon_thing fs t Ho Ht). reflexivity. Qed.

Lemma at_object_put fs x v fs' :
  at_object fs -> put fs (cpp ++ [item; x]) v = Some fs' ->
  at_object fs' /\ child fs' x = v /\ (forall y, y <> x -> child fs' y = child fs y).
Proof.
  intros (Hc & Hd & Hi) Hp. split; [split; [|split]|split].
  - apply (canon_stable fs fs' packdir cpp Hpn Hc). intros q r E _.
    assert (Hx : exists c r', cpp ++ [item; x] = q ++ c :: r').
    { rewrite E, <- app_assoc. destruct r as [|c0 r0]; simpl; eauto. }
    destruct Hx as (c & r' & Hx). rewrite Hx in Hp.
    exact (proj2 (get_put_above _ _ _ _ _ Hp)).
  - exact (proj2 (get_put_above fs cpp item [x] _ Hp)).
  - replace (cpp ++ [item; x]) with ((cpp ++ [item]) ++ [x]) in Hp
      by (rewrite <- app_assoc; reflexivity).
    exact (proj2 (get_put_above fs (cpp ++ [item]) x [] _ Hp)).
  - unfold child. eapply get_put_same; eauto.
  - intros y Hy. unfold child.
    replace (cpp ++ [item; x]) with ((cpp ++ [item]) ++ [x]) in Hp
      by (rewrite <- app_assoc; reflexivity).
    replace (cpp ++ [item; y]) with ((cpp ++ [item]) ++ [y])
      by (rewrite <- app_assoc; reflexivity).
    eapply get_put_diverge; eauto.
Qed.

(** The other entries of the batch are as they were. *)
Definition others_kept (fs fs' : node) : Prop :=
  forall item' r, item' <> item -> get fs' (cpp ++ item' :: r) = get fs (cpp ++ item' :: r).

Lemma others_refl fs : others_kept fs fs.
Proof. intros i r _. reflexivity. Qed.

Lemma others_trans a b c : others_kept a b -> others_kept b c -> others_kept a c.
Proof. intros H1 H2 i r Hi. rewrite (H2 i r Hi). apply H1. exact Hi. Qed.

Lemma others_put fs x v fs' :
  put fs (cpp ++ [item; x]) v = Some fs' -> others_kept fs fs'.
Proof.
  intros Hp i r Hi.
  eapply get_put_diverge with (a := item) (r1 := [x]); [exact Hp | congruence].
Qed.

Lemma remove_child fs t fs' :
  at_object fs -> plain t = true ->
  Sem.apply_event (EvRemove (path.join (path.join packdir item) t)) fs = Some fs' ->
  is_file (child fs t) = true /\ put fs (cpp ++ [item; t]) None = Some fs'.
Proof.
  intros Ho Ht. cbn [Sem.apply_event]. rewrite (canon_thing fs t Ho Ht). unfold child.
  destruct (get fs (cpp ++ [item; t])) as [[d|es]|]; try discriminate. auto.
Qed.

Lemma rmtree_child fs t fs' :
  at_object fs -> plain t = true ->
  Sem.apply_event (EvRmtree (path.join (path.join packdir item) t)) fs = Some fs' ->
  is_dir (child fs t) = true /\ put fs (cpp ++ [item; t]) None = Some fs'.
Proof.
  intros Ho Ht. cbn [Sem.apply_event]. rewrite (canon_thing fs t Ho Ht). unfold child.
  destruct (get fs (cpp ++ [item; t])) as [[d|es]|]; try discriminate. auto.
Qed.

(** One turn of the pruning loop. *)
Lemma pre_pack_thing_spec t w w' :
  at_object (w_fs w) -> plain t = true ->
  pre_pack_thing (path.join packdir item) t w = Ok tt w' ->
  at_object (w_fs w') /\
  (forall y, y <> t -> child (w_fs w') y = child (w_fs w) y) /\
  ((w' = w /\
    (t = "temptemptemp" \/
     (is_dir (child (w_fs w) t) = false /\ Str.contains "meta" t = true))) \/
   (t <> "temptemptemp" /\ child (w_fs w') t = None /\
    exists e, steps_since w w' [(e, w_fs w')] /\
      ((e = EvRmtree (path.join (path.join packdir item) t) /\
        is_dir (child (w_fs w) t) = true) \/
       (e = EvRemove (path.join (path.join packdir item) t) /\
        is_file (child (w_fs w) t) = true /\ Str.contains "meta" t = false)))).
Proof.
  intros Ho Ht. unfold pre_pack_thing. cbv zeta.
  destruct (String.eqb_spec t "temptemptemp") as [->|Hne]; cbn [negb].
  { unfold ret. intros H. inversion H; subst. split; [exact Ho|]. split; [auto|]. left. auto. }
  unfold bind, path_isdir. cbv beta. unfold isdir.
  rewrite (lookup_thing (w_fs w) t Ho Ht).
  destruct (is_dir (child (w_fs w) t)) eqn:Ed.
  - intros H. apply emit_ok in H. destruct H as (Ha & Hs & _).
    destruct (rmtree_child _ _ _ Ho Ht Ha) as [_ Hp].
    destruct (at_object_put _ _ _ _ Ho Hp) as (Ho' & Hx & Hy).
    split; [exact Ho'|]. split; [exact Hy|]. right. repeat split; auto.
    eexists. split; [exact Hs|]. left. auto.
  - destruct (Str.contains "meta" t) eqn:Em; cbn [negb].
    + unfold ret. intros H. inversion H; subst.
      split; [exact Ho|]. split; [auto|]. left. auto.
    + intros H. apply emit_ok in H. destruct H as (Ha & Hs & _).
      destruct (remove_child _ _ _ Ho Ht Ha) as [Hf Hp].
      destruct (at_object_put _ _ _ _ Ho Hp) as (Ho' & Hx & Hy).
      split; [exact Ho'|]. split; [exact Hy|]. right. repeat split; auto.
      eexists. split; [exact Hs|]. right. auto.
Qed.

(** What the pruning loop may do, judged on the disk [fs0] the loop
    starts from. *)
Definition prune_step (fs0 : node) (things : list string) (e : Event) : Prop :=
  exists t, In t things /\ t <> "temptemptemp" /\
    ((e = EvRmtree (path.join (path.join packdir item) t) /\
      is_dir (child fs0 t) = true) \/
     (e = EvRemove (path.join (path.join packdir item) t) /\
      is_file (child fs0 t) = true /\ Str.contains "meta" t = false)).

(** What it does to the entry [t], from the disk of [w] to that of [w']
    in the steps [st]. *)
Definition pruned (w w' : World) (st : list (Event * node)) (t : string) : Prop :=
  (is_dir (child (w_fs w) t) = true ->
     In (EvRmtree (path.join (path.join packdir item) t)) (events st) /\
     child (w_fs w') t = None) /\
  (is_dir (child (w_fs w) t) = false -> Str.contains "meta" t = false ->
     In (EvRemove (path.join (path.join packdir item) t)) (events st) /\
     child (w_fs w') t = None) /\
  (is_dir (child (w_fs w) t) = false -> Str.contains "meta" t = true ->
     child (w_fs w') t = child (w_fs w) t).

Definition staged (w : World) (s : Event * node) : Prop :=
  at_object (snd s) /\
  child (snd s) "temptemptemp" = child (w_fs w) "temptemptemp".

Lemma pre_pack_thing_summary t rest w w' :
  at_object (w_fs w) -> plain t = true ->
  pre_pack_thing (path.join packdir item) t w = Ok tt w' ->
  exists st,
    steps_since w w' st /\
    at_object (w_fs w') /\
    (forall y, y <> t -> child (w_fs w') y = child (w_fs w) y) /\
    child (w_fs w') "temptemptemp" = child (w_fs w) "temptemptemp" /\
    Forall (staged w) st /\
    Forall (prune_step (w_fs w) (t :: rest)) (events st) /\
    (t <> "temptemptemp" -> pruned w w' st t).
Proof.
  intros Ho Ht H.
  destruct (pre_pack_thing_spec t w w' Ho Ht H) as (Ho' & Hy & Hc).
  destruct Hc as [[-> Hc] | (Hne & Hx & e & Hs & He)].
  - exists []. split; [apply steps_refl|]. split; [exact Ho|]. split; [auto|].
    split; [reflexivity|]. split; [constructor|]. split; [constructor|].
    intros Hne. destruct Hc as [->|[Hd Hm]]; [contradiction|].
    unfold pruned. repeat split; intros; congruence.
  - assert (Htemp : child (w_fs w') "temptemptemp" = child (w_fs w) "temptemptemp").
    { apply Hy. congruence. }
    exists [(e, w_fs w')]. split; [exact Hs|]. split; [exact Ho'|]. split; [exact Hy|].
    split; [exact Htemp|]. split; [|split].
    + constructor; [|constructor]. split; assumption.
    + constructor; [|constructor]. exists t. split; [left; reflexivity|]. split; assumption.
    + intros _. unfold pruned. cbn [events map].
      destruct He as [[-> Hd] | (-> & Hf & Hm)].
      * repeat split; intros; try congruence; left; reflexivity.
      * assert (Hd : is_dir (child (w_fs w) t) = false).
        { destruct (child (w_fs w) t) as [[d|es]|]; simpl in *; congruence. }
        repeat split; intros; try congruence; left; reflexivity.
Qed.

Lemma prune_step_later t rest w w1 e :
  ~ In t rest ->
  (forall y, y <> t -> child (w_fs w1) y = child (w_fs w) y) ->
  prune_step (w_fs w1) rest e -> prune_step (w_fs w) (t :: rest) e.
Proof.
  intros Hn Hy (t' & Hi & Hne & He). exists t'. split; [right; exact Hi|].
  split; [exact Hne|]. rewrite <- (Hy t'); [exact He|]. intros ->. contradiction.
Qed.

(** The pruning loop: the staging copy is never touched; every other
    directory goes, every other entry goes unless its name contains
    [meta]. *)
Lemma prune_loop_spec things : forall w w',
  NoDup things -> Forall (fun t => plain t = true) things ->
  at_object (w_fs w) ->
  foldM (fun thing _ => pre_pack_thing (path.join packdir item) thing) things tt w = Ok tt w' ->
  exists st,
    steps_since w w' st /\
    at_object (w_fs w') /\
    (forall y, ~ In y things -> child (w_fs w') y = child (w_fs w) y) /\
    child (w_fs w') "temptemptemp" = child (w_fs w) "temptemptemp" /\
    Forall (staged w) st /\
    Forall (prune_step (w_fs w) things) (events st) /\
    (forall t, In t things -> t <> "temptemptemp" -> pruned w w' st t).
Proof.
  induction things as [|t rest IH]; intros w w' Hnd Hpl Ho H.
  - simpl in H. unfold ret in H. inversion H; subst.
    exists []. split; [apply steps_refl|]. split; [exact Ho|]. split; [auto|].
    split; [reflexivity|]. split; [constructor|]. split; [constructor|]. intros t [].
  - cbn [foldM] in H. apply bind_ok in H. destruct H as ([] & w1 & H1 & H2).
    inversion Hnd as [|? ? Hnt Hnd']; subst. inversion Hpl as [|? ? Ht Hpl']; subst.
    destruct (pre_pack_thing_summary t rest w w1 Ho Ht H1)
      as (st1 & Hs1 & Ho1 & Hy1 & Htemp1 & Hst1 & Hpr1 & Hdone1).
    destruct (IH w1 w' Hnd' Hpl' Ho1 H2)
      as (st2 & Hs2 & Ho2 & Hy2 & Htemp2 & Hst2 & Hpr2 & Hdone2).
    exists (st1 ++ st2). split; [eapply steps_trans; eauto|]. split; [exact Ho2|].
    split; [|split; [|split; [|split]]].
    + intros y Hy. rewrite Hy2, Hy1; auto.
      * intros ->. apply Hy. left. reflexivity.
      * intros Hi. apply Hy. right. exact Hi.
    + congruence.
    + apply Forall_app. split; [exact Hst1|].
      eapply Forall_impl; [|exact Hst2]. intros s [Ha Hb]. split; [exact Ha | congruence].
    + unfold events. rewrite map_app. apply Forall_app. split; [exact Hpr1|].
      eapply Forall_impl; [|exact Hpr2]. intros e. apply prune_step_later; assumption.
    + intros t' [<-|Hi] Hne.
      * specialize (Hdone1 Hne). destruct Hdone1 as (Ha & Hb & Hc).
        unfold pruned, events. rewrite map_app. rewrite (Hy2 t Hnt).
        repeat split.
        -- apply in_or_app. left. apply Ha. assumption.
        -- apply Ha. assumption.
        -- apply in_or_app. left. apply Hb; assumption.
        -- apply Hb; assumption.
        -- apply Hc; assumption.
      * assert (Hne' : t' <> t) by (intros ->; contradiction).
        specialize (Hdone2 t' Hi Hne). destruct Hdone2 as (Ha & Hb & Hc).
        unfold pruned, events in *. rewrite map_app. rewrite (Hy1 t' Hne') in *.
        repeat split.
        -- apply in_or_app. right. apply Ha. assumption.
        -- apply Ha. assumption.
        -- apply in_or_app. right. apply Hb; assumption.
        -- apply Hb; assumption.
        -- apply Hc; assumption.
Qed.

Lemma pre_pack_thing_others t w w' :
  at_object (w_fs w) -> plain t = true ->
  pre_pack_thing (path.join packdir item) t w = Ok tt w' ->
  others_kept (w_fs w) (w_fs w').
Proof.
  intros Ho Ht. unfold pre_pack_thing. cbv zeta.
  destruct (String.eqb t "temptemptemp"); cbn [negb].
  { unfold ret. intros H. inversion H; subst. apply others_refl. }
  unfold bind, path_isdir. cbv beta.
  destruct (isdir (w_fs w) (path.join (path.join packdir item) t)).
  - intros H. apply emit_ok in H. destruct H as (Ha & _).
    destruct (rmtree_child _ _ _ Ho Ht Ha) as [_ Hp]. exact (others_put _ _ _ _ Hp).
  - destruct (Str.contains "meta" t); cbn [negb].
    + unfold ret. intros H. inversion H; subst. apply others_refl.
    + intros H. apply emit_ok in H. destruct H as (Ha & _).
      destruct (remove_child _ _ _ Ho Ht Ha) as [_ Hp]. exact (others_put _ _ _ _ Hp).
Qed.

Lemma prune_loop_others things : forall w w',
  Forall (fun t => plain t = true) things ->
  at_object (w_fs w) ->
  foldM (fun thing _ => pre_pack_thing (path.join packdir item) thing) things tt w = Ok tt w' ->
  others_kept (w_fs w) (w_fs w').
Proof.
  induction things as [|t rest IH]; intros w w' Hpl Ho H.
  - simpl in H. unfold ret in H. inversion H; subst. apply others_refl.
  - cbn [foldM] in H. apply bind_ok in H. destruct H as ([] & w1 & H1 & H2).
    inversion Hpl as [|? ? Ht Hpl']; subst.
    destruct (pre_pack_thing_spec t w w1 Ho Ht H1) as (Ho1 & _).
    eapply others_trans.
    + exact (pre_pack_thing_others t w w1 Ho Ht H1).
    + exact (IH w1 w' Hpl' Ho1 H2).
Qed.

(** One object, from the test that it is a directory to the rename. *)
Lemma pre_pack_item_spec es w w' :
  at_object (w_fs w) ->
  get (w_fs w) (cpp ++ [item]) = Some (Dir es) ->
  NoDup (map fst es) -> Forall (fun e => plain (fst e) = true) es ->
  pre_pack_item packdir item w = Ok tt w' ->
  exists fs1 prunes,
    steps_since w w'
      ((EvCopytree (path.join packdir item)
                   (path.join (path.join packdir item) "temptemptemp"), fs1)
         :: prunes ++
         [(EvRename (path.join (path.join packdir item) "temptemptemp")
                    (path.join (path.join packdir item)
                               (path.basename (path.join packdir item))), w_fs w')]) /\
    Forall (fun s => lookup s (path.join (path.join packdir item) "temptemptemp") =
                     Some (Dir es)) (fs1 :: disks prunes) /\
    Forall (fun e => exists t, t <> "temptemptemp" /\
              ((e = EvRmtree (path.join (path.join packdir item) t) /\
                is_dir (assoc t es) = true) \/
               (e = EvRemove (path.join (path.join packdir item) t) /\
                is_file (assoc t es) = true /\ Str.contains "meta" t = false)))
           (events prunes) /\
    (forall t, is_dir (assoc t es) = true ->
               In (EvRmtree (path.join (path.join packdir item) t)) (events prunes)) /\
    (forall t, is_file (assoc t es) = true -> Str.contains "meta" t = false ->
               In (EvRemove (path.join (path.join packdir item) t)) (events prunes)) /\
    (forall t d, assoc t es = Some (File d) -> Str.contains "meta" t = true ->
                 file_at (w_fs w') (path.join (path.join packdir item) t) = Some d) /\
    lookup (w_fs w') (path.join (path.join packdir item)
                                (path.basename (path.join packdir item))) = Some (Dir es) /\
    at_object (w_fs w') /\ others_kept (w_fs w) (w_fs w').
Proof.
  intros Ho Hes Hnd Hpl H.
  assert (Htp : plain "temptemptemp" = true) by reflexivity.
  unfold pre_pack_item in H. cbv zeta in H.
  rewrite (basename_join packdir item Hitem) in *.
  unfold bind at 1, path_isdir in H. cbv beta in H.
  assert (Hisd : isdir (w_fs w) (path.join packdir item) = true).
  { unfold isdir, lookup. rewrite (canon_object _ Ho), Hes. reflexivity. }
  rewrite Hisd in H.
  (* the copy *)
  apply bind_ok in H. destruct H as ([] & w1 & H1 & H).
  apply emit_ok in H1. destruct H1 as (Ha1 & Hs1 & _).
  cbn [Sem.apply_event] in Ha1. unfold lookup in Ha1.
  rewrite (canon_object _ Ho), Hes, (canon_thing _ _ Ho Htp) in Ha1.
  destruct (get (w_fs w) (cpp ++ [item; "temptemptemp"])) eqn:Etemp; [discriminate|].
  destruct (at_object_put _ _ _ _ Ho Ha1) as (Ho1 & Hc1 & Hy1).
  assert (Hfresh : assoc "temptemptemp" es = None).
  { rewrite <- (get_child (w_fs w) (cpp ++ [item]) es "temptemptemp" Hes).
    rewrite <- app_assoc. exact Etemp. }
  assert (Hes1 : get (w_fs w1) (cpp ++ [item]) =
                 Some (Dir (es ++ [("temptemptemp", Dir es)]))).
  { rewrite <- (set_entry_fresh _ (Dir es) _ Hfresh).
    apply (put_child (cpp ++ [item]) (w_fs w) es "temptemptemp" (Some (Dir es)) (w_fs w1) Hes).
    rewrite <- app_assoc. exact Ha1. }
  assert (Hchild1 : forall t, t <> "temptemptemp" -> child (w_fs w1) t = assoc t es).
  { intros t Ht. rewrite (Hy1 t Ht). unfold child.
    replace (cpp ++ [item; t]) with ((cpp ++ [item]) ++ [t])
      by (rewrite <- app_assoc; reflexivity).
    apply get_child. exact Hes. }
  (* the listing *)
  apply bind_ok in H. destruct H as (things & w2 & H2 & H).
  apply listdir_ok in H2. destruct H2 as [-> H2].
  unfold listdir, lookup in H2. rewrite (canon_object _ Ho1), Hes1 in H2.
  inversion H2 as [Hth]. clear H2. rewrite map_app in *. cbn [map fst] in *.
  (* the pruning *)
  apply bind_ok in H. destruct H as ([] & w3 & H3 & H).
  assert (Hnd' : NoDup (map fst es ++ ["temptemptemp"])).
  { apply NoDup_snoc; [exact Hnd|]. apply assoc_none. exact Hfresh. }
  assert (Hpl' : Forall (fun t => plain t = true) (map fst es ++ ["temptemptemp"])).
  { apply Forall_app. split.
    - apply Forall_map. exact Hpl.
    - constructor; [reflexivity | constructor]. }
  rewrite <- Hth in H3.
  destruct (prune_loop_spec _ w1 w3 Hnd' Hpl' Ho1 H3)
    as (st & Hs2 & Ho3 & Hy3 & Htemp3 & Hst & Hpr & Hdone).
  (* the rename *)
  apply emit_ok in H. destruct H as (Ha4 & Hs4 & _).
  cbn [Sem.apply_event] in Ha4. unfold Sem.rename in Ha4.
  rewrite (canon_thing _ _ Ho3 Htp), (canon_thing _ _ Ho3 Hitem) in Ha4.
  fold (child (w_fs w3) "temptemptemp") in Ha4. fold (child (w_fs w3) item) in Ha4.
  rewrite Htemp3, Hc1 in Ha4.
  assert (Hin : forall t, assoc t es <> None ->
                          In t (map fst es ++ ["temptemptemp"]) /\ t <> "temptemptemp" /\
                          plain t = true).
  { intros t Ht. destruct (assoc t es) as [n|] eqn:En; [|contradiction].
    apply assoc_in in En. split; [|split].
    - apply in_or_app. left. apply (in_map fst _ _ En).
    - intros ->. apply (assoc_none _ _ Hfresh). apply (in_map fst _ _ En).
    - rewrite Forall_forall in Hpl. apply (Hpl _ En). }
  assert (Hend : at_object (w_fs w') /\
                 child (w_fs w') item = Some (Dir es) /\
                 (forall t d, child (w_fs w3) t = Some (File d) -> t <> "temptemptemp" ->
                              child (w_fs w') t = Some (File d)) /\
                 others_kept (w_fs w3) (w_fs w')).
  { destruct (list_eq_dec string_dec (cpp ++ [item; "temptemptemp"]) (cpp ++ [item; item]))
      as [E|Hne].
    - inversion Ha4 as [Efs]. apply app_inv_head in E. inversion E as [Ei].
      split; [exact Ho3|]. split; [|split; [auto | apply others_refl]]. congruence.
    - destruct (child (w_fs w3) item) as [[d0|es0]|] eqn:Eitem.
      + discriminate.
      + destruct es0; [|discriminate].
        destruct (put (w_fs w3) (cpp ++ [item; "temptemptemp"]) None) as [r1|] eqn:Ep1;
          [|discriminate].
        destruct (at_object_put _ _ _ _ Ho3 Ep1) as (Hor & _ & Hyr).
        destruct (at_object_put _ _ _ _ Hor Ha4) as (Ho' & Hx' & Hy').
        split; [exact Ho'|]. split; [exact Hx'|]. split.
        * intros t d Ht Hnt. rewrite Hy', Hyr; auto. intros ->. congruence.
        * exact (others_trans _ _ _ (others_put _ _ _ _ Ep1) (others_put _ _ _ _ Ha4)).
      + destruct (put (w_fs w3) (cpp ++ [item; "temptemptemp"]) None) as [r1|] eqn:Ep1;
          [|discriminate].
        destruct (at_object_put _ _ _ _ Ho3 Ep1) as (Hor & _ & Hyr).
        destruct (at_object_put _ _ _ _ Hor Ha4) as (Ho' & Hx' & Hy').
        split; [exact Ho'|]. split; [exact Hx'|]. split.
        * intros t d Ht Hnt. rewrite Hy', Hyr; auto. intros ->. congruence.
        * exact (others_trans _ _ _ (others_put _ _ _ _ Ep1) (others_put _ _ _ _ Ha4)). }
  destruct Hend as (Ho' & Hnew & Hkept & Hothers).
  assert (Hoth : others_kept (w_fs w) (w_fs w')).
  { eapply others_trans; [exact (others_put _ _ _ _ Ha1)|].
    eapply others_trans; [exact (prune_loop_others _ w1 w3 Hpl' Ho1 H3) | exact Hothers]. }
  exists (w_fs w1), st.
  split; [|split; [|split; [|split; [|split; [|split; [|split; [|split]]]]]]];
    [| | | | | | | exact Ho' | exact Hoth].
  - change (?a :: ?l ++ ?r) with ([a] ++ l ++ r).
    eapply steps_trans; [exact Hs1|]. eapply steps_trans; [exact Hs2 | exact Hs4].
  - constructor.
    + rewrite (lookup_thing _ _ Ho1 Htp). exact Hc1.
    + unfold disks. apply Forall_map. eapply Forall_impl; [|exact Hst].
      intros s [Hos Hts]. rewrite (lookup_thing _ _ Hos Htp), Hts. exact Hc1.
  - eapply Forall_impl; [|exact Hpr]. intros e (t & Hi & Hnt & He).
    exists t. split; [exact Hnt|]. rewrite (Hchild1 t Hnt) in He. exact He.
  - intros t Ht.
    destruct (Hin t) as (Hi & Hnt & _).
    { intros E. rewrite E in Ht. discriminate. }
    destruct (Hdone t Hi Hnt) as (Ha & _). rewrite (Hchild1 t Hnt) in Ha.
    apply Ha. exact Ht.
  - intros t Ht Hm.
    destruct (Hin t) as (Hi & Hnt & _).
    { intros E. rewrite E in Ht. discriminate. }
    destruct (Hdone t Hi Hnt) as (_ & Hb & _). rewrite (Hchild1 t Hnt) in Hb.
    apply Hb; [|exact Hm]. destruct (assoc t es) as [[d|es0]|]; simpl in *; congruence.
  - intros t d Ht Hm.
    destruct (Hin t) as (Hi & Hnt & Hplt).
    { rewrite Ht. discriminate. }
    destruct (Hdone t Hi Hnt) as (_ & _ & Hc). rewrite (Hchild1 t Hnt) in Hc.
    unfold file_at. rewrite (lookup_thing _ _ Ho' Hplt).
    rewrite (Hkept t d); [reflexivity | | exact Hnt].
    rewrite Hc; [exact Ht | rewrite Ht; reflexivity | exact Hm].
  - rewrite (lookup_thing _ _ Ho' Hitem). exact Hnew.
Qed.

End PrePackObject.

(** The names a directory lists are plain and distinct. *)
Definition wf_entries (es : list (string * node)) : Prop :=
  NoDup (map fst es) /\ Forall (fun e => plain (fst e) = true) es.

Section PrePackBatch.

Import FS FSFacts ChildPaths DirFacts PrePack.

Variables (packdir : string) (cpp : cpath).
Hypothesis Hpd : packdir <> "".
Hypothesis Hpe : Str.endswith_char Str.sep packdir = false.
Hypothesis Hpn : no_dotdot packdir = true.

(** The batch directory resolves to [cpp]. *)
Definition at_batch (fs : node) : Prop :=
  canon fs packdir = Some cpp /\ is_dir (get fs cpp) = true.

Lemma lookup_item fs item :
  at_batch fs -> plain item = true ->
  lookup fs (path.join packdir item) = get fs (cpp ++ [item]).
Proof.
  intros [Hc Hd] Hi. unfold lookup.
  rewrite (canon_child fs packdir item Hpd Hpe Hi), Hc, Hd. reflexivity.
Qed.

(** An entry of the batch that is not a directory is left alone. *)
Lemma pre_pack_item_not_dir item w :
  isdir (w_fs w) (path.join packdir item) = false ->
  pre_pack_item packdir item w = Ok tt w.
Proof.
  intros H. unfold pre_pack_item, bind, path_isdir. cbv zeta beta. rewrite H. reflexivity.
Qed.

(** Restructuring one entry leaves the others as they were. *)
Lemma pre_pack_item_frame item w w1 :
  at_batch (w_fs w) -> plain item = true ->
  (forall es, get (w_fs w) (cpp ++ [item]) = Some (Dir es) -> wf_entries es) ->
  pre_pack_item packdir item w = Ok tt w1 ->
  at_batch (w_fs w1) /\ others_kept item cpp (w_fs w) (w_fs w1) /\
  exists st, steps_since w w1 st.
Proof.
  intros Hb Hi Hwf H.
  destruct (get (w_fs w) (cpp ++ [item])) as [[d|es]|] eqn:E.
  - rewrite pre_pack_item_not_dir in H
      by (unfold isdir; rewrite (lookup_item _ _ Hb Hi), E; reflexivity).
    inversion H; subst. split; [exact Hb|]. split; [apply others_refl|].
    exists []. apply steps_refl.
  - destruct (Hwf es eq_refl) as [Hnd Hpl].
    assert (Ho : at_object packdir item cpp (w_fs w)).
    { destruct Hb as [Hc Hd]. unfold at_object. rewrite E. auto. }
    destruct (pre_pack_item_spec packdir item cpp Hpd Hpe Hpn Hi es w w1 Ho E Hnd Hpl H)
      as (fs1 & prunes & Hs & _ & _ & _ & _ & _ & _ & (Hc & Hd & _) & Hoth).
    split; [split; assumption|]. split; [exact Hoth|]. eauto.
  - rewrite pre_pack_item_not_dir in H
      by (unfold isdir; rewrite (lookup_item _ _ Hb Hi), E; reflexivity).
    inversion H; subst. split; [exact Hb|]. split; [apply others_refl|].
    exists []. apply steps_refl.
Qed.

(** What the three phases did to the object [item], whose entries were
    [es]: [fs1] is the disk after the copy, [prunes] are the pruning
    steps, [fs_end] is a disk after the rename. *)
Definition restructured (item : string) (es : list (string * node)) (fs1 : node)
           (prunes : list (Event * node)) (fs_end : node) : Prop :=
  Forall (fun s => lookup s (path.join (path.join packdir item) "temptemptemp") =
                   Some (Dir es)) (fs1 :: disks prunes) /\
  Forall (fun e => exists t, t <> "temptemptemp" /\
            ((e = EvRmtree (path.join (path.join packdir item) t) /\
              is_dir (assoc t es) = true) \/
             (e = EvRemove (path.join (path.join packdir item) t) /\
              is_file (assoc t es) = true /\ Str.contains "meta" t = false)))
         (events prunes) /\
  (forall t, is_dir (assoc t es) = true ->
             In (EvRmtree (path.join (path.join packdir item) t)) (events prunes)) /\
  (forall t, is_file (assoc t es) = true -> Str.contains "meta" t = false ->
             In (EvRemove (path.join (path.join packdir item) t)) (events prunes)) /\
  (forall t d, assoc t es = Some (File d) -> Str.contains "meta" t = true ->
               file_at fs_end (path.join (path.join packdir item) t) = Some d) /\
  lookup fs_end (path.join (path.join packdir item)
                           (path.basename (path.join packdir item))) = Some (Dir es).

Lemma restructured_later item es fs1 prunes fsa fsb :
  plain item = true -> wf_entries es ->
  restructured item es fs1 prunes fsa ->
  at_object packdir item cpp fsa -> at_batch fsb ->
  (forall r, get fsb (cpp ++ item :: r) = get fsa (cpp ++ item :: r)) ->
  restructured item es fs1 prunes fsb.
Proof.
  intros Hi [Hnd Hpl] (H1 & H2 & H3 & H4 & H5 & H6) Ha Hb Hr.
  assert (Hob : at_object packdir item cpp fsb).
  { destruct Hb as [Hc Hd]. destruct Ha as (_ & _ & Hia).
    unfold at_object. rewrite (Hr []). auto. }
  assert (Hlk : forall t, plain t = true ->
                lookup fsb (path.join (path.join packdir item) t) =
                lookup fsa (path.join (path.join packdir item) t)).
  { intros t Ht.
    rewrite (lookup_thing packdir item cpp Hpd Hpe Hi fsb t Hob Ht).
    rewrite (lookup_thing packdir item cpp Hpd Hpe Hi fsa t Ha Ht).
    unfold child. apply Hr. }
  unfold restructured. repeat (split; [assumption|]). split.
  - intros t d Ht Hm. unfold file_at. rewrite Hlk; [exact (H5 t d Ht Hm)|].
    rewrite Forall_forall in Hpl. exact (Hpl _ (assoc_in _ _ _ Ht)).
  - rewrite (basename_join packdir item Hi) in *. rewrite Hlk; assumption.
Qed.

(** The loop of [pre_pack]. *)
Lemma pre_pack_loop_spec items : forall w w',
  NoDup items -> Forall (fun i => plain i = true) items ->
  at_batch (w_fs w) ->
  (forall item es, In item items ->
     get (w_fs w) (cpp ++ [item]) = Some (Dir es) -> wf_entries es) ->
  foldM (fun item _ => pre_pack_item packdir item) items tt w = Ok tt w' ->
  at_batch (w_fs w') /\
  (forall item r, ~ In item items ->
     get (w_fs w') (cpp ++ item :: r) = get (w_fs w) (cpp ++ item :: r)) /\
  (exists st, steps_since w w' st) /\
  (forall item es, In item items ->
     get (w_fs w) (cpp ++ [item]) = Some (Dir es) ->
     exists before fs1 prunes fs2 after,
       steps_since w w'
         (before ++
          (EvCopytree (path.join packdir item)
                      (path.join (path.join packdir item) "temptemptemp"), fs1)
            :: prunes ++
          (EvRename (path.join (path.join packdir item) "temptemptemp")
                    (path.join (path.join packdir item)
                               (path.basename (path.join packdir item))), fs2)
            :: after) /\
       restructured item es fs1 prunes (w_fs w')).
Proof.
  induction items as [|i0 rest IH]; intros w w' Hnd Hpl Hb Hwf H.
  - simpl in H. unfold ret in H. inversion H; subst.
    split; [exact Hb|]. split; [reflexivity|]. split; [exists []; apply steps_refl|].
    intros item es [].
  - cbn [foldM] in H. apply bind_ok in H. destruct H as ([] & w1 & H1 & H2).
    inversion Hnd as [|? ? Hn0 Hnd']; subst. inversion Hpl as [|? ? Hi0 Hpl']; subst.
    destruct (pre_pack_item_frame i0 w w1 Hb Hi0) as (Hb1 & Hoth & st0 & Hs0); [|exact H1|].
    { intros es E. apply (Hwf i0 es); [left; reflexivity | exact E]. }
    assert (Hne : forall item, In item rest -> item <> i0).
    { intros item Hin ->. contradiction. }
    destruct (IH w1 w' Hnd' Hpl' Hb1) as (Hb' & Hfr & (st' & Hs') & Hall); [|exact H2|].
    { intros item es Hin E. apply (Hwf item es); [right; exact Hin|].
      rewrite <- (Hoth item [] (Hne item Hin)). exact E. }
    split; [exact Hb'|]. split; [|split].
    + intros item r Hni. rewrite Hfr by (intros Hin; apply Hni; right; exact Hin).
      apply Hoth. intros ->. apply Hni. left. reflexivity.
    + exists (st0 ++ st'). eapply steps_trans; eauto.
    + intros item es [<-|Hin] E.
      * destruct (Hwf i0 es (or_introl eq_refl) E) as [Hnde Hple].
        assert (Ho : at_object packdir i0 cpp (w_fs w)).
        { destruct Hb as [Hc Hd]. unfold at_object. rewrite E. auto. }
        destruct (pre_pack_item_spec packdir i0 cpp Hpd Hpe Hpn Hi0 es w w1 Ho E Hnde Hple H1)
          as (fs1 & prunes & Hs & F1 & F2 & F3 & F4 & F5 & F6 & Ho1 & _).
        exists [], fs1, prunes, (w_fs w1), st'. split.
        -- cbn [app]. unfold steps_since in *. rewrite Hs', Hs.
           rewrite <- app_assoc. f_equal. cbn [app]. f_equal.
           rewrite <- app_assoc. reflexivity.
        -- apply (restructured_later i0 es fs1 prunes (w_fs w1) (w_fs w') Hi0
                    (conj Hnde Hple));
             [unfold restructured; auto 10 | exact Ho1 | exact Hb'
             | intros r; apply Hfr; exact Hn0].
      * assert (E1 : get (w_fs w1) (cpp ++ [item]) = Some (Dir es)).
        { rewrite (Hoth item [] (Hne item Hin)). exact E. }
        destruct (Hall item es Hin E1) as (before & fs1 & prunes & fs2 & after & Hs & Hr).
        exists (st0 ++ before), fs1, prunes, fs2, after. split; [|exact Hr].
        rewrite <- app_assoc. eapply steps_trans; eauto.
Qed.

End PrePackBatch.

Section PrePackFacts.

Import PrePack.

(** C9, as the code has it.  A completed [pre_pack] of a batch has, for
    every entry [item] of the batch that is a directory, these calls in
    this order: one [copytree] of the object into [temptemptemp] inside
    it; then the pruning calls; then one [rename] of [temptemptemp] to
    the object's own base name, the last call for the object.  The
    pruning is an [rmtree] of every entry of the object that is a
    directory, whatever its name, and a [remove] of every other entry
    whose name does not contain [meta], and nothing else; the files whose
    name contains [meta] are still there when [pre_pack] returns.  The
    copy holds the object's original entries from the [copytree] on, on
    every disk the pruning goes through, and the renamed directory holds
    them when [pre_pack] returns.  The batch directory is given without
    a trailing separator and without [..]; it and its objects list plain,
    distinct names, as directories do. *)
Theorem pre_pack_copy_prune_rename packdir names (w w' : World) :
  packdir <> "" ->
  Str.endswith_char Str.sep packdir = false ->
  no_dotdot packdir = true ->
  FS.listdir (w_fs w) packdir = Some names ->
  NoDup names ->
  Forall (fun i => plain i = true) names ->
  (forall item es, In item names ->
     FS.lookup (w_fs w) (path.join packdir item) = Some (Dir es) -> wf_entries es) ->
  pre_pack packdir w = Ok packdir w' ->
  forall item es,
    In item names ->
    FS.lookup (w_fs w) (path.join packdir item) = Some (Dir es) ->
    let olditempath := path.join packdir item in
    let temppath := path.join olditempath "temptemptemp" in
    let newdirpath := path.join olditempath (path.basename olditempath) in
    exists before fs1 prunes fs2 after,
      steps_since w w'
        (before ++ (EvCopytree olditempath temppath, fs1) :: prunes ++
         (EvRename temppath newdirpath, fs2) :: after) /\
      Forall (fun s => FS.lookup s temppath = Some (Dir es)) (fs1 :: disks prunes) /\
      Forall (fun e => exists t, t <> "temptemptemp" /\
                ((e = EvRmtree (path.join olditempath t) /\
                  FS.is_dir (FS.assoc t es) = true) \/
                 (e = EvRemove (path.join olditempath t) /\
                  FS.is_file (FS.assoc t es) = true /\ Str.contains "meta" t = false)))
             (events prunes) /\
      (forall t, FS.is_dir (FS.assoc t es) = true ->
                 In (EvRmtree (path.join olditempath t)) (events prunes)) /\
      (forall t, FS.is_file (FS.assoc t es) = true -> Str.contains "meta" t = false ->
                 In (EvRemove (path.join olditempath t)) (events prunes)) /\
      (forall t d, FS.assoc t es = Some (File d) -> Str.contains "meta" t = true ->
                   FS.file_at (w_fs w') (path.join olditempath t) = Some d) /\
      FS.lookup (w_fs w') newdirpath = Some (Dir es).
Proof.
  intros Hpd Hpe Hpn Hl Hnd Hpl Hwf H item es Hin Hes. cbv zeta.
  assert (Hb : exists cpp, at_batch packdir cpp (w_fs w)).
  { unfold FS.listdir, FS.lookup in Hl.
    destruct (FS.canon (w_fs w) packdir) as [cpp|] eqn:Ec; [|discriminate].
    exists cpp. split; [exact Ec|].
    destruct (FS.get (w_fs w) cpp) as [[d|es0]|]; try discriminate. reflexivity. }
  destruct Hb as [cpp Hb].
  assert (Hlk : forall i, In i names ->
                  FS.lookup (w_fs w) (path.join packdir i) = FS.get (w_fs w) (cpp ++ [i])).
  { intros i Hi. apply (lookup_item packdir cpp Hpd Hpe _ _ Hb).
    rewrite Forall_forall in Hpl. exact (Hpl _ Hi). }
  unfold pre_pack in H. apply bind_ok in H. destruct H as (items & w0 & H0 & H).
  apply listdir_ok in H0. destruct H0 as [-> H0]. rewrite Hl in H0. inversion H0; subst items.
  apply bind_ok in H. destruct H as ([] & w2 & H2 & H). unfold ret in H.
  inversion H; subst w2. clear H.
  destruct (pre_pack_loop_spec packdir cpp Hpd Hpe Hpn names w w' Hnd Hpl Hb)
    as (_ & _ & _ & Hall); [|exact H2|].
  { intros i es' Hi E. apply (Hwf i es' Hi). rewrite (Hlk i Hi). exact E. }
  rewrite (Hlk item Hin) in Hes.
  destruct (Hall item es Hin Hes) as (before & fs1 & prunes & fs2 & after & Hs & Hr).
  exists before, fs1, prunes, fs2, after. split; [exact Hs | exact Hr].
Qed.

End PrePackFacts.

(* ================================================================== *)
(** * The Metadata stage: renderings, counts and ragged ledgers *)

Section MetadataMore.

Context {env : Env} {csvlib : Csv} {rdflib : Rdflib}.

Import FS DictCsv.

Lemma last_record_ok rows : forall cur w o w',
  last_record rows cur w = Ok o w' ->
  w' = w /\
  ((rows = [] /\ o = cur) \/
   exists front r m, rows = front ++ [r] /\ read_record (dr_items r) = Some m /\ o = Some m).
Proof.
  induction rows as [|r rest IH]; intros cur w o w' H.
  - simpl in H. inversion H; subst. auto.
  - cbn [last_record] in H. destruct (read_record (dr_items r)) as [m|] eqn:Er; [|discriminate].
    destruct (IH _ _ _ _ H) as [-> [[-> ->]|(front & r' & m' & -> & Hr & ->)]].
    + split; [reflexivity|]. right. exists [], r, m. auto.
    + split; [reflexivity|]. right. exists (r :: front), r', m'. auto.
Qed.

Lemma last_record_nil cur w : last_record [] cur w = Ok cur w.
Proof. reflexivity. Qed.

Lemma file_at_exists fs p d : file_at fs p = Some d -> exists_ fs p = true.
Proof.
  unfold file_at, exists_. destruct (lookup fs p) as [[x|es]|]; simpl; congruence.
Qed.

(** X1. [make_rdf] renders the last row of the record.  When it comes
    back for a record that is there, it says [True], the record has at
    least one data row, and [metadata.xml], beside the record, holds the
    serialisation of the graph built from the values of the last data
    row; the calls are the read of the record and the write of the
    rendering. *)
Theorem make_rdf_renders_last_row metacsv (w : World) text b w' :
  file_at (w_fs w) metacsv = Some text ->
  make_rdf metacsv w = Ok b w' ->
  b = true /\
  exists front r m,
    dict_rows (csv_reader text) = front ++ [r] /\
    read_record (dr_items r) = Some m /\
    file_at (w_fs w') (path.join (path.dirname metacsv) "metadata.xml") =
      Some (serialize_pretty_xml m) /\
    added w w' =
      [EvOpenRead metacsv;
       EvTruncate (path.join (path.dirname metacsv) "metadata.xml");
       EvAppend (path.join (path.dirname metacsv) "metadata.xml") (serialize_pretty_xml m)].
Proof.
  intros Hf H. unfold make_rdf in H.
  unfold bind at 1, path_exists in H. cbv beta in H.
  rewrite (file_at_exists _ _ _ Hf) in H. cbn [negb] in H.
  unfold bind at 1 in H. rewrite (read_text_ok _ _ Hf) in H.
  apply bind_ok in H. destruct H as (cur & w1 & Hl & H).
  destruct (last_record_ok _ _ _ _ _ Hl) as [-> [[_ ->]|(front & r & m & Hrows & Hr & ->)]].
  { discriminate. }
  apply bind_ok in H. destruct H as ([] & w2 & H2 & H).
  apply bind_ok in H. destruct H as ([] & w3 & H3 & H).
  unfold ret in H. inversion H; subst b w3. clear H.
  apply emit_ok in H2. destruct H2 as (Ha2 & Hs2 & _).
  apply emit_ok in H3. destruct H3 as (Ha3 & Hs3 & _).
  split; [reflexivity|]. exists front, r, m. split; [exact Hrows|]. split; [exact Hr|].
  split.
  - simpl in Ha2, Ha3.
    destruct (FileFrame.write_file_file_at _ _ _ Ha2) as (d2 & Hd2 & Hd2').
    destruct (FileFrame.write_file_file_at _ _ _ Ha3) as (d3 & Hd3 & Hd3').
    rewrite Hd2' in Hd3. inversion Hd2; subst d2. rewrite Hd3'. rewrite <- Hd3. reflexivity.
  - assert (Hs : steps_since w w'
                   ([(EvOpenRead metacsv, w_fs w)] ++
                    [(EvTruncate (path.join (path.dirname metacsv) "metadata.xml"), w_fs w2)] ++
                    [(EvAppend (path.join (path.dirname metacsv) "metadata.xml")
                               (serialize_pretty_xml m), w_fs w')])).
    { eapply steps_trans; [|eapply steps_trans; [exact Hs2 | exact Hs3]].
      unfold steps_since. reflexivity. }
    rewrite (steps_added _ _ _ Hs). reflexivity.
Qed.

(** X2. The ways [make_rdf] gives up, each before anything is written:
    for a record that is not there it shows the warning and says
    [False]; for a record without a data row it stops with a
    [NameError] (its variables were never assigned), having only opened
    the record. *)
Theorem make_rdf_writes_nothing_without_a_row metacsv (w : World) :
  (exists_ (w_fs w) metacsv = false ->
   make_rdf metacsv w =
   Ok false (mkWorld (w_fs w)
               (w_trace w ++
                [(EvWarning "Error: The 'metadata.csv' was not found.
RDF file not created.", w_fs w)])
               (w_asked w) (w_ids w) (w_clock w))) /\
  (forall text,
     file_at (w_fs w) metacsv = Some text ->
     dict_rows (csv_reader text) = [] ->
     make_rdf metacsv w =
     Raise NameError (mkWorld (w_fs w) (w_trace w ++ [(EvOpenRead metacsv, w_fs w)])
                        (w_asked w) (w_ids w) (w_clock w))).
Proof.
  split.
  - intros He. unfold make_rdf, bind, path_exists. cbv beta. rewrite He. reflexivity.
  - intros text Hf Hr. unfold make_rdf.
    unfold bind at 1, path_exists. cbv beta.
    rewrite (file_at_exists _ _ _ Hf). cbn [negb].
    unfold bind at 1. rewrite (read_text_ok _ _ Hf). rewrite Hr.
    unfold bind. rewrite last_record_nil. reflexivity.
Qed.

End MetadataMore.

Section LedgerMore.

Context {env : Env} {csvlib : Csv} {rdflib : Rdflib}.

Import FS DictCsv.

Lemma make_rdf_true metacsv w b w' :
  exists_ (w_fs w) metacsv = true -> make_rdf metacsv w = Ok b w' -> b = true.
Proof.
  intros He H. unfold make_rdf in H.
  unfold bind at 1, path_exists in H. cbv beta in H. rewrite He in H. cbn [negb] in H.
  apply bind_ok in H. destruct H as (text & w1 & _ & H).
  apply bind_ok in H. destruct H as (cur & w2 & _ & H).
  destruct cur as [m|]; [|discriminate].
  apply bind_ok in H. destruct H as ([] & w3 & _ & H).
  apply bind_ok in H. destruct H as ([] & w4 & _ & H).
  unfold ret in H. inversion H. reflexivity.
Qed.

Lemma write_meta_counts foldpath headers row s w s' w' :
  write_meta foldpath headers row s w = Ok s' w' ->
  nfiles s' = nfiles s + 1 /\ rfiles s' = rfiles s + 1.
Proof.
  intros H. unfold write_meta in H.
  apply bind_ok in H. destruct H as ([] & w1 & _ & H).
  apply bind_ok in H. destruct H as ([] & w2 & _ & H).
  destruct (dict_to_list headers row) as [cells|]; [|discriminate].
  apply bind_ok in H. destruct H as ([] & w3 & H3 & H).
  apply bind_ok in H. destruct H as (rdfok & w4 & H4 & H).
  apply emit_ok in H3. destruct H3 as (Ha3 & _). simpl in Ha3.
  rewrite (make_rdf_true _ _ _ _ (FileFrame.write_file_exists _ _ _ Ha3) H4) in H.
  unfold ret in H. inversion H; subst. simpl. auto.
Qed.

Lemma meta_decide_counts fpath foldname s w d w' :
  meta_decide fpath foldname s w = Ok d w' ->
  nfiles (snd d) = nfiles s /\ rfiles (snd d) = rfiles s.
Proof.
  intros H. unfold meta_decide in H.
  apply bind_ok in H. destruct H as (there & w1 & _ & H).
  apply bind_ok in H. destruct H as (isbag & w2 & _ & H).
  apply bind_ok in H. destruct H as (skip1 & w3 & _ & H).
  apply bind_ok in H. destruct H as (hasmeta & w4 & _ & H).
  apply bind_ok in H. destruct H as (s1 & w5 & H5 & H).
  apply bind_ok in H. destruct H as (hasmeta' & w6 & _ & H).
  unfold ret in H. inversion H; subst. cbn [snd].
  destruct (hasmeta && firstone s)%bool.
  - apply bind_ok in H5. destruct H5 as (a & w7 & _ & H5). unfold ret in H5.
    inversion H5; subst. simpl. auto.
  - unfold ret in H5. inversion H5; subst. auto.
Qed.

(** X3. The two counts [meta_from_csv] reports are always equal: a
    [metadata.csv] that has just been written is there for [make_rdf],
    so a run that completes has rendered every record it wrote. *)
Theorem meta_from_csv_counts_agree csvIn locids fpath (w : World) n r w' :
  meta_from_csv csvIn locids fpath w = Ok (n, r) w' -> n = r.
Proof.
  intros H. unfold meta_from_csv in H.
  apply bind_ok in H. destruct H as (text & w1 & _ & H). cbv zeta in H.
  destruct (headers_ok (fieldnames (csv_reader text))); cbn [negb] in H.
  2:{ apply bind_ok in H. destruct H as ([] & w2 & _ & H). unfold ret in H.
      inversion H. reflexivity. }
  apply bind_ok in H. destruct H as (s & w2 & Hfold & H).
  unfold ret in H. inversion H; subst. clear H.
  assert (Hstep : forall row a w0,
             nfiles a = rfiles a ->
             match meta_row locids fpath verifyHeadrs row a w0 with
             | Ok a' _ => nfiles a' = rfiles a'
             | Raise _ _ => True
             end).
  { intros row a w0 Ha.
    destruct (meta_row locids fpath verifyHeadrs row a w0) as [s' w3|e w3] eqn:E; [|exact I].
    unfold meta_row in E.
    destruct (dict_get locids (dr_items row)) as [[foldname|]|]; try discriminate.
    apply bind_ok in E. destruct E as (d & w4 & Hd & E).
    destruct (meta_decide_counts _ _ _ _ _ _ Hd) as [Hn Hr].
    destruct (negb (fst d)).
    - destruct (write_meta_counts _ _ _ _ _ _ _ E) as [Hn' Hr']. lia.
    - unfold ret in E. inversion E; subst. lia. }
  pose proof (foldM_inv (fun s (_ : World) => nfiles s = rfiles s) (fun _ => True)
                (meta_row locids fpath verifyHeadrs) (dict_rows (csv_reader text)) Hstep
                {| nfiles := 0; rfiles := 0;
                   overwrite_all := false; firstone := true |} w1 eq_refl) as H0.
  rewrite Hfold in H0. exact H0.
Qed.

End LedgerMore.

Section RaggedLedger.

Context {env : Env} {csvlib : Csv} {rdflib : Rdflib}.

Import FS DictCsv.

Lemma zip_pad_keys hs : forall row, map fst (zip_pad hs row) = hs.
Proof.
  induction hs as [|h hs IH]; intros row; [reflexivity|].
  destruct row as [|c r]; simpl; rewrite IH; reflexivity.
Qed.

Lemma dict_get_none key items : ~ In key (map fst items) -> dict_get key items = None.
Proof.
  induction items as [|[k v] r IH]; intros Hn; [reflexivity|]. simpl in *.
  rewrite IH by tauto. destruct (String.eqb_spec k key); [|reflexivity].
  exfalso. apply Hn. left. assumption.
Qed.

(** X4. An identifier column that is not one of the eight field names:
    with a well-formed ledger that has at least one data row,
    [meta_from_csv] stops with a [KeyError] at the first row, having
    only opened the ledger; nothing is asked and nothing is written. *)
Theorem meta_from_csv_unknown_id_column csvIn locids fpath (w : World) text data :
  file_at (w_fs w) csvIn = Some text ->
  csv_reader text = verifyHeadrs :: data ->
  ~ In locids verifyHeadrs ->
  (exists row, In row data /\ row <> []) ->
  meta_from_csv csvIn locids fpath w =
  Raise KeyError (mkWorld (w_fs w) (w_trace w ++ [(EvOpenRead csvIn, w_fs w)])
                    (w_asked w) (w_ids w) (w_clock w)).
Proof.
  intros Hf Hrows Hn (row & Hin & Hne). unfold meta_from_csv.
  unfold bind at 1. rewrite (read_text_ok _ _ Hf). cbv zeta. rewrite Hrows.
  cbn [fieldnames]. rewrite (proj2 (headers_ok_iff _) eq_refl). cbn [negb dict_rows].
  assert (Hfil : exists r1 rest, filter (fun r => negb (is_nil r)) data = r1 :: rest).
  { destruct (filter (fun r => negb (is_nil r)) data) as [|r1 rest] eqn:E; [|eauto].
    exfalso. assert (Hi : In row (filter (fun r => negb (is_nil r)) data)).
    { apply filter_In. split; [exact Hin|]. destruct row; [contradiction | reflexivity]. }
    rewrite E in Hi. exact Hi. }
  destruct Hfil as (r1 & rest & ->). cbn [map foldM].
  unfold bind at 1. unfold bind at 1. unfold meta_row at 1. cbn [dict_row dr_items].
  rewrite dict_get_none; [reflexivity|]. rewrite zip_pad_keys. exact Hn.
Qed.

Lemma skipn_longer (A : Type) n (l : list A) : n < List.length l -> List.skipn n l <> [].
Proof.
  revert l. induction n as [|n IH]; intros [|x l] H; simpl in *; try lia; try discriminate.
  apply IH. lia.
Qed.

Lemma askyesno_steps msg w a w1 :
  askyesno msg w = Ok a w1 -> steps_since w w1 [(EvAsk msg a, w_fs w)].
Proof.
  unfold askyesno, emit. cbn [Sem.apply_event]. intros H. inversion H; subst.
  unfold steps_since. reflexivity.
Qed.

Lemma meta_decide_steps fpath foldname s w d w' :
  meta_decide fpath foldname s w = Ok d w' -> exists st, steps_since w w' st.
Proof.
  intros H. unfold meta_decide in H.
  apply bind_ok in H. destruct H as (there & w1 & H1 & H).
  apply bind_ok in H. destruct H as (isbag & w2 & H2 & H).
  apply bind_ok in H. destruct H as (skip1 & w3 & H3 & H).
  apply bind_ok in H. destruct H as (hasmeta & w4 & H4 & H).
  apply bind_ok in H. destruct H as (s1 & w5 & H5 & H).
  apply bind_ok in H. destruct H as (hasmeta' & w6 & H6 & H).
  unfold ret in H. inversion H; subst.
  unfold path_exists in *. inversion H1; subst. inversion H2; subst.
  inversion H4; subst. inversion H6; subst.
  assert (S3 : exists st, steps_since w2 w4 st).
  { destruct (exists_ (w_fs w2) (path.join (path.join fpath foldname) "data")).
    - eexists. eapply askyesno_steps; eauto.
    - unfold ret in H3. inversion H3; subst. exists []. apply steps_refl. }
  assert (S5 : exists st, steps_since w4 w' st).
  { destruct (exists_ (w_fs w4) (path.join (path.join fpath foldname) "metadata.csv")
              && firstone s)%bool.
    - apply bind_ok in H5. destruct H5 as (a & w7 & H7 & H5). unfold ret in H5.
      inversion H5; subst. eexists. eapply askyesno_steps; eauto.
    - unfold ret in H5. inversion H5; subst. exists []. apply steps_refl. }
  destruct S3 as [st3 S3]. destruct S5 as [st5 S5].
  exists (st3 ++ st5). eapply steps_trans; eauto.
Qed.

Lemma meta_decide_disk fpath foldname s w d w' :
  meta_decide fpath foldname s w = Ok d w' -> w_fs w' = w_fs w.
Proof.
  intros H.
  destruct (meta_decide_spec fpath foldname s w) as (skip1 & s1 & w1 & E & Hfs & _).
  rewrite E in H. inversion H; subst. exact Hfs.
Qed.

(** X5. A ledger row with more cells than the header is never made into
    a record.  Either the row is skipped, the disk left as it was; or
    the row stops the run, and when it does so with the [ValueError] of
    [DictWriter.writerow], the object's [metadata.csv] has already been
    opened for writing and holds the header line and nothing else. *)
Theorem long_row_leaves_header_only locids fpath headers cells s (w : World) foldname :
  List.length headers < List.length cells ->
  dict_get locids (dr_items (dict_row headers cells)) = Some (Some foldname) ->
  let metafile := path.join (path.join fpath foldname) "metadata.csv" in
  let r := meta_row locids fpath headers (dict_row headers cells) s w in
  (forall s' w', r = Ok s' w' ->
     w_fs w' = w_fs w /\ nfiles s' = nfiles s /\ rfiles s' = rfiles s) /\
  (forall w', r = Raise ValueError w' ->
     file_at (w_fs w') metafile = Some (csv_writerow headers) /\
     exists asked,
       added w w' =
         asked ++ [EvTruncate metafile; EvAppend metafile (csv_writerow headers)]).
Proof.
  intros Hlen Hget. cbv zeta. unfold meta_row. rewrite Hget.
  assert (Hnone : dict_to_list headers (dict_row headers cells) = None).
  { unfold dict_to_list. cbn [dict_row dr_rest].
    destruct (List.skipn (List.length headers) cells) eqn:E; [|reflexivity].
    exfalso. exact (skipn_longer _ _ _ Hlen E). }
  split.
  - intros s' w' H. apply bind_ok in H. destruct H as (d & w1 & Hd & H).
    pose proof (meta_decide_disk _ _ _ _ _ _ Hd) as Hfs.
    destruct (meta_decide_counts _ _ _ _ _ _ Hd) as [Hn Hr].
    destruct (negb (fst d)).
    + exfalso. unfold write_meta in H.
      apply bind_ok in H. destruct H as ([] & w2 & _ & H).
      apply bind_ok in H. destruct H as ([] & w3 & _ & H).
      rewrite Hnone in H. discriminate.
    + unfold ret in H. inversion H; subst. auto.
  - intros w' H. unfold bind at 1 in H.
    destruct (meta_decide fpath foldname s w) as [d w1|e w1] eqn:Hd.
    2:{ exfalso. destruct (meta_decide_spec fpath foldname s w) as (? & ? & ? & E & _).
        rewrite E in Hd. discriminate. }
    pose proof (meta_decide_disk _ _ _ _ _ _ Hd) as Hfs.
    destruct (negb (fst d)); [|discriminate].
    unfold write_meta in H. unfold bind at 1 in H.
    destruct (emit (EvTruncate (path.join (path.join fpath foldname) "metadata.csv")) w1)
      as [[] w2|e w2] eqn:E2.
    2:{ inversion H; subst. unfold emit in E2.
        destruct (Sem.apply_event _ (w_fs w1)); discriminate. }
    unfold bind at 1 in H.
    destruct (emit (EvAppend (path.join (path.join fpath foldname) "metadata.csv")
                             (csv_writerow headers)) w2) as [[] w3|e w3] eqn:E3.
    2:{ inversion H; subst. unfold emit in E3.
        destruct (Sem.apply_event _ (w_fs w2)); discriminate. }
    rewrite Hnone in H. inversion H; subst w3. clear H.
    apply emit_ok in E2. destruct E2 as (Ha2 & Hs2 & _).
    apply emit_ok in E3. destruct E3 as (Ha3 & Hs3 & _).
    simpl in Ha2, Ha3.
    destruct (FileFrame.write_file_file_at _ _ _ Ha2) as (d2 & Hd2 & Hd2').
    destruct (FileFrame.write_file_file_at _ _ _ Ha3) as (d3 & Hd3 & Hd3').
    rewrite Hd2' in Hd3. inversion Hd2; subst d2. split.
    + rewrite Hd3', <- Hd3. reflexivity.
    + destruct (meta_decide_steps _ _ _ _ _ _ Hd) as [st Hst].
      exists (events st).
      rewrite (steps_added _ _ _ (steps_trans _ _ _ _ _ Hst (steps_trans _ _ _ _ _ Hs2 Hs3))).
      unfold events. rewrite map_app. reflexivity.
Qed.

End RaggedLedger.

(* ================================================================== *)
(** * Registration: records too short to register *)

Section RegistrationMore.

Context {env : Env} {csvlib : Csv} {rdflib : Rdflib}.

Import FS Registration.

(** X6. A record whose first data row has no fourth cell (or that has
    no data row at all) cannot be registered: the loop body draws an
    identifier, opens the record and stops with an [IndexError].
    Nothing has been written by then: the record, the audit log and the
    name of the object are as they were. *)
Theorem register_short_record_untouched ofolder logfile fo c (w : World) text :
  isdir (w_fs w) (path.join ofolder fo) = true ->
  file_at (w_fs w) (path.join (path.join ofolder fo) "metadata.csv") = Some text ->
  cell (csv_reader text) 3 = None ->
  exists w',
    register_entry ofolder logfile fo c w = Raise IndexError w' /\
    w_fs w' = w_fs w /\
    added w w' = [EvOpenRead (path.join (path.join ofolder fo) "metadata.csv")] /\
    w_ids w' = S (w_ids w).
Proof.
  intros Hd Hf Hc.
  rewrite (register_entry_go ofolder logfile fo c w Hd (file_at_exists _ _ _ Hf)).
  unfold bind at 1. unfold register_update. cbv zeta.
  unfold bind at 1. unfold gen_ID at 1, bind at 1, uuid_uuid4 at 1, ret at 1.
  unfold bind at 1.
  set (w1 := mkWorld (w_fs w) (w_trace w) (w_asked w) (S (w_ids w)) (w_clock w)).
  assert (Hf1 : file_at (w_fs w1) (path.join (path.join ofolder fo) "metadata.csv") = Some text)
    by exact Hf.
  rewrite (read_text_ok _ _ Hf1).
  set (w2 := mkWorld (w_fs w1) _ _ _ _).
  assert (Hadd : forall w3, w_trace w3 = w_trace w2 -> added w w3 =
            [EvOpenRead (path.join (path.join ofolder fo) "metadata.csv")]).
  { intros w3 E.
    apply (steps_added w w3
             [(EvOpenRead (path.join (path.join ofolder fo) "metadata.csv"), w_fs w)]).
    unfold steps_since. rewrite E. reflexivity. }
  unfold cell in Hc.
  destruct (csv_reader text) as [|header [|[|old cells] more]]; cbn [set_identifier].
  - exists w2. repeat split. apply Hadd. reflexivity.
  - exists w2. repeat split. apply Hadd. reflexivity.
  - exists w2. repeat split. apply Hadd. reflexivity.
  - cbn [nth_error] in Hc. unfold cell. cbn [nth_error].
    destruct cells as [|c1 cells]; cbn [nth_error].
    + exists w2. repeat split. apply Hadd. reflexivity.
    + unfold bind at 1, time_strftime at 1.
      cbn [nth_error] in Hc. rewrite Hc.
      eexists. split; [reflexivity|]. repeat split. apply Hadd. reflexivity.
Qed.

End RegistrationMore.

(* ================================================================== *)
(** * Archiving: every entry is counted once *)

Section RunTarMore.

Context {env : Env} {tarlib : Tarfile}.

Import FS.

Definition tar_total (c : TarCounts) : nat := tarfiles c + alreadytar c + notfolder c.

Lemma run_tar_entry_total tarfolder outfolder i c w c' w' :
  run_tar_entry tarfolder outfolder i c w = Ok c' w' -> tar_total c' = tar_total c + 1.
Proof.
  unfold run_tar_entry. cbv zeta. unfold bind at 1, path_isdir. cbv beta.
  destruct (isdir (w_fs w) (path.join tarfolder i)).
  - unfold bind at 1, path_exists at 1. cbv beta.
    destruct (exists_ (w_fs w) (tar_outfile outfolder i)) eqn:Ex.
    + intros H. apply bind_ok in H. destruct H as ([] & w1 & _ & H).
      unfold ret in H. inversion H; subst. unfold tar_total. simpl. lia.
    + unfold bind at 1, path_exists at 1. cbv beta. rewrite Ex. cbn [negb].
      intros H. apply bind_ok in H. destruct H as ([] & w1 & _ & H).
      unfold ret in H. inversion H; subst. unfold tar_total. simpl. lia.
  - unfold ret. intros H. inversion H; subst. unfold tar_total. simpl. lia.
Qed.

Lemma run_tar_entries_total tarfolder outfolder names : forall c w c' w',
  foldM (run_tar_entry tarfolder outfolder) names c w = Ok c' w' ->
  tar_total c' = tar_total c + List.length names.
Proof.
  induction names as [|i rest IH]; intros c w c' w' H.
  - simpl in H. unfold ret in H. inversion H; subst. simpl. lia.
  - cbn [foldM] in H. apply bind_ok in H. destruct H as (c1 & w1 & H1 & H).
    rewrite (IH _ _ _ _ H), (run_tar_entry_total _ _ _ _ _ _ _ H1). simpl. lia.
Qed.

(** X7. A completed archiving loop has counted every entry of the batch
    directory exactly once: the archives made, the archives found and
    the entries that are not directories add up to the length of the
    listing, which is read after the output directory has been made, if
    it had to be. *)
Theorem run_tar_counts_every_entry tarfolder (w : World) c w' :
  run_tar_loop tarfolder w = Ok c w' ->
  exists fs1 names,
    (fs1 = w_fs w \/
     Sem.apply_event (EvMkdir (tar_outfolder tarfolder)) (w_fs w) = Some fs1) /\
    listdir fs1 tarfolder = Some names /\
    tarfiles c + alreadytar c + notfolder c = List.length names.
Proof.
  intros H. unfold run_tar_loop in H. cbv zeta in H.
  unfold bind at 1, path_exists at 1 in H. cbv beta in H.
  apply bind_ok in H. destruct H as ([] & w1 & Hmk & H).
  apply bind_ok in H. destruct H as (names & w2 & Hls & H).
  apply listdir_ok in Hls. destruct Hls as [-> Hls].
  exists (w_fs w1), names. split; [|split; [exact Hls|]].
  - destruct (exists_ (w_fs w) (tar_outfolder tarfolder)); cbn [negb] in Hmk.
    + unfold ret in Hmk. inversion Hmk; subst. left. reflexivity.
    + apply emit_ok in Hmk. right. exact (proj1 Hmk).
  - pose proof (run_tar_entries_total _ _ _ _ _ _ _ H) as Ht. unfold tar_total in Ht.
    simpl in Ht. lia.
Qed.

End RunTarMore.

(* ================================================================== *)
(** * Pre-pack: the staging name is taken *)

Section PrePackMore.

Import FS PrePack.

(** X8. An object that already has an entry named [temptemptemp] is not
    restructured: [copytree] refuses the existing destination, the stage
    stops with an [OSError] there, and the disk is as it was: nothing
    has been pruned. *)
Theorem pre_pack_staging_name_taken packdir item es (w : World) :
  packdir <> "" ->
  Str.endswith_char Str.sep packdir = false ->
  plain item = true ->
  lookup (w_fs w) (path.join packdir item) = Some (Dir es) ->
  assoc "temptemptemp" es <> None ->
  pre_pack_item packdir item w = Raise OSError w.
Proof.
  intros Hpd Hpe Hi Hl Ht. unfold pre_pack_item. cbv zeta.
  unfold bind at 1, path_isdir. cbv beta. unfold isdir. rewrite Hl. cbn [is_dir].
  unfold bind at 1, emit. cbn [Sem.apply_event]. rewrite Hl.
  destruct (ChildPaths.join_plain packdir item Hi) as [Hne He].
  rewrite (ChildPaths.canon_child (w_fs w) _ "temptemptemp" Hne He eq_refl).
  unfold lookup in Hl.
  destruct (canon (w_fs w) (path.join packdir item)) as [cp|]; [|discriminate].
  rewrite Hl. cbn [is_dir].
  rewrite (DirFacts.get_child (w_fs w) cp es "temptemptemp" Hl).
  destruct (assoc "temptemptemp" es); [reflexivity | contradiction].
Qed.

End PrePackMore.

(* ================================================================== *)
(** * Splitting and joining names *)

Module NameMore.

Import Str.

Lemma append_inv_head_str a b c : a +++ b = a +++ c -> b = c.
Proof. induction a as [|x a IH]; simpl; intros H; [exact H|]. inversion H. auto. Qed.

Lemma length_append_str a b : String.length (a +++ b) = String.length a + String.length b.
Proof. induction a as [|x a IH]; simpl; [reflexivity | rewrite IH; reflexivity]. Qed.

(** [splitext] cuts the path in two. *)
Lemma splitext_name_joins name :
  fst (path.splitext_name name) +++ snd (path.splitext_name name) = name.
Proof.
  unfold path.splitext_name. destruct (rsplit extsep name) as [[stem ext]|] eqn:E.
  - destruct (all_char extsep stem); cbn [fst snd].
    + apply append_nil_r_str.
    + symmetry. exact (proj1 (NameFacts.rsplit_some _ _ _ _ E)).
  - cbn [fst snd]. apply append_nil_r_str.
Qed.

Lemma splitext_joins p : fst (path.splitext p) +++ snd (path.splitext p) = p.
Proof.
  unfold path.splitext. destruct (rsplit sep p) as [[h t]|] eqn:E.
  - pose proof (splitext_name_joins t) as Ht.
    destruct (path.splitext_name t) as [stem ext]. cbn [fst snd] in *.
    rewrite (proj1 (NameFacts.rsplit_some _ _ _ _ E)).
    rewrite append_assoc_str. cbn [String.append]. rewrite Ht.
    change (String sep t) with ("/" +++ t). reflexivity.
  - apply splitext_name_joins.
Qed.

Lemma rsplit_app_nosep c a s :
  has_char c s = false ->
  rsplit c (a +++ s) =
  match rsplit c a with Some (h, t) => Some (h, t +++ s) | None => None end.
Proof.
  intros Hs. induction a as [|x a IH]; simpl.
  - clear -Hs. induction s as [|y s IH]; simpl in *; [reflexivity|].
    apply orb_false_iff in Hs. destruct Hs as [Hy Hs]. rewrite (IH Hs), Hy. reflexivity.
  - rewrite IH. destruct (rsplit c a) as [[h t]|]; [reflexivity|].
    destruct (Ascii.eqb x c); reflexivity.
Qed.

(** Text without a separator, added at the end of a path, is added to
    its base name. *)
Lemma basename_append p s :
  has_char sep s = false -> path.basename (p +++ s) = path.basename p +++ s.
Proof.
  intros Hs. unfold path.basename, path.split. rewrite (rsplit_app_nosep _ _ _ Hs).
  destruct (rsplit sep p) as [[h t]|]; reflexivity.
Qed.

End NameMore.

(* ================================================================== *)
(** * The transfer manifest: where it looks and what it lists *)

Section TransferNames.

Context {env : Env} {tarlib : Tarfile}.

Import NameMore.

(** X9. The folder [run_tar] makes and the folder [trans_manifest]
    offers to list are the same folder exactly when the name of the
    items folder has no extension: [run_tar] drops the extension before
    it adds [-tarred], [trans_manifest] does not. *)
Theorem tarred_folder_names_agree indirectory :
  tar_outfolder indirectory = Transfer.tarred_dir indirectory <->
  snd (path.splitext indirectory) = "".
Proof.
  unfold tar_outfolder, Transfer.tarred_dir.
  pose proof (splitext_joins indirectory) as Hj.
  destruct (path.splitext indirectory) as [stem ext]. cbn [fst snd] in *. split.
  - intros H. rewrite <- Hj, append_assoc_str in H. apply append_inv_head_str in H.
    apply (f_equal String.length) in H. rewrite length_append_str in H.
    destruct ext; [reflexivity | simpl in H; lia].
  - intros ->. rewrite append_nil_r_str in Hj. rewrite Hj. reflexivity.
Qed.

End TransferNames.

Section TransferCancel.

Context {env : Env} {hashlib : Hashlib} {dialog : FileDialog} {stamp : Stamp}.

Import FS Transfer.

(** X10. A folder that is not there cancels the transfer manifest.  The
    folder is [<items>-tarred] when the operator says yes, the pick of
    the folder dialog otherwise (the empty path when that dialog is
    cancelled, which is never there).  The question and the warning are
    all that happens: no manifest is opened. *)
Theorem trans_manifest_cancels indirectory (w : World) :
  let indir := if answer (w_asked w) then tarred_dir indirectory
               else askdirectory (S (w_asked w)) in
  exists_ (w_fs w) indir = false ->
  exists w',
    trans_manifest indirectory w = Ok tt w' /\
    w_fs w' = w_fs w /\
    added w w' =
      [EvAsk (tarred_question
                (path.join (path.basename (path.dirname indirectory))
                           (path.basename indirectory)))
             (answer (w_asked w));
       EvWarning (missing_dir_msg indir)].
Proof.
  cbv zeta. intros He. unfold trans_manifest. cbv zeta.
  unfold bind at 1, askyesno, emit. cbn [Sem.apply_event w_fs w_trace w_asked w_ids w_clock].
  unfold bind at 1.
  destruct (answer (w_asked w)).
  - unfold ret at 1. unfold bind at 1, path_exists. cbn [w_fs]. rewrite He. cbn [negb].
    unfold showwarning, emit. cbn [Sem.apply_event w_fs w_trace].
    eexists. split; [reflexivity|]. split; [reflexivity|].
    unfold added, events. cbn [w_trace]. rewrite <- app_assoc, map_app.
    rewrite <- (length_map fst (w_trace w)), skipn_app, Nat.sub_diag, skipn_all.
    reflexivity.
  - unfold ask_directory at 1. unfold bind at 1, path_exists.
    cbn [w_fs w_asked]. rewrite He. cbn [negb].
    unfold showwarning, emit. cbn [Sem.apply_event w_fs w_trace].
    eexists. split; [reflexivity|]. split; [reflexivity|].
    unfold added, events. cbn [w_trace]. rewrite <- app_assoc, map_app.
    rewrite <- (length_map fst (w_trace w)), skipn_app, Nat.sub_diag, skipn_all.
    reflexivity.
Qed.

End TransferCancel.

Section TransferWalk.

Context {env : Env} {hashlib : Hashlib} {dialog : FileDialog} {stamp : Stamp}.

Import FS Checksum Inventory Transfer.

(** [sha3hash] of a file with the bytes [data]. *)
Definition sha3_hex (data : string) : string :=
  hexdigest hashlib_sha3_256
    (fold_left (h_update hashlib_sha3_256) (chunks DEFAULT_BUFFER_SIZE data)
               (h_new hashlib_sha3_256)).

(** [line] is the line of the file [f]: its name and the digest of the
    bytes it had when it was opened, on a disk of the steps [st]. *)
Definition line_of (st : list (Event * node)) (f : string * string) (line : string) : Prop :=
  exists data fs,
    In (EvOpenRead (path.join (fst f) (snd f)), fs) st /\
    file_at fs (path.join (fst f) (snd f)) = Some data /\
    line = transfer_line (snd f) (sha3_hex data).

Variable compfile : string.
Hypothesis Hb1 : path.basename compfile <> "".
Hypothesis Hb2 : path.basename compfile <> ".".
Hypothesis Hb3 : path.basename compfile <> "..".
Hypothesis Hb4 : path.basename compfile <> ".DS_Store".

(** The files [files] have been gone through from [w] to [w']: the
    manifest, which held [c], has their lines after that, and the OS
    artifacts among them have been removed. *)
Definition transferred (files : list (string * string)) (c : string) (w w' : World) : Prop :=
  exists lines st,
    steps_since w w' st /\
    file_at (w_fs w') compfile = Some (c +++ cat lines) /\
    Forall2 (line_of st) (listed files) lines /\
    Forall (fun f => artifact f = true ->
                     In (EvRemove (path.join (fst f) (snd f))) (events st)) files.

Lemma line_of_more pre st post f line :
  line_of st f line -> line_of (pre ++ st ++ post) f line.
Proof.
  intros (data & fs & Hi & Hf & ->). exists data, fs. split; [|auto].
  apply in_or_app. right. apply in_or_app. left. exact Hi.
Qed.

Lemma transferred_nil c w : file_at (w_fs w) compfile = Some c -> transferred [] c w w.
Proof.
  intros H. exists [], []. split; [apply steps_refl|]. simpl. rewrite append_nil_r_str.
  repeat split; auto; constructor.
Qed.

Lemma transferred_app l1 l2 c w w1 w2 :
  transferred l1 c w w1 ->
  (forall c1, file_at (w_fs w1) compfile = Some c1 -> transferred l2 c1 w1 w2) ->
  transferred (l1 ++ l2) c w w2.
Proof.
  intros (lines1 & st1 & Hs1 & Hf1 & Hl1 & Ha1) H2.
  destruct (H2 _ Hf1) as (lines2 & st2 & Hs2 & Hf2 & Hl2 & Ha2).
  exists (lines1 ++ lines2), (st1 ++ st2). split; [eapply steps_trans; eauto|]. split; [|split].
  - rewrite Hf2, cat_app, append_assoc_str. reflexivity.
  - unfold listed. rewrite filter_app. apply Forall2_app.
    + eapply Forall2_impl; [|exact Hl1]. intros f line H.
      apply (line_of_more [] st1 st2). exact H.
    + eapply Forall2_impl; [|exact Hl2]. intros f line H.
      rewrite <- (app_nil_r (st1 ++ st2)), <- app_assoc.
      apply (line_of_more st1 st2 []). exact H.
  - apply Forall_app. split.
    + eapply Forall_impl; [|exact Ha1]. intros f H Hf. unfold events. rewrite map_app.
      apply in_or_app. left. exact (H Hf).
    + eapply Forall_impl; [|exact Ha2]. intros f H Hf. unfold events. rewrite map_app.
      apply in_or_app. right. exact (H Hf).
Qed.

Lemma remove_artifact_keeps p fs fs' :
  path.basename p = ".DS_Store" ->
  Sem.apply_event (EvRemove p) fs = Some fs' ->
  file_at fs' compfile = file_at fs compfile.
Proof.
  intros Hp Ha.
  apply (FileEvents.file_event_frame (EvRemove p) fs fs' compfile eq_refl Ha).
  intros p0 cp Ht Hc Hq. simpl in Ht. inversion Ht; subst p0.
  apply (last_differs ".DS_Store" (path.basename compfile) cp).
  - congruence.
  - eapply NameFacts.canon_basename; eauto; discriminate.
  - eapply NameFacts.canon_basename; eauto.
Qed.

Lemma append_line data fs fs' c :
  Sem.apply_event (EvAppend compfile data) fs = Some fs' ->
  file_at fs compfile = Some c ->
  file_at fs' compfile = Some (c +++ data).
Proof.
  intros Ha Hc. simpl in Ha.
  destruct (FileFrame.write_file_file_at _ _ _ Ha) as (d & Hd & Hd').
  rewrite Hc in Hd. rewrite Hd'. congruence.
Qed.

Lemma transfer_file_spec base name w w' c :
  transfer_file compfile base name w = Ok tt w' ->
  file_at (w_fs w) compfile = Some c ->
  transferred [(base, name)] c w w'.
Proof.
  intros H Hc. unfold transfer_file in H. cbv zeta in H. unfold transferred, listed.
  cbn [filter]. unfold artifact at 1. cbn [fst snd].
  destruct (String.eqb (path.basename (path.join base name)) ".DS_Store") eqn:Eb.
  - apply emit_ok in H. destruct H as (Ha & Hs & _).
    apply String.eqb_eq in Eb.
    exists [], [(EvRemove (path.join base name), w_fs w')]. split; [exact Hs|].
    split; [|split].
    + simpl. rewrite append_nil_r_str, (remove_artifact_keeps _ _ _ Eb Ha). exact Hc.
    + constructor.
    + constructor; [|constructor]. intros _. left. reflexivity.
  - apply bind_ok in H. destruct H as (sum & w1 & Hh & H).
    apply emit_ok in H. destruct H as (Ha & Hs & _).
    unfold sha3hash in Hh.
    destruct (hash_file_reads _ _ _ _ _ _ Hh) as [data Hd].
    destruct (hash_file_ok hashlib_sha3_256 DEFAULT_BUFFER_SIZE _ w data Hd)
      as (w1' & E & Hfs & _ & _ & _ & st & Hst & Hev & Hall).
    rewrite E in Hh. inversion Hh; subst sum w1'. clear Hh.
    exists [transfer_line name (sha3_hex data)],
           (st ++ [(EvAppend compfile (transfer_line name (sha3_hex data)), w_fs w')]).
    split; [eapply steps_trans; eauto|]. split; [|split].
    + simpl. rewrite append_nil_r_str. apply (append_line _ _ _ _ Ha). rewrite Hfs. exact Hc.
    + cbn [negb]. constructor; [|constructor]. exists data, (w_fs w). cbn [fst snd].
      split; [|auto]. apply in_or_app. left.
      unfold pass_events in Hev. destruct st as [|[e s] st']; [discriminate|].
      cbn [events map fst] in Hev. inversion Hev; subst e.
      inversion Hall; subst. cbn [snd] in *. left. congruence.
    + constructor; [|constructor]. unfold artifact. cbn [fst snd]. rewrite Eb. discriminate.
Qed.

Lemma transfer_files_spec base names : forall w w' c,
  foldM (fun name _ => transfer_file compfile base name) names tt w = Ok tt w' ->
  file_at (w_fs w) compfile = Some c ->
  transferred (map (fun name => (base, name)) names) c w w'.
Proof.
  induction names as [|name rest IH]; intros w w' c H Hc.
  - simpl in H. unfold ret in H. inversion H; subst. apply transferred_nil. exact Hc.
  - cbn [foldM] in H. apply bind_ok in H. destruct H as ([] & w1 & H1 & H).
    change (map (fun n => (base, n)) (name :: rest))
      with ([(base, name)] ++ map (fun n => (base, n)) rest).
    eapply transferred_app.
    + eapply transfer_file_spec; eauto.
    + intros c1 Hc1. eapply IH; eauto.
Qed.

Lemma transfer_walk_spec triples : forall w w' c,
  foldM (fun t _ =>
           foldM (fun name _ => transfer_file compfile (fst (fst t)) name) (snd t) tt)
        triples tt w = Ok tt w' ->
  file_at (w_fs w) compfile = Some c ->
  transferred (walk_files triples) c w w'.
Proof.
  induction triples as [|t rest IH]; intros w w' c H Hc.
  - simpl in H. unfold ret in H. inversion H; subst. apply transferred_nil. exact Hc.
  - cbn [foldM] in H. apply bind_ok in H. destruct H as ([] & w1 & H1 & H).
    change (walk_files (t :: rest))
      with (map (fun name => (fst (fst t), name)) (snd t) ++ walk_files rest).
    eapply transferred_app.
    + eapply transfer_files_spec; eauto.
    + intros c1 Hc1. eapply IH; eauto.
Qed.

End TransferWalk.

Section TransferManifest.

Context {env : Env} {hashlib : Hashlib} {dialog : FileDialog} {stamp : Stamp}.

Import FS Checksum Inventory Transfer NameMore.

Lemma csv_name_differs y :
  y +++ ".csv" <> "" /\ y +++ ".csv" <> "." /\ y +++ ".csv" <> ".." /\
  y +++ ".csv" <> ".DS_Store".
Proof.
  assert (Hl : 4 <= String.length (y +++ ".csv"))
    by (rewrite length_append_str; simpl; lia).
  repeat split; intros E; try (rewrite E in Hl; simpl in Hl; lia).
  assert (H5 : String.length y = 5).
  { apply (f_equal String.length) in E. rewrite length_append_str in E. simpl in E. lia. }
  destruct y as [|a [|b [|c [|d [|e [|f y]]]]]]; simpl in H5; try lia.
  simpl in E. inversion E.
Qed.

Lemma transfer_path_csv outdir indir st :
  exists x, path.join outdir (transfer_name indir st) = x +++ ".csv".
Proof.
  assert (Hn : transfer_name indir st =
               ("Transfer_" +++ path.basename indir +++ "_" +++ st) +++ ".csv").
  { unfold transfer_name. rewrite !append_assoc_str. reflexivity. }
  unfold path.join.
  assert (Hs : Str.startswith_char Str.sep (transfer_name indir st) = false) by reflexivity.
  rewrite Hs, Hn.
  destruct (String.eqb outdir "" || Str.endswith_char Str.sep outdir)%bool.
  - eexists. rewrite <- append_assoc_str. reflexivity.
  - eexists. rewrite <- !append_assoc_str. reflexivity.
Qed.

(** X11. A completed transfer manifest lists every file of the folder.
    The file [Transfer_<folder>_<stamp>.csv], in the directory of the
    folder, holds one line [name, digest] for every file the walk of the
    folder finds that is not an OS artifact, in the order of the walk;
    the digest is [sha3hash] of the bytes the file had when it was
    opened.  The files named [.DS_Store] have been removed and have no
    line. *)
Theorem trans_manifest_lists_every_file indirectory (w w' : World) :
  let indir := if answer (w_asked w) then tarred_dir indirectory
               else askdirectory (S (w_asked w)) in
  let compfile :=
    path.join (path.dirname indir) (transfer_name indir (strftime_mdHMS (w_clock w))) in
  exists_ (w_fs w) indir = true ->
  trans_manifest indirectory w = Ok tt w' ->
  exists asked fs_a n lines st_walk,
    steps_since w w'
      ([asked; (EvTruncate compfile, fs_a)] ++ st_walk ++
       [(EvWarning "Transfer Manifest Created.", w_fs w')]) /\
    lookup fs_a indir = Some n /\
    file_at (w_fs w') compfile = Some (cat lines) /\
    Forall2 (line_of st_walk) (listed (walk_files (walk indir n))) lines /\
    Forall (fun f => artifact f = true ->
                     In (EvRemove (path.join (fst f) (snd f))) (events st_walk))
           (walk_files (walk indir n)).
Proof.
  cbv zeta. intros He H. unfold trans_manifest in H. cbv zeta in H.
  apply bind_ok in H. destruct H as (tardest & w1 & H1 & H).
  pose proof (askyesno_steps _ _ _ _ H1) as Hs1.
  assert (E1 : tardest = answer (w_asked w) /\ w_fs w1 = w_fs w /\
               w_asked w1 = S (w_asked w) /\ w_clock w1 = w_clock w).
  { unfold askyesno, emit in H1. cbn [Sem.apply_event] in H1. inversion H1; subst.
    cbn. auto. }
  destruct E1 as (-> & Hfs1 & Hask1 & Hcl1).
  apply bind_ok in H. destruct H as (indir & w2 & H2 & H).
  assert (E2 : indir = (if answer (w_asked w) then tarred_dir indirectory
                        else askdirectory (S (w_asked w))) /\
               w_fs w2 = w_fs w /\ w_trace w2 = w_trace w1 /\ w_clock w2 = w_clock w).
  { destruct (answer (w_asked w)).
    - unfold ret in H2. inversion H2; subst. auto.
    - unfold ask_directory in H2. inversion H2; subst. cbn. rewrite Hask1. auto. }
  destruct E2 as (Ei & Hfs2 & Htr2 & Hcl2). rewrite <- Ei in *. clear H2.
  unfold bind at 1, path_exists in H. cbv beta in H. rewrite Hfs2, He in H. cbn [negb] in H.
  unfold bind at 1, time_stamp at 1 in H. rewrite Hcl2 in H.
  set (compfile := path.join (path.dirname indir)
                     (transfer_name indir (strftime_mdHMS (w_clock w)))) in *.
  apply bind_ok in H. destruct H as ([] & w3 & H3 & H).
  apply emit_ok in H3. destruct H3 as (Ha3 & Hs3 & _). cbn [w_fs w_trace] in *.
  apply bind_ok in H. destruct H as (n & w4 & H4 & H).
  assert (E4 : w4 = w3 /\ lookup (w_fs w3) indir = Some n).
  { unfold read_node in H4. destruct (lookup (w_fs w3) indir); inversion H4; auto. }
  destruct E4 as [-> Hn]. clear H4.
  apply bind_ok in H. destruct H as ([] & w5 & H5 & H).
  apply emit_ok in H. destruct H as (Ha6 & Hs6 & _).
  assert (Hc3 : file_at (w_fs w3) compfile = Some "").
  { simpl in Ha3. destruct (FileFrame.write_file_file_at _ _ _ Ha3) as (d & Hd & Hd').
    rewrite Hd'. congruence. }
  destruct (transfer_path_csv (path.dirname indir) indir (strftime_mdHMS (w_clock w)))
    as [x Hx].
  fold compfile in Hx.
  assert (Hbn : path.basename compfile = path.basename x +++ ".csv").
  { rewrite Hx. apply basename_append. reflexivity. }
  destruct (csv_name_differs (path.basename x)) as (D1 & D2 & D3 & D4).
  rewrite <- Hbn in D1, D2, D3, D4.
  destruct (transfer_walk_spec compfile D1 D2 D3 D4 _ _ _ _ H5 Hc3)
    as (lines & st & Hst & Hf & Hl & Har).
  simpl in Ha6. inversion Ha6 as [Efs].
  exists (EvAsk (tarred_question
                   (path.join (path.basename (path.dirname indirectory))
                              (path.basename indirectory))) (answer (w_asked w)), w_fs w),
         (w_fs w3), n, lines, st.
  split; [|split; [exact Hn|split; [|split; [exact Hl | exact Har]]]].
  - unfold steps_since in *. cbn [w_trace] in *. rewrite Hs6, Hst, Hs3, Htr2, Hs1.
    rewrite <- !app_assoc. rewrite Efs. reflexivity.
  - exact Hf.
Qed.

End TransferManifest.

(* ================================================================== *)
(** * The header menu and the ledger *)

Section HeadersFacts.

Context {env : Env} {csvlib : Csv}.

Import FS DictCsv Headers.

Lemma dict_get_some key items : In key (map fst items) -> dict_get key items <> None.
Proof.
  induction items as [|[k v] r IH]; simpl; [tauto|]. intros [->|Hin].
  - destruct (dict_get key r); [discriminate|]. rewrite String.eqb_refl. discriminate.
  - destruct (dict_get key r) eqn:E; [discriminate|]. exfalso. exact (IH Hin eq_refl).
Qed.

Lemma dict_rows_keys rows row :
  In row (dict_rows rows) ->
  exists h, fieldnames rows = Some h /\ map fst (dr_items row) = h.
Proof.
  destruct rows as [|h data]; simpl; [tauto|]. intros Hin.
  apply in_map_iff in Hin. destruct Hin as (r & <- & _).
  exists h. split; [reflexivity|]. apply zip_pad_keys.
Qed.

(** X12. Every entry of the menu [get_headers] builds from a ledger is a
    column of that ledger: the labels are the header row, the entry is
    set to the first of them, and looking any of them up in a row of the
    ledger, as [meta_from_csv] does with the chosen column, finds the
    key.  Building the menu only reads. *)
Theorem menu_offers_ledger_columns csvfi (w : World) text first menu w' :
  file_at (w_fs w) csvfi = Some text ->
  snd (path.splitext csvfi) = ".csv" ->
  get_headers csvfi w = Ok (first, menu) w' ->
  fieldnames (csv_reader text) = Some menu /\
  hd_error menu = Some first /\
  w_fs w' = w_fs w /\
  forall idcolumn row,
    In idcolumn menu -> In row (dict_rows (csv_reader text)) ->
    dict_get idcolumn (dr_items row) <> None.
Proof.
  intros Hf Hext H. unfold get_headers in H. cbv zeta in H.
  unfold bind at 1, path_exists in H. cbv beta in H.
  rewrite (file_at_exists _ _ _ Hf), Hext in H. cbn [andb String.eqb Ascii.eqb Bool.eqb] in H.
  unfold bind at 1 in H. unfold bind at 1 in H. rewrite (read_text_ok _ _ Hf) in H.
  unfold ret at 1 in H.
  destruct (fieldnames (csv_reader text)) as [[|f rest]|] eqn:Efn; try discriminate.
  unfold ret in H. inversion H; subst. cbn [w_fs].
  split; [reflexivity|]. split; [reflexivity|]. split; [reflexivity|].
  intros idcolumn row Hin Hrow.
  destruct (dict_rows_keys _ _ Hrow) as (h & Eh & Hk).
  apply dict_get_some. rewrite Hk. rewrite Efn in Eh. inversion Eh; subst. exact Hin.
Qed.

(** X13. What [get_headers] does without a header to show.  For a path
    that is not there or does not end in [.csv] it offers the two
    placeholder labels and reads nothing; for a [.csv] file that is
    empty it stops with a [TypeError], and for one whose first row is
    empty with an [IndexError], at [opts[0]]. *)
Theorem get_headers_without_header csvfi (w : World) :
  (exists_ (w_fs w) csvfi = false \/ snd (path.splitext csvfi) <> ".csv" ->
   get_headers csvfi w = Ok ("Select CSV", placeholder_opts) w) /\
  (forall text,
     file_at (w_fs w) csvfi = Some text ->
     snd (path.splitext csvfi) = ".csv" ->
     let w1 := mkWorld (w_fs w) (w_trace w ++ [(EvOpenRead csvfi, w_fs w)])
                       (w_asked w) (w_ids w) (w_clock w) in
     (csv_reader text = [] -> get_headers csvfi w = Raise TypeError w1) /\
     (forall more, csv_reader text = [] :: more ->
                   get_headers csvfi w = Raise IndexError w1)).
Proof.
  split.
  - intros Hc. unfold get_headers. cbv zeta. unfold bind at 1, path_exists. cbv beta.
    assert (E : (exists_ (w_fs w) csvfi &&
                 String.eqb (snd (path.splitext csvfi)) ".csv")%bool = false).
    { destruct Hc as [->|Hne]; [reflexivity|].
      destruct (String.eqb_spec (snd (path.splitext csvfi)) ".csv"); [contradiction|].
      apply andb_false_r. }
    rewrite E. reflexivity.
  - intros text Hf Hext. cbv zeta.
    assert (Hgo : forall o, fieldnames (csv_reader text) = o ->
              get_headers csvfi w =
              match o with
              | None => Raise TypeError
              | Some [] => Raise IndexError
              | Some (f :: rest) => Ok (f, f :: rest)
              end (mkWorld (w_fs w) (w_trace w ++ [(EvOpenRead csvfi, w_fs w)])
                           (w_asked w) (w_ids w) (w_clock w))).
    { intros o Ho. unfold get_headers. cbv zeta. unfold bind at 1, path_exists. cbv beta.
      rewrite (file_at_exists _ _ _ Hf), Hext.
      cbn [andb String.eqb Ascii.eqb Bool.eqb].
      unfold bind at 1. unfold bind at 1. rewrite (read_text_ok _ _ Hf).
      unfold ret at 1. rewrite Ho. destruct o as [[|f rest]|]; reflexivity. }
    split.
    + intros E. rewrite (Hgo None); [reflexivity|]. rewrite E. reflexivity.
    + intros more E. rewrite (Hgo (Some [])); [reflexivity|]. rewrite E. reflexivity.
Qed.

End HeadersFacts.

(* ================================================================== *)
(** * The sequence of the stages *)

(** A result without its value. *)
Definition forget {A} (r : Result A) : Result unit :=
  match r with Ok _ w => Ok tt w | Raise e w => Raise e w end.

Section ProcsFacts.

Context {env : Env} {csvlib : Csv} {rdflib : Rdflib} {hashlib : Hashlib}
        {platform : Platform} {tarlib : Tarfile} {dialog : FileDialog} {stamp : Stamp}
        {bagit : Bagit}.

Import FS Procs.

Lemma count_selected_from l : forall n,
  fold_left (fun nselect d => if Nat.eqb d 1 then nselect + 1 else nselect) l n =
  n + count_selected l.
Proof.
  unfold count_selected. induction l as [|d l IH]; intros n; cbn [fold_left]; [lia|].
  rewrite IH, (IH (if Nat.eqb d 1 then 0 + 1 else 0)). destruct (Nat.eqb d 1); lia.
Qed.

Lemma count_selected_none l : Forall (fun d => d <> 1) l -> count_selected l = 0.
Proof.
  induction 1 as [|d l Hd Hl IH]; [reflexivity|].
  unfold count_selected. cbn [fold_left]. rewrite count_selected_from, IH.
  destruct (Nat.eqb_spec d 1); [contradiction | reflexivity].
Qed.

(** X14. [run_procs] refuses to start without a folder, with a folder
    that is not there, or with no check box set to 1: it shows one
    warning and returns.  The pre-packaging question is not asked, no
    stage runs, the disk is as it was. *)
Theorem run_procs_refuses form (w : World) :
  e1 form = "" \/
  exists_ (w_fs w) (e1 form) = false \/
  Forall (fun d => d <> 1)
         [metavar form; regisvar form; invenvar form; bagitvar form;
          tarvar form; transvar form] ->
  exists msg,
    run_procs form w =
    Ok tt (mkWorld (w_fs w) (w_trace w ++ [(EvWarning msg, w_fs w)])
                   (w_asked w) (w_ids w) (w_clock w)).
Proof.
  intros H. unfold run_procs, run_procs_with. cbv zeta.
  destruct (String.eqb (e1 form) "") eqn:E1; [eexists; reflexivity|].
  unfold bind at 1, path_exists. cbv beta.
  destruct (exists_ (w_fs w) (e1 form)) eqn:Ex; cbn [negb]; [|eexists; reflexivity].
  destruct H as [H|[H|H]].
  - rewrite H in E1. discriminate.
  - discriminate.
  - rewrite (count_selected_none _ H). eexists. reflexivity.
Qed.

Lemma bind_forget A B (m1 m2 : M A) (k : M B) w :
  forget (m1 w) = forget (m2 w) ->
  bind m1 (fun _ => k) w = bind m2 (fun _ => k) w.
Proof.
  unfold bind, forget. destruct (m1 w), (m2 w); intros H; inversion H; reflexivity.
Qed.

Lemma bind_same A B (m : M A) (f g : A -> M B) w :
  (forall a w1, f a w1 = g a w1) -> bind m f w = bind m g w.
Proof. intros H. unfold bind. destruct (m w); auto. Qed.

Section Two.

Variables bag1 bag2 : nat -> string -> nat -> M bool.
Hypothesis Hbag : forall p d n w, forget (bag1 p d n w) = forget (bag2 p d n w).
Variable form : Form.

Lemma from_bagit_same d n w :
  from_bagit bag1 form d n true w = from_bagit bag2 form d n true w.
Proof.
  unfold from_bagit. destruct (Nat.eqb (bagitvar form) 1); [|reflexivity].
  cbv zeta. cbn [negb]. apply bind_forget. apply Hbag.
Qed.

Lemma from_inventory_same d n w :
  from_inventory bag1 form d n true w = from_inventory bag2 form d n true w.
Proof.
  unfold from_inventory. destruct (Nat.eqb (invenvar form) 1); [|apply from_bagit_same].
  cbv zeta. apply bind_same. intros [|] w1; cbn [negb]; [apply from_bagit_same | reflexivity].
Qed.

Lemma from_registration_same d n w :
  from_registration bag1 form d n true w = from_registration bag2 form d n true w.
Proof.
  unfold from_registration.
  destruct (Nat.eqb (regisvar form) 1); [|apply from_inventory_same].
  cbv zeta. apply bind_same.
  intros [|] w1; cbn [negb]; [apply from_inventory_same | reflexivity].
Qed.

Lemma from_metadata_same d n w :
  from_metadata bag1 form d n true w = from_metadata bag2 form d n true w.
Proof.
  unfold from_metadata.
  destruct (Nat.eqb (metavar form) 1); [|apply from_registration_same].
  cbv zeta. destruct (String.eqb (e2 form) ""); [reflexivity|].
  apply bind_same. intros ex w1. destruct (negb ex); [reflexivity|].
  destruct (String.eqb (snd (path.splitext (e2 form))) ".csv" && String.eqb (e3 form) "")%bool;
    [reflexivity|].
  apply bind_same.
  intros [|] w2; cbn [negb]; [apply from_registration_same | reflexivity].
Qed.

Lemma run_procs_with_same w :
  run_procs_with bag1 form w = run_procs_with bag2 form w.
Proof.
  unfold run_procs_with. cbv zeta.
  destruct (String.eqb (e1 form) ""); [reflexivity|].
  apply bind_same. intros ex w1. destruct (negb ex); [reflexivity|].
  destruct (Nat.eqb _ 0); [reflexivity|].
  apply bind_same. intros prepack w2. apply bind_same. intros itemsdir w3.
  apply from_metadata_same.
Qed.

End Two.

(** X15. [run_procs] never uses the answer of the bagging stage.  The
    value [run_bagit] returns (whether the operator wants the next
    action) is not assigned, and the test that follows is on the answer
    of an earlier stage, which was yes; so with any stage in its place
    that does the same to the world and answers otherwise, [run_procs]
    does the same. *)
Theorem run_procs_ignores_bagging_answer bagging form (w : World) :
  (forall p d n w0, forget (bagging p d n w0) = forget (Bagging.run_bagit p d n w0)) ->
  run_procs form w = run_procs_with bagging form w.
Proof.
  intros H. unfold run_procs. apply run_procs_with_same. intros p d n w0.
  symmetry. apply H.
Qed.

End ProcsFacts.

(* ================================================================== *)
(** * An inventory run over inventoried objects *)

(** The calls that show a dialog. *)
Definition is_dialog (e : Event) : bool :=
  match e with
  | EvAsk _ _ | EvWarning _ => true
  | _ => false
  end.

Definition is_warning (e : Event) : bool :=
  match e with
  | EvWarning _ => true
  | _ => false
  end.

Lemma listdir_some p w l : FS.listdir (w_fs w) p = Some l -> listdir p w = Ok l w.
Proof. intros H. unfold listdir. rewrite H. reflexivity. Qed.

Section InventoryAgain.

Context {env : Env} {hashlib : Hashlib} {platform : Platform}.

Import FS Inventory.

(** The steps of a run that only shows dialogs, on the disk [fs]. *)
Definition dialogs_on (fs : node) (l : list (Event * node)) : Prop :=
  Forall (fun st => is_dialog (fst st) = true /\ snd st = fs) l.

Lemma inventory_skip_has_manifest objpath obj w :
  isdir (w_fs w) objpath = true ->
  exists_ (w_fs w) (path.join objpath "manifest.csv") = true ->
  exists w' l,
    inventory_skip objpath obj w = Ok true w' /\ w_fs w' = w_fs w /\
    steps_since w w' l /\ dialogs_on (w_fs w) l /\
    filter is_warning (events l) = [EvWarning (has_manifest_msg obj)].
Proof.
  intros Hd Hm. unfold inventory_skip.
  unfold bind at 1, path_isdir at 1. rewrite Hd. cbn [negb].
  unfold bind at 1, path_isdir at 1. rewrite Hd.
  unfold bind at 1, path_exists at 1.
  destruct (exists_ (w_fs w) (path.join objpath "data")).
  - unfold bind at 1. unfold askyesno, emit. cbn [Sem.apply_event w_fs w_trace w_asked w_ids w_clock].
    unfold bind at 1, path_exists at 1. cbn [w_fs]. rewrite Hm.
    unfold bind, showwarning, emit, ret.
    cbn [Sem.apply_event w_fs w_trace w_asked w_ids w_clock].
    eexists. exists [(EvAsk (bag_skip_msg obj) (answer (w_asked w)), w_fs w);
                     (EvWarning (has_manifest_msg obj), w_fs w)].
    split; [reflexivity|]. cbn [w_fs w_trace]. split; [reflexivity|].
    split; [unfold steps_since; cbn [w_trace]; rewrite <- app_assoc; reflexivity|].
    split; [|reflexivity].
    repeat constructor.
  - unfold bind at 1, ret at 1. unfold bind at 1, path_exists at 1. rewrite Hm.
    unfold bind, showwarning, emit, ret.
    cbn [Sem.apply_event w_fs w_trace w_asked w_ids w_clock].
    eexists. exists [(EvWarning (has_manifest_msg obj), w_fs w)].
    split; [reflexivity|]. cbn [w_fs w_trace]. split; [reflexivity|].
    split; [unfold steps_since; reflexivity|].
    split; [|reflexivity]. repeat constructor.
Qed.

Lemma inventory_skip_not_dir objpath obj w :
  isdir (w_fs w) objpath = false -> inventory_skip objpath obj w = Ok true w.
Proof.
  intros Hd. unfold inventory_skip. unfold bind at 1, path_isdir at 1. rewrite Hd.
  reflexivity.
Qed.

Lemma inventory_entries_skipped indir fs names :
  (forall obj, In obj names -> isdir fs (path.join indir obj) = true ->
               exists_ fs (path.join (path.join indir obj) "manifest.csv") = true) ->
  forall manifiles w, w_fs w = fs ->
  exists w' l,
    foldM (inventory_entry indir) names manifiles w = Ok manifiles w' /\
    w_fs w' = fs /\ steps_since w w' l /\ dialogs_on fs l /\
    filter is_warning (events l) =
      map (fun obj => EvWarning (has_manifest_msg obj))
          (filter (fun obj => isdir fs (path.join indir obj)) names).
Proof.
  induction names as [|obj rest IH]; intros Hall manifiles w Hfs.
  - exists w, []. split; [reflexivity|]. split; [exact Hfs|].
    split; [apply steps_refl|]. split; [constructor | reflexivity].
  - assert (Hrest : forall o, In o rest -> isdir fs (path.join indir o) = true ->
                      exists_ fs (path.join (path.join indir o) "manifest.csv") = true).
    { intros o Ho. apply Hall. right. exact Ho. }
    cbn [foldM filter]. unfold bind at 1. unfold inventory_entry at 1. cbv zeta.
    unfold bind at 1.
    destruct (isdir fs (path.join indir obj)) eqn:Hd.
    + destruct (inventory_skip_has_manifest (path.join indir obj) obj w)
        as (w1 & l1 & Hs & Hfs1 & Hst1 & Hd1 & Hw1).
      { rewrite Hfs. exact Hd. }
      { rewrite Hfs. apply Hall; [left; reflexivity | exact Hd]. }
      rewrite Hs. cbn [negb]. unfold ret at 1.
      destruct (IH Hrest manifiles w1) as (w' & l & Hrun & Hfs' & Hst & Hdl & Hw).
      { rewrite Hfs1. exact Hfs. }
      exists w', (l1 ++ l). split; [exact Hrun|]. split; [exact Hfs'|].
      split; [exact (steps_trans _ _ _ _ _ Hst1 Hst)|].
      split.
      * apply Forall_app. split; [rewrite <- Hfs; exact Hd1 | exact Hdl].
      * unfold events in *. rewrite map_app, filter_app, Hw1, Hw. reflexivity.
    + rewrite inventory_skip_not_dir by (rewrite Hfs; exact Hd).
      cbn [negb]. unfold ret at 1. apply (IH Hrest manifiles w Hfs).
Qed.

(** X16. An inventory run over a batch in which every object directory
    has its [manifest.csv] writes nothing: the loop of [run_inventory]
    completes with no manifest created and the disk as it was, it only
    shows dialogs, and its warnings are one "already exists" for each
    directory entry, in the order of the listing.  Entries that are not
    directories are passed over without a word. *)
Theorem inventory_rerun_writes_nothing indir (w : World) names :
  FS.listdir (w_fs w) indir = Some names ->
  (forall obj, In obj names -> isdir (w_fs w) (path.join indir obj) = true ->
               exists_ (w_fs w) (path.join (path.join indir obj) "manifest.csv") = true) ->
  exists w' l,
    inventory_loop indir w = Ok 0 w' /\
    w_fs w' = w_fs w /\
    steps_since w w' l /\
    dialogs_on (w_fs w) l /\
    filter is_warning (events l) =
      map (fun obj => EvWarning (has_manifest_msg obj))
          (filter (fun obj => isdir (w_fs w) (path.join indir obj)) names).
Proof.
  intros Hl Hall. unfold inventory_loop. unfold bind at 1.
  rewrite (listdir_some _ _ _ Hl). apply (inventory_entries_skipped indir (w_fs w) names Hall 0 w eq_refl).
Qed.

End InventoryAgain.

(* ================================================================== *)
(** * The counts of the bagging stage *)

Section BaggingFacts.

Context {env : Env} {bagit : Bagit}.

Import Bagging.

Lemma run_bagit_entry_counts bagsdir f c w c' w' :
  run_bagit_entry bagsdir f c w = Ok c' w' ->
  validbags c <= validbags c' /\
  validbags c' - validbags c <= totalbags c' - totalbags c /\
  totalbags c <= totalbags c' <= totalbags c + 1.
Proof.
  unfold run_bagit_entry. cbv zeta. intros H.
  apply bind_ok in H. destruct H as (isd & w1 & _ & H).
  destruct isd; [|unfold ret in H; inversion H; subst; lia].
  apply bind_ok in H. destruct H as (hasdata & w2 & _ & H).
  apply bind_ok in H. destruct H as (cont & w3 & _ & H).
  destruct cont; [|unfold ret in H; inversion H; subst; lia].
  apply bind_ok in H. destruct H as ([] & w4 & _ & H).
  apply bind_ok in H. destruct H as (v & w5 & _ & H).
  destruct v.
  - unfold ret in H. inversion H; subst. cbn [validbags totalbags]. lia.
  - apply bind_ok in H. destruct H as (v' & w6 & _ & H).
    apply bind_ok in H. destruct H as ([] & w7 & _ & H).
    unfold ret in H. inversion H; subst. cbn [validbags totalbags]. lia.
Qed.

Lemma run_bagit_entries_counts bagsdir names : forall c w c' w',
  foldM (run_bagit_entry bagsdir) names c w = Ok c' w' ->
  validbags c <= validbags c' /\
  validbags c' - validbags c <= totalbags c' - totalbags c /\
  totalbags c <= totalbags c' <= totalbags c + List.length names.
Proof.
  induction names as [|f rest IH]; intros c w c' w' H; cbn [foldM] in H.
  - unfold ret in H. inversion H; subst. cbn [List.length]. lia.
  - apply bind_ok in H. destruct H as (c1 & w1 & H1 & H).
    apply run_bagit_entry_counts in H1. apply IH in H. cbn [List.length]. lia.
Qed.

(** X17. The counts [run_bagit] reports are consistent whatever the
    bagging library does: when its loop completes, the bags counted as
    valid are at most the bags made, and the bags made are at most the
    entries the listing of the directory gave when the loop began. *)
Theorem run_bagit_counts_bounded bagsdir (w : World) c w' :
  run_bagit_loop bagsdir w = Ok c w' ->
  exists names,
    FS.listdir (w_fs w) bagsdir = Some names /\
    validbags c <= totalbags c <= List.length names.
Proof.
  unfold run_bagit_loop. intros H. apply bind_ok in H. destruct H as (names & w1 & Hl & H).
  unfold listdir in Hl. destruct (FS.listdir (w_fs w) bagsdir) as [l|] eqn:E; [|discriminate].
  inversion Hl; subst. exists names. split; [reflexivity|].
  apply run_bagit_entries_counts in H. cbn [validbags totalbags] in H. lia.
Qed.

End BaggingFacts.

(* ================================================================== *)
(** * Registration: the object after the rename *)

Module DirRename.

Import FS FSFacts.

(** A directory renamed to a new name beside it. *)
Lemma rename_dir_child fs src dst fs' cd a b es :
  canon fs src = Some (cd ++ [a]) -> canon fs dst = Some (cd ++ [b]) -> a <> b ->
  get fs (cd ++ [a]) = Some (Dir es) ->
  Sem.rename fs src dst = Some fs' ->
  get fs' (cd ++ [b]) = Some (Dir es) /\
  get fs' (cd ++ [a]) = None /\
  (forall c r, c <> a -> c <> b -> get fs' (cd ++ c :: r) = get fs (cd ++ c :: r)) /\
  (forall q r, cd = q ++ r -> is_dir (get fs' q) = true).
Proof.
  intros Hs Hd Hab Hg H. unfold Sem.rename in H. rewrite Hs, Hd, Hg in H.
  destruct (list_eq_dec string_dec (cd ++ [a]) (cd ++ [b])) as [E|_].
  { apply app_inv_head in E. inversion E. contradiction. }
  match type of H with (if ?ok then _ else _) = _ => destruct ok; [|discriminate] end.
  destruct (put fs (cd ++ [a]) None) as [fs1|] eqn:E1; [|discriminate].
  split; [exact (@get_put_same _ _ _ _ H)|].
  split.
  { rewrite (@get_put_diverge fs1 cd b a [] [] _ fs' H) by congruence.
    exact (@get_put_same _ _ _ _ E1). }
  split.
  { intros c r Hca Hcb.
    rewrite (@get_put_diverge fs1 cd b c [] r _ fs' H) by congruence.
    apply (@get_put_diverge fs cd a c [] r _ fs1 E1). congruence. }
  intros q r Hq. destruct r as [|x r].
  - rewrite app_nil_r in Hq. subst q.
    exact (proj2 (@get_put_above fs1 cd b [] _ fs' H)).
  - subst cd. rewrite <- app_assoc in H. cbn [app] in H.
    exact (proj2 (@get_put_above fs1 q x (r ++ [b]) _ fs' H)).
Qed.

End DirRename.

Section RegisteredState.

Context {env : Env} {csvlib : Csv} {rdflib : Rdflib}.

Import FS FSFacts FileFrame FileEvents Registration.

Lemma emit_file_step fs0 e w u w1 :
  emit e w = Ok u w1 -> file_event e = true -> same_dirs fs0 (w_fs w) ->
  same_dirs fs0 (w_fs w1) /\
  (forall q cq, canon fs0 q = Some cq ->
                (forall p, target e = Some p -> canon fs0 p <> Some cq) ->
                file_at (w_fs w1) q = file_at (w_fs w) q).
Proof.
  intros H He Hs. apply emit_ok in H. destruct H as (Ha & _).
  pose proof (file_event_same_dirs _ _ _ He Ha) as Hs1.
  split; [exact (same_dirs_trans Hs Hs1)|].
  intros q cq Hq Hp.
  apply (file_event_frame e (w_fs w) (w_fs w1) q He Ha).
  intros p cp Ht Hcp Hcq. apply (Hp p Ht).
  rewrite (same_dirs_canon p Hs), Hcp, <- Hcq, <- (same_dirs_canon q Hs). exact Hq.
Qed.

Lemma emit_write_step p f e w u w1 :
  emit e w = Ok u w1 ->
  (forall fs, Sem.apply_event e fs = Sem.write_file fs p f) ->
  exists d, f (file_at (w_fs w) p) = Some d /\ file_at (w_fs w1) p = Some d.
Proof.
  intros H He. apply emit_ok in H. destruct H as (Ha & _). rewrite He in Ha.
  exact (write_file_file_at _ _ _ Ha).
Qed.

(** Rows appended one after the other. *)
Lemma append_rows_state fs0 p cp (rows : list (list string)) :
  canon fs0 p = Some cp ->
  forall w w1 c,
    same_dirs fs0 (w_fs w) -> file_at (w_fs w) p = Some c ->
    foldM (fun row _ => emit (EvAppend p (csv_writerow row))) rows tt w = Ok tt w1 ->
    same_dirs fs0 (w_fs w1) /\
    file_at (w_fs w1) p = Some (c +++ cat (map csv_writerow rows)) /\
    (forall q cq, canon fs0 q = Some cq -> cq <> cp ->
                  file_at (w_fs w1) q = file_at (w_fs w) q).
Proof.
  intros Hcp. induction rows as [|row rest IH]; intros w w1 c Hs Hc H; cbn [foldM] in H.
  - unfold ret in H. inversion H; subst. cbn [map cat fold_right].
    rewrite append_nil_r_str. auto.
  - apply bind_ok in H. destruct H as ([] & w2 & He & H).
    destruct (emit_file_step fs0 _ _ _ _ He eq_refl Hs) as (Hs2 & Hfr).
    destruct (emit_write_step p _ _ _ _ _ He (fun fs => eq_refl)) as (d & Hd & Hd2).
    rewrite Hc in Hd. inversion Hd; subst d. clear Hd.
    destruct (IH _ _ _ Hs2 Hd2 H) as (Hs1 & Hf1 & Hfr1).
    split; [exact Hs1|]. split.
    + rewrite Hf1. cbn [map]. unfold cat. cbn [fold_right]. fold (cat (map csv_writerow rest)).
      rewrite append_assoc_str. reflexivity.
    + intros q cq Hq Hne. rewrite (Hfr1 q cq Hq Hne). apply (Hfr q cq Hq).
      intros p' Hp'. cbn [target] in Hp'. inversion Hp'; subst p'. rewrite Hcp. congruence.
Qed.

Variables (ofolder fo : string) (cd : cpath) (fs0 : node).

Hypothesis Hne : ofolder <> "".
Hypothesis Hsep : Str.endswith_char Str.sep ofolder = false.
Hypothesis Hfo : plain fo = true.
Hypothesis Hcd : canon fs0 ofolder = Some cd.
Hypothesis Hdd : is_dir (get fs0 cd) = true.
Hypothesis Hobj : is_dir (get fs0 (cd ++ [fo])) = true.

Local Abbreviation fopath := (path.join ofolder fo).
Local Abbreviation logfile := (path.join ofolder "log4preservation.csv").
Local Abbreviation metapath := (path.join (path.join ofolder fo) "metadata.csv").
Local Abbreviation xmlpath := (path.join (path.join ofolder fo) "metadata.xml").

Lemma canon_fopath : canon fs0 fopath = Some (cd ++ [fo]).
Proof. rewrite (ChildPaths.canon_child fs0 _ _ Hne Hsep Hfo), Hcd, Hdd. reflexivity. Qed.

Lemma canon_logfile : canon fs0 logfile = Some (cd ++ ["log4preservation.csv"]).
Proof.
  rewrite (ChildPaths.canon_child fs0 ofolder "log4preservation.csv" Hne Hsep eq_refl),
    Hcd, Hdd.
  reflexivity.
Qed.

Lemma canon_member name :
  plain name = true -> canon fs0 (path.join fopath name) = Some ((cd ++ [fo]) ++ [name]).
Proof.
  intros Hn. destruct (ChildPaths.join_plain ofolder fo Hfo) as [H1 H2].
  rewrite (ChildPaths.canon_child fs0 _ _ H1 H2 Hn), canon_fopath, Hobj. reflexivity.
Qed.

Lemma member_not_log name : (cd ++ [fo]) ++ [name] <> cd ++ ["log4preservation.csv"].
Proof.
  intros E. apply (f_equal (@List.length string)) in E.
  rewrite !length_app in E. cbn [List.length] in E. lia.
Qed.

Lemma member_differs a b : a <> b -> (cd ++ [fo]) ++ [a] <> (cd ++ [fo]) ++ [b].
Proof. intros Hab E. apply app_inv_head in E. inversion E. contradiction. Qed.

Lemma dirname_metapath : path.dirname metapath = fopath.
Proof.
  apply NameFacts.dirname_join; [|reflexivity].
  exact (proj2 (ChildPaths.join_plain ofolder fo Hfo)).
Qed.

(** What [make_rdf] leaves alone: everything but the rendering. *)
Definition beside_xml (fs1 : node) : node -> list (Event * node) -> Prop :=
  fun fs _ =>
    same_dirs fs0 fs /\
    forall q cq, canon fs0 q = Some cq -> cq <> (cd ++ [fo]) ++ ["metadata.xml"] ->
                 file_at fs q = file_at fs1 q.

Lemma beside_xml_closed fs1 : closed (rdf_event metapath) (beside_xml fs1).
Proof.
  intros fs t e fs' (Hs & Hfr) He Ha.
  pose proof (rdf_event_file _ _ He) as Hfe.
  pose proof (file_event_same_dirs _ _ _ Hfe Ha) as Hs1.
  split; [exact (same_dirs_trans Hs Hs1)|].
  intros q cq Hq Hx. rewrite <- (Hfr q cq Hq Hx).
  apply (file_event_frame e fs fs' q Hfe Ha).
  intros p cp Ht Hcp Hcq.
  rewrite <- (same_dirs_canon p Hs) in Hcp. rewrite <- (same_dirs_canon q Hs), Hq in Hcq.
  inversion Hcq; subst cq. apply Hx.
  assert (Ep : p = xmlpath).
  { destruct e; cbn [target] in Ht; try discriminate; inversion Ht; subst;
      cbn [rdf_event] in He; try discriminate;
      apply String.eqb_eq in He; rewrite dirname_metapath in He; exact He. }
  subst p. rewrite (canon_member "metadata.xml" eq_refl) in Hcp. inversion Hcp. reflexivity.
Qed.

(** The disk [register_update] leaves: the record rewritten with the new
    identifier, the audit line at the end of the log, the other files of
    the object as they were, and no directory changed. *)
Lemma register_update_state w newID rdfok w1 :
  w_fs w = fs0 ->
  register_update logfile fopath w = Ok (newID, rdfok) w1 ->
  exists text header old cells more log2 log4,
    newID = "vtdata_" +++ uuid4 (w_ids w) /\
    file_at fs0 metapath = Some text /\
    csv_reader text = header :: (old :: cells) :: more /\
    nth_error (newID :: cells) 1 = Some log2 /\
    nth_error (newID :: cells) 3 = Some log4 /\
    same_dirs fs0 (w_fs w1) /\
    file_at (w_fs w1) metapath =
      Some (cat (map csv_writerow (header :: (newID :: cells) :: more))) /\
    file_at (w_fs w1) logfile =
      Some (match file_at fs0 logfile with Some d => d | None => "" end
            +++ csv_writerow [newID; log2; strftime_now (w_clock w); log4]) /\
    (forall name, plain name = true -> name <> "metadata.csv" -> name <> "metadata.xml" ->
                  file_at (w_fs w1) (path.join fopath name) =
                  file_at fs0 (path.join fopath name)).
Proof.
  intros Hw0 H. unfold register_update in H.
  pose proof canon_logfile as Hcl.
  pose proof (canon_member "metadata.csv" eq_refl) as Hcm.
  pose proof (canon_member "metadata.xml" eq_refl) as Hcx.
  apply bind_ok in H. destruct H as (id & wa & Hid & H).
  unfold gen_ID, bind, uuid_uuid4, ret in Hid. inversion Hid; subst id wa. clear Hid.
  apply bind_ok in H. destruct H as (text & wb & Hrd & H).
  unfold read_text in Hrd. apply bind_ok in Hrd. destruct Hrd as ([] & wb' & Hop & Hrd).
  apply emit_ok in Hop. destruct Hop as (Hfsb & _ & _ & _ & Hcb).
  simpl in Hfsb. cbn [w_fs] in Hfsb.
  destruct (is_file (lookup (w_fs w) metapath)); [|discriminate].
  inversion Hfsb as [Hfs']. clear Hfsb.
  destruct (file_at (w_fs wb') metapath) as [d|] eqn:Efa; [|discriminate].
  inversion Hrd; subst d wb'. clear Hrd.
  rewrite <- Hfs', Hw0 in Efa.
  destruct (set_identifier _ (csv_reader text)) as [lines|] eqn:Eset; [|discriminate].
  destruct (cell lines 1) as [log2|] eqn:E1; [|discriminate].
  apply bind_ok in H. destruct H as (log3 & wc & Ht & H).
  unfold time_strftime in Ht. inversion Ht; subst log3 wc. clear Ht.
  destruct (cell lines 3) as [log4|] eqn:E3; [|discriminate].
  assert (Hsb : same_dirs fs0 (w_fs wb)).
  { rewrite <- Hfs', Hw0. apply same_dirs_refl. }
  remember (mkWorld (w_fs wb) (w_trace wb) (w_asked wb) (w_ids wb) (S (w_clock wb))) as wc eqn:Ewc.
  assert (Hfc : w_fs wc = fs0) by (subst wc; cbn [w_fs]; rewrite <- Hfs'; exact Hw0).
  assert (Hsc : same_dirs fs0 (w_fs wc)) by (rewrite Hfc; apply same_dirs_refl).
  (* the audit line *)
  apply bind_ok in H. destruct H as ([] & w2 & He2 & H).
  destruct (emit_file_step fs0 _ _ _ _ He2 eq_refl Hsc) as (Hs2 & Hfr2).
  destruct (emit_write_step logfile _ _ _ _ _ He2 (fun fs => eq_refl)) as (d2 & Hd2 & Hl2).
  rewrite Hfc in Hd2.
  apply bind_ok in H. destruct H as ([] & w3 & He3 & H).
  destruct (emit_file_step fs0 _ _ _ _ He3 eq_refl Hs2) as (Hs3 & Hfr3).
  destruct (emit_write_step logfile _ _ _ _ _ He3 (fun fs => eq_refl)) as (d3 & Hd3 & Hl3).
  rewrite Hl2 in Hd3. inversion Hd3; subst d3. clear Hd3.
  (* the record *)
  apply bind_ok in H. destruct H as ([] & w4 & He4 & H).
  destruct (emit_file_step fs0 _ _ _ _ He4 eq_refl Hs3) as (Hs4 & Hfr4).
  destruct (emit_write_step metapath _ _ _ _ _ He4 (fun fs => eq_refl)) as (d4 & Hd4 & Hm4).
  inversion Hd4; subst d4. clear Hd4.
  apply bind_ok in H. destruct H as ([] & w5 & Hf5 & H).
  destruct (append_rows_state fs0 metapath _ lines Hcm _ _ _ Hs4 Hm4 Hf5)
    as (Hs5 & Hm5 & Hfr5).
  cbn [String.append] in Hm5.
  (* the stale rendering *)
  apply bind_ok in H. destruct H as (hasrdf & w6 & Hx & H).
  unfold path_exists in Hx. inversion Hx; subst hasrdf w6. clear Hx.
  apply bind_ok in H. destruct H as ([] & w7 & Hrm & H).
  assert (H7 : same_dirs fs0 (w_fs w7) /\
               forall q cq, canon fs0 q = Some cq -> cq <> (cd ++ [fo]) ++ ["metadata.xml"] ->
                            file_at (w_fs w7) q = file_at (w_fs w5) q).
  { destruct (exists_ (w_fs w5) xmlpath).
    - destruct (emit_file_step fs0 _ _ _ _ Hrm eq_refl Hs5) as (Hs7 & Hfr7).
      split; [exact Hs7|]. intros q cq Hq Hne7. apply (Hfr7 q cq Hq).
      intros p Hp. cbn [target] in Hp. inversion Hp; subst p. rewrite Hcx. congruence.
    - unfold ret in Hrm. inversion Hrm; subst. split; [exact Hs5 | reflexivity]. }
  destruct H7 as (Hs7 & Hfr7).
  (* the new rendering *)
  apply bind_ok in H. destruct H as (ok & w8 & Hrdf & H).
  unfold ret in H. inversion H; subst ok w8. clear H.
  pose proof (make_rdf_closed (beside_xml_closed (w_fs w7)) w7) as Hg.
  unfold on_log in Hg. rewrite Hrdf in Hg. cbn [final_world] in Hg.
  destruct Hg as (Hs8 & Hfr8).
  { split; [exact Hs7 | reflexivity]. }
  (* the frames, put together *)
  assert (Hkeep : forall q cq, canon fs0 q = Some cq ->
                    cq <> (cd ++ [fo]) ++ ["metadata.xml"] ->
                    cq <> (cd ++ [fo]) ++ ["metadata.csv"] ->
                    file_at (w_fs w1) q = file_at (w_fs w3) q).
  { intros q cq Hq Hnx Hnm.
    rewrite (Hfr8 q cq Hq Hnx), (Hfr7 q cq Hq Hnx), (Hfr5 q cq Hq Hnm).
    apply (Hfr4 q cq Hq). intros p Hp. cbn [target] in Hp. inversion Hp; subst p.
    rewrite Hcm. congruence. }
  assert (Hlog_only : forall q cq, canon fs0 q = Some cq ->
                        cq <> cd ++ ["log4preservation.csv"] ->
                        file_at (w_fs w3) q = file_at fs0 q).
  { intros q cq Hq Hnl. rewrite <- Hfc.
    rewrite (Hfr3 q cq Hq), (Hfr2 q cq Hq); [reflexivity| |];
      intros p Hp; cbn [target] in Hp; inversion Hp; subst p; rewrite Hcl; congruence. }
  unfold set_identifier in Eset.
  destruct (csv_reader text) as [|header [|[|old cells] more]] eqn:Ecsv; try discriminate.
  inversion Eset; subst lines. clear Eset.
  exists text, header, old, cells, more, log2, log4.
  split; [first [reflexivity | symmetry; assumption]|]. split; [exact Efa|].
  split; [exact Ecsv|].
  split; [exact E1|]. split; [exact E3|]. split; [exact Hs8|].
  split; [|split].
  - rewrite (Hfr8 _ _ Hcm), (Hfr7 _ _ Hcm), Hm5; [reflexivity| |];
      apply member_differs; discriminate.
  - rewrite (Hkeep _ _ Hcl), Hl3.
    + subst wc. cbn [w_clock]. rewrite Hcb.
      destruct (file_at fs0 logfile); inversion Hd2; reflexivity.
    + intros E. exact (member_not_log _ (eq_sym E)).
    + intros E. exact (member_not_log _ (eq_sym E)).
  - intros name Hn Hnc Hnx.
    rewrite (Hkeep _ _ (canon_member name Hn)).
    + apply (Hlog_only _ _ (canon_member name Hn)). apply member_not_log.
    + apply member_differs. exact Hnx.
    + apply member_differs. exact Hnc.
Qed.

End RegisteredState.

Section RegisteredObject.

Context {env : Env} {csvlib : Csv} {rdflib : Rdflib}.

Import FS FSFacts FileFrame FileEvents Registration.

Lemma isdir_child fs d n :
  d <> "" -> Str.endswith_char Str.sep d = false -> plain n = true ->
  isdir fs (path.join d n) = true ->
  exists cd es, canon fs d = Some cd /\ is_dir (get fs cd) = true /\
                get fs (cd ++ [n]) = Some (Dir es).
Proof.
  intros Hd Hs Hn H. unfold isdir, lookup in H.
  rewrite (ChildPaths.canon_child fs d n Hd Hs Hn) in H.
  destruct (canon fs d) as [cd|]; [|discriminate].
  destruct (is_dir (get fs cd)) eqn:E; [|discriminate].
  destruct (get fs (cd ++ [n])) as [[x|es]|] eqn:G; try discriminate.
  exists cd, es. auto.
Qed.

(** A path below a directory, in a tree that has the directory. *)
Lemma file_at_child fs d n cd es name :
  d <> "" -> Str.endswith_char Str.sep d = false -> plain n = true -> plain name = true ->
  canon fs d = Some cd -> is_dir (get fs cd) = true ->
  get fs (cd ++ [n]) = Some (Dir es) ->
  file_at fs (path.join (path.join d n) name) = content (assoc name es).
Proof.
  intros Hd Hs Hn Hname Hcd Hdcd Hg.
  destruct (ChildPaths.join_plain d n Hn) as [H1 H2].
  unfold file_at, lookup.
  rewrite (ChildPaths.canon_child fs _ _ H1 H2 Hname),
          (ChildPaths.canon_child fs d n Hd Hs Hn), Hcd, Hdcd, Hg.
  cbn [is_dir]. rewrite (DirFacts.get_child fs (cd ++ [n]) es name Hg). reflexivity.
Qed.

Lemma file_at_beside fs d n cd :
  d <> "" -> Str.endswith_char Str.sep d = false -> plain n = true ->
  canon fs d = Some cd -> is_dir (get fs cd) = true ->
  file_at fs (path.join d n) = content (get fs (cd ++ [n])).
Proof.
  intros Hd Hs Hn Hcd Hdcd. unfold file_at, lookup.
  rewrite (ChildPaths.canon_child fs d n Hd Hs Hn), Hcd, Hdcd. reflexivity.
Qed.

(** X18. A registered object on the disk.  When the loop body of
    [register_obj] completes for a directory with a record, the object
    is a directory named by the new identifier; unless that is the name
    it had, nothing is left under the old name.  In it the record
    [metadata.csv] holds the rows it had, written back with the new
    identifier in the first cell of the first data row; the files of the
    object other than the record and its rendering are as they were.
    The log [log4preservation.csv] of the batch directory is what it was
    (empty if it was not there), followed by one line: the new
    identifier, the second cell of that row, the time, the fourth cell.
    The batch directory is given without a trailing separator and with
    no [..] component, the object and the identifier are plain names. *)
Theorem registered_object_on_disk ofolder fo c (w : World) c' w' :
  ofolder <> "" -> Str.endswith_char Str.sep ofolder = false -> no_dotdot ofolder = true ->
  plain fo = true ->
  let newID := "vtdata_" +++ uuid4 (w_ids w) in
  let logfile := path.join ofolder "log4preservation.csv" in
  let fopath := path.join ofolder fo in
  let newpath := path.join ofolder newID in
  plain newID = true ->
  isdir (w_fs w) fopath = true ->
  exists_ (w_fs w) (path.join fopath "metadata.csv") = true ->
  register_entry ofolder logfile fo c w = Ok c' w' ->
  exists text header old cells more log2 log4,
    file_at (w_fs w) (path.join fopath "metadata.csv") = Some text /\
    csv_reader text = header :: (old :: cells) :: more /\
    nth_error (newID :: cells) 1 = Some log2 /\
    nth_error (newID :: cells) 3 = Some log4 /\
    isdir (w_fs w') newpath = true /\
    (fo <> newID -> exists_ (w_fs w') fopath = false) /\
    file_at (w_fs w') (path.join newpath "metadata.csv") =
      Some (cat (map csv_writerow (header :: (newID :: cells) :: more))) /\
    file_at (w_fs w') logfile =
      Some (match file_at (w_fs w) logfile with Some d => d | None => "" end
            +++ csv_writerow [newID; log2; strftime_now (w_clock w); log4]) /\
    (forall name, plain name = true -> name <> "metadata.csv" -> name <> "metadata.xml" ->
                  file_at (w_fs w') (path.join newpath name) =
                  file_at (w_fs w) (path.join fopath name)).
Proof.
  intros Hne Hsep Hdd Hfo. cbv zeta. intros Hid Hd Hm H.
  destruct (isdir_child _ _ _ Hne Hsep Hfo Hd) as (cd & es & Hcd & Hdcd & Hg).
  assert (Hobj : is_dir (get (w_fs w) (cd ++ [fo])) = true) by (rewrite Hg; reflexivity).
  rewrite (register_entry_go _ _ _ _ _ Hd Hm) in H.
  apply bind_ok in H. destruct H as ([id rdfok] & w1 & Hu & H).
  apply bind_ok in H. destruct H as ([] & w2 & Hr & H).
  unfold ret in H. inversion H; subst c' w2. clear H.
  cbn [fst] in Hr. rewrite (NameFacts.dirname_join _ _ Hsep Hfo) in Hr.
  destruct (register_update_state ofolder fo cd (w_fs w) Hne Hsep Hfo Hcd Hdcd Hobj
                                  w id rdfok w1 eq_refl Hu)
    as (text & header & old & cells & more & log2 & log4 &
        Eid & Hf & Hcsv & H1 & H3 & Hs1 & Hm1 & Hl1 & Ho1).
  subst id.
  assert (Hnl : "vtdata_" +++ uuid4 (w_ids w) <> "log4preservation.csv") by discriminate.
  remember ("vtdata_" +++ uuid4 (w_ids w)) as newID eqn:EnewID.
  apply emit_ok in Hr. destruct Hr as (Ha & _). cbn [Sem.apply_event] in Ha.
  exists text, header, old, cells, more, log2, log4.
  split; [exact Hf|]. split; [exact Hcsv|]. split; [exact H1|]. split; [exact H3|].
  assert (Hc1 : forall p, canon (w_fs w1) p = canon (w_fs w) p).
  { intros p. symmetry. apply same_dirs_canon. exact Hs1. }
  assert (Hcd1 : canon (w_fs w1) ofolder = Some cd) by (rewrite Hc1; exact Hcd).
  assert (Hdcd1 : is_dir (get (w_fs w1) cd) = true) by (rewrite <- (Hs1 cd); exact Hdcd).
  assert (Hcf : canon (w_fs w1) (path.join ofolder fo) = Some (cd ++ [fo])).
  { rewrite (ChildPaths.canon_child _ _ _ Hne Hsep Hfo), Hcd1, Hdcd1. reflexivity. }
  assert (Hcn : canon (w_fs w1) (path.join ofolder newID) = Some (cd ++ [newID])).
  { rewrite (ChildPaths.canon_child _ _ _ Hne Hsep Hid), Hcd1, Hdcd1. reflexivity. }
  assert (Hg1 : exists es1, get (w_fs w1) (cd ++ [fo]) = Some (Dir es1)).
  { pose proof (Hs1 (cd ++ [fo])) as E. rewrite Hobj in E.
    destruct (get (w_fs w1) (cd ++ [fo])) as [[?|es1]|]; try discriminate. eauto. }
  destruct Hg1 as (es1 & Hg1).
  destruct (string_dec fo newID) as [Efo|Nfo].
  - (* the identifier is the name the object had *)
    assert (E' : w_fs w' = w_fs w1).
    { unfold Sem.rename in Ha. rewrite Hcf, Hcn, Hg1 in Ha.
      destruct (list_eq_dec string_dec (cd ++ [fo]) (cd ++ [newID])) as [_|N].
      - inversion Ha. reflexivity.
      - exfalso. apply N. rewrite Efo. reflexivity. }
    assert (Ep : path.join ofolder newID = path.join ofolder fo) by (rewrite Efo; reflexivity).
    rewrite E', Ep.
    split; [rewrite <- (same_dirs_isdir _ _ _ Hs1); exact Hd|].
    split; [intros N; contradiction|].
    split; [exact Hm1|].
    split; [exact Hl1 | exact Ho1].
  - destruct (DirRename.rename_dir_child _ _ _ _ cd fo newID es1 Hcf Hcn Nfo Hg1 Ha)
      as (Gn & Go & Gk & Gd).
    assert (Hcd' : canon (w_fs w') ofolder = Some cd).
    { apply (ChildPaths.canon_stable (w_fs w1) (w_fs w') ofolder cd Hdd Hcd1).
      intros q r E _. exact (Gd q r E). }
    assert (Hdcd' : is_dir (get (w_fs w') cd) = true).
    { apply (Gd cd []). rewrite app_nil_r. reflexivity. }
    assert (Hmoved : forall name, plain name = true ->
              file_at (w_fs w') (path.join (path.join ofolder newID) name) =
              file_at (w_fs w1) (path.join (path.join ofolder fo) name)).
    { intros name Hname.
      rewrite (file_at_child (w_fs w') ofolder newID cd es1 name Hne Hsep Hid Hname Hcd' Hdcd' Gn).
      rewrite (file_at_child (w_fs w1) ofolder fo cd es1 name Hne Hsep Hfo Hname Hcd1 Hdcd1 Hg1).
      reflexivity. }
    assert (Hlog1 : file_at (w_fs w1) (path.join ofolder "log4preservation.csv") =
                    content (get (w_fs w1) (cd ++ ["log4preservation.csv"]))).
    { apply file_at_beside; auto. }
    assert (Nlog : "log4preservation.csv" <> fo).
    { intros E. rewrite <- E in Hg1. rewrite Hlog1, Hg1 in Hl1. discriminate. }
    split.
    { unfold isdir, lookup.
      rewrite (ChildPaths.canon_child _ _ _ Hne Hsep Hid), Hcd', Hdcd', Gn. reflexivity. }
    split.
    { intros _. unfold exists_, lookup.
      rewrite (ChildPaths.canon_child _ _ _ Hne Hsep Hfo), Hcd', Hdcd', Go. reflexivity. }
    split; [rewrite (Hmoved "metadata.csv" eq_refl); exact Hm1|].
    split.
    { rewrite (file_at_beside (w_fs w') ofolder "log4preservation.csv" cd Hne Hsep eq_refl
                              Hcd' Hdcd').
      rewrite (Gk "log4preservation.csv" [] Nlog (fun E => Hnl (eq_sym E))).
      rewrite <- Hlog1. exact Hl1. }
    intros name Hname Hnc Hnx. rewrite (Hmoved name Hname). apply Ho1; assumption.
Qed.

End RegisteredObject.

(* ================================================================== *)
(** * The record written for a ledger row *)

Section LedgerRow.

Import DictCsv.

Lemma dict_get_head h v rest :
  dict_get h rest = None -> dict_get h ((h, v) :: rest) = Some v.
Proof. intros E. cbn [dict_get]. rewrite E, String.eqb_refl. reflexivity. Qed.

Lemma dict_get_later h k v rest :
  In h (map fst rest) -> dict_get h ((k, v) :: rest) = dict_get h rest.
Proof.
  intros Hin. cbn [dict_get]. destruct (dict_get h rest) eqn:E; [reflexivity|].
  exfalso. exact (dict_get_some h rest Hin E).
Qed.

(** Read by [DictReader], written by [DictWriter]: the cells come back,
    filled up with empty cells to the length of the header. *)
Lemma written_cells hs : NoDup hs -> forall cells,
  List.length cells <= List.length hs ->
  map (fun h => match dict_get h (zip_pad hs cells) with
                | Some v => cell_value v
                | None => ""
                end) hs =
  cells ++ repeat "" (List.length hs - List.length cells).
Proof.
  induction 1 as [|h hs Hnin Hnd IH]; intros cells Hlen.
  - destruct cells; [reflexivity | simpl in Hlen; lia].
  - assert (Hstep : forall v r,
              map (fun h0 => match dict_get h0 ((h, v) :: zip_pad hs r) with
                             | Some v0 => cell_value v0
                             | None => ""
                             end) (h :: hs) =
              cell_value v ::
              map (fun h0 => match dict_get h0 (zip_pad hs r) with
                             | Some v0 => cell_value v0
                             | None => ""
                             end) hs).
    { intros v r. cbn [map]. f_equal.
      - rewrite dict_get_head; [reflexivity|].
        apply dict_get_none. rewrite zip_pad_keys. exact Hnin.
      - apply map_ext_in. intros h0 Hin.
        rewrite dict_get_later; [reflexivity|]. rewrite zip_pad_keys. exact Hin. }
    destruct cells as [|c r]; cbn [zip_pad]; rewrite Hstep.
    + rewrite (IH [] (Nat.le_0_l _)). cbn [List.length app cell_value].
      rewrite !Nat.sub_0_r. reflexivity.
    + cbn [List.length] in Hlen. rewrite (IH r) by lia. reflexivity.
Qed.

Lemma dict_to_list_written hs cells :
  NoDup hs -> List.length cells <= List.length hs ->
  dict_to_list hs (dict_row hs cells) =
  Some (cells ++ repeat "" (List.length hs - List.length cells)).
Proof.
  intros Hnd Hlen. unfold dict_to_list, dict_row. cbn [dr_rest dr_items].
  rewrite (skipn_all2 cells Hlen). cbn [is_nil negb orb].
  assert (Hall : forallb (fun '(k, _) => existsb (String.eqb k) hs) (zip_pad hs cells) = true).
  { apply forallb_forall. intros [k v] Hin.
    apply existsb_exists. exists k. split; [|apply String.eqb_refl].
    rewrite <- (zip_pad_keys hs cells). apply (in_map fst _ _ Hin). }
  rewrite Hall. cbn [negb]. rewrite (written_cells hs Hnd cells Hlen). reflexivity.
Qed.

End LedgerRow.

Section RecordWritten.

Context {env : Env} {csvlib : Csv} {rdflib : Rdflib}.

Import FS DictCsv.

(** [make_rdf] leaves the record it renders as it is. *)
Lemma make_rdf_keeps_record foldpath w b w' :
  make_rdf (path.join foldpath "metadata.csv") w = Ok b w' ->
  file_at (w_fs w') (path.join foldpath "metadata.csv") =
  file_at (w_fs w) (path.join foldpath "metadata.csv").
Proof.
  intros H.
  pose (P := fun (fs : node) (_ : list (Event * node)) =>
               file_at fs (path.join foldpath "metadata.csv") =
               file_at (w_fs w) (path.join foldpath "metadata.csv")).
  assert (HP : closed (rdf_event (path.join foldpath "metadata.csv")) P).
  { intros fs t e fs' Hp He Ha. unfold P in *. rewrite <- Hp.
    apply (FileEvents.file_event_frame e fs fs' _ (rdf_event_file _ _ He) Ha).
    intros p cp Ht Hcp Hcq.
    assert (Ep : p = path.join (path.dirname (path.join foldpath "metadata.csv"))
                               "metadata.xml").
    { destruct e; cbn [FileEvents.target] in Ht; try discriminate; inversion Ht; subst;
        cbn [rdf_event] in He; try discriminate; apply String.eqb_eq in He; exact He. }
    subst p.
    exact (PathFacts.canon_join_neq fs fs _ _ "metadata.xml" "metadata.csv" cp cp
             eq_refl eq_refl ltac:(discriminate) Hcp Hcq eq_refl). }
  pose proof (make_rdf_closed HP w eq_refl) as Hg. unfold on_log in Hg.
  rewrite H in Hg. exact Hg.
Qed.

(** X19. The record of an object is its row of the ledger.  For a row
    that names a directory of the batch which is there, is no bag and
    has no record yet, the loop body of [meta_from_csv] asks nothing and
    leaves in the directory a [metadata.csv] of two lines: the header,
    and the cells of the row, filled up with empty cells to the length
    of the header; both counts go up by one.  The header has no name
    twice and the row is no longer than the header. *)
Theorem meta_row_writes_record locids fpath hs cells s (w : World) s' w' foldname :
  NoDup hs ->
  List.length cells <= List.length hs ->
  dict_get locids (dr_items (dict_row hs cells)) = Some (Some foldname) ->
  let foldpath := path.join fpath foldname in
  exists_ (w_fs w) foldpath = true ->
  exists_ (w_fs w) (path.join foldpath "data") = false ->
  exists_ (w_fs w) (path.join foldpath "metadata.csv") = false ->
  meta_row locids fpath hs (dict_row hs cells) s w = Ok s' w' ->
  file_at (w_fs w') (path.join foldpath "metadata.csv") =
    Some (csv_writerow hs +++
          csv_writerow (cells ++ repeat "" (List.length hs - List.length cells))) /\
  nfiles s' = nfiles s + 1 /\
  rfiles s' = rfiles s + 1 /\
  Forall (fun e => file_event e = true) (added w w').
Proof.
  intros Hnd Hlen Hget. cbv zeta. intros Hex Hdata Hmeta H.
  unfold meta_row in H. rewrite Hget in H.
  assert (Hdec : meta_decide fpath foldname s w = Ok (false, s) w).
  { unfold meta_decide. cbv zeta. unfold bind, path_exists, ret. cbv beta.
    rewrite Hex, Hdata, Hmeta. cbn [andb negb]. cbv beta. rewrite ?Hmeta. reflexivity. }
  unfold bind at 1 in H. rewrite Hdec in H. cbn [fst snd negb] in H.
  pose proof (write_meta_counts _ _ _ _ _ _ _ H) as [Hn Hr].
  unfold write_meta in H. cbv zeta in H.
  rewrite (dict_to_list_written hs cells Hnd Hlen) in H.
  apply bind_ok in H. destruct H as ([] & w1 & H1 & H).
  apply bind_ok in H. destruct H as ([] & w2 & H2 & H).
  apply bind_ok in H. destruct H as ([] & w3 & H3 & H).
  apply bind_ok in H. destruct H as (rdfok & w4 & H4 & H).
  unfold ret in H. inversion H; subst w4 s'. clear H.
  destruct (emit_write_step _ _ _ _ _ _ H1 (fun fs => eq_refl)) as (d1 & Hd1 & Hf1).
  inversion Hd1; subst d1. clear Hd1.
  destruct (emit_write_step _ _ _ _ _ _ H2 (fun fs => eq_refl)) as (d2 & Hd2 & Hf2).
  rewrite Hf1 in Hd2. inversion Hd2; subst d2. clear Hd2.
  destruct (emit_write_step _ _ _ _ _ _ H3 (fun fs => eq_refl)) as (d3 & Hd3 & Hf3).
  rewrite Hf2 in Hd3. inversion Hd3; subst d3. clear Hd3.
  split; [rewrite (make_rdf_keeps_record _ _ _ _ H4), Hf3; reflexivity|].
  split; [exact Hn|]. split; [exact Hr|].
  apply emit_ok in H1. destruct H1 as (_ & S1 & _).
  apply emit_ok in H2. destruct H2 as (_ & S2 & _).
  apply emit_ok in H3. destruct H3 as (_ & S3 & _).
  pose proof (make_rdf_closed
                (grown_by_closed (rdf_event (path.join (path.join fpath foldname)
                                                       "metadata.csv")) w3) w3
                (grown_by_start _ w3)) as Hg.
  unfold on_log in Hg. rewrite H4 in Hg. cbn [final_world] in Hg.
  destruct Hg as (l & Hl & Hall).
  pose proof (steps_trans _ _ _ _ _ S1 (steps_trans _ _ _ _ _ S2
               (steps_trans _ _ _ _ _ S3 Hl))) as Hs.
  rewrite (steps_added _ _ _ Hs). unfold events. cbn [map app fst].
  repeat (constructor; [reflexivity|]).
  apply Forall_map. eapply Forall_impl; [|exact Hall].
  intros [e fs] He. cbn [fst] in *. exact (rdf_event_file _ _ He).
Qed.

End RecordWritten.

(* ================================================================== *)
(** * The archive of a directory *)

Section ArchiveMade.

Context {env : Env} {tarlib : Tarfile}.

Import FS.

(** X20. The archive [run_tar] makes.  For an entry of the batch that is
    a directory and has no archive yet, the loop body creates the
    archive file and writes to it, in one piece, the archive of the
    directory under its path relative to the batch; the directory read
    is the one on the disk once the archive file has been created.
    These are the only two calls, and the entry is counted in
    [tarfiles]. *)
Theorem run_tar_archives_directory tarfolder outfolder i c (w : World) c' w' :
  let infile := path.join tarfolder i in
  let outfile := tar_outfile outfolder i in
  isdir (w_fs w) infile = true ->
  exists_ (w_fs w) outfile = false ->
  run_tar_entry tarfolder outfolder i c w = Ok c' w' ->
  exists fs1 es,
    Sem.apply_event (EvTruncate outfile) (w_fs w) = Some fs1 /\
    lookup fs1 infile = Some (Dir es) /\
    file_at (w_fs w') outfile = Some (tar_bytes (path.relpath infile tarfolder) (Dir es)) /\
    added w w' =
      [EvTruncate outfile;
       EvAppend outfile (tar_bytes (path.relpath infile tarfolder) (Dir es))] /\
    c' = {| tarfiles := tarfiles c + 1; alreadytar := alreadytar c;
            notfolder := notfolder c |}.
Proof.
  cbv zeta. intros Hd Hex H. unfold run_tar_entry in H. cbv zeta in H.
  unfold bind at 1, path_isdir at 1 in H. rewrite Hd in H.
  unfold bind at 1, path_exists at 1 in H. rewrite Hex in H.
  unfold bind at 1, path_exists at 1 in H. rewrite Hex in H. cbn [negb] in H.
  apply bind_ok in H. destruct H as ([] & w3 & Ht & H).
  unfold ret in H. inversion H; subst c' w3. clear H.
  unfold tar_create in Ht.
  apply bind_ok in Ht. destruct Ht as ([] & w1 & H1 & Ht).
  apply bind_ok in Ht. destruct Ht as (n & w2 & H2 & H3).
  unfold read_node in H2.
  destruct (lookup (w_fs w1) (path.join tarfolder i)) as [n'|] eqn:El; [|discriminate].
  inversion H2; subst n' w2. clear H2.
  destruct (emit_ok _ _ _ _ H1) as (A1 & S1 & _).
  destruct (emit_ok _ _ _ _ H3) as (A3 & S3 & _).
  pose proof (FileEvents.file_event_same_dirs (EvTruncate (tar_outfile outfolder i)) _ _
                eq_refl A1) as Hs.
  assert (Hn : exists es, n = Dir es).
  { rewrite (FileEvents.same_dirs_isdir _ _ (path.join tarfolder i) Hs) in Hd.
    unfold isdir in Hd. rewrite El in Hd. destruct n as [d|es]; [discriminate | eauto]. }
  destruct Hn as (es & ->).
  exists (w_fs w1), es.
  split; [exact A1|]. split; [exact El|].
  split.
  - cbn [Sem.apply_event] in A1, A3.
    destruct (FileFrame.write_file_file_at _ _ _ A1) as (d1 & Hd1 & Hf1).
    inversion Hd1; subst d1.
    destruct (FileFrame.write_file_file_at _ _ _ A3) as (d3 & Hd3 & Hf3).
    rewrite Hf1 in Hd3. inversion Hd3; subst d3. exact Hf3.
  - split; [|reflexivity].
    rewrite (steps_added _ _ _ (steps_trans _ _ _ _ _ S1 S3)). reflexivity.
Qed.

End ArchiveMade.

(* ================================================================== *)
(** * Worked runs *)

Section ExampleRuns.

Import Demo Examples.

(** C1 fails on the code: a second run of Registration over the batch
    the first run registered renames the object again and appends a
    second audit line. *)
Lemma registration_second_run_repeats :
  let r2 := Registration.register_loop "/b" registered1 in
  count is_rename (added registered1 (final_world r2)) = 1 /\
  count (is_append_to "/b/log4preservation.csv") (added registered1 (final_world r2)) = 1 /\
  FS.isdir (w_fs registered1) "/b/vtdata_00000000-0000-4000-8000-000000000000" = true /\
  FS.isdir (w_fs (final_world r2)) "/b/vtdata_00000000-0000-4000-8000-000000000000" = false /\
  FS.isdir (w_fs (final_world r2)) "/b/vtdata_00000000-0000-4000-8000-000000000001" = true.
Proof. vm_compute. repeat split. Qed.


Lemma registration_repeats_witness :
  let fo := "vtdata_00000000-0000-4000-8000-000000000000" in
  let c := {| Registration.renamed := 0; Registration.rfiles := 0 |} in
  let r := Registration.register_entry "/b" "/b/log4preservation.csv" fo c registered1 in
  let newID := "vtdata_" +++ uuid4 (w_ids registered1) in
  Registration.renamed
    (match r with Ok c' _ => c' | Raise _ _ => c end) = Registration.renamed c + 1 /\
  exists pre log2 log3 log4,
    added registered1 (final_world r) =
      pre ++ [EvRename (path.join "/b" fo)
                       (path.join (path.dirname (path.join "/b" fo)) newID)] /\
    In (EvAppend "/b/log4preservation.csv" (csv_writerow [newID; log2; log3; log4])) pre /\
    Forall (fun e => file_event e = true) pre.
Proof.
  cbv zeta.
  apply (registration_repeats "/b" "/b/log4preservation.csv"
           "vtdata_00000000-0000-4000-8000-000000000000"
           {| Registration.renamed := 0; Registration.rfiles := 0 |} registered1);
    vm_compute; reflexivity.
Defined.

(** C2 fails on the code: the inventory of an object opens each listed
    file twice, once for each digest. *)
Lemma inventory_opens_file_twice :
  count (is_open_of "/b/obj1/a.txt")
        (events (w_trace (final_world (Inventory.inventory_loop "/b" (start batch2))))) = 2.
Proof. vm_compute. reflexivity. Qed.

Lemma checksum_pass_per_digest_witness :
  FS.file_at batch2 "/b/obj1/a.txt" = Some "AAAA" /\
  exists w1, Checksum.md5 "/b/obj1/a.txt" (start batch2) = Ok "0104" w1 /\
             added (start batch2) w1 =
               [EvOpenRead "/b/obj1/a.txt"; EvRead "/b/obj1/a.txt" 4096 "AAAA";
                EvRead "/b/obj1/a.txt" 4096 ""].
Proof.
  split; [reflexivity|].
  destruct (checksum_pass_per_digest "/b/obj1/a.txt" (start batch2) "AAAA" eq_refl)
    as ((w1 & Hm & _ & Ha) & _).
  exists w1. split; [exact Hm | exact Ha].
Defined.

Lemma bad_header_writes_nothing_witness :
  meta_from_csv "/ledger.csv" "Local ID" "/b" (start batch3) =
  Ok (0, 0)
     (mkWorld batch3 [(EvOpenRead "/ledger.csv", batch3); (EvWarning bad_csv_msg, batch3)]
              0 0 0).
Proof.
  apply bad_header_writes_nothing with (text := short_ledger).
  - reflexivity.
  - vm_compute. discriminate.
Defined.


Lemma run_tar_never_overwrites_witness :
  let w := final_world (run_tar 0 "/data/batch.2019" 0 (start batch4)) in
  FS.file_at (w_fs (final_world (run_tar 0 "/data/batch.2019" 0 w)))
             "/data/batch-tarred/x.tar" = Some "x.1[a.txt(A)]" /\
  tarfiles (match run_tar_loop "/data/batch.2019" w with Ok c _ => c | Raise _ _ =>
              {| tarfiles := 0; alreadytar := 0; notfolder := 0 |} end) = 0.
Proof.
  cbv zeta. split.
  - apply (proj1 (run_tar_never_overwrites 0 "/data/batch.2019" 0
                    (final_world (run_tar 0 "/data/batch.2019" 0 (start batch4))))).
    vm_compute. reflexivity.
  - vm_compute. reflexivity.
Defined.

Lemma run_tar_names_by_splitext_witness :
  match run_tar_entry "/data/batch.2019" "/data/batch-tarred" "x.1" counts0 tar_world with
  | Ok c1 w1 =>
      run_tar_entry "/data/batch.2019" "/data/batch-tarred" "x.2" c1 w1 =
      already_archived (tar_outfile "/data/batch-tarred" "x.1") c1 w1
  | Raise _ _ => False
  end.
Proof.
  destruct (run_tar_entry "/data/batch.2019" "/data/batch-tarred" "x.1" counts0 tar_world)
    as [c1 w1|e w1] eqn:E.
  - apply (proj2 (proj2 (proj2 run_tar_names_by_splitext))
             "/data/batch.2019" "/data/batch-tarred" "x.1" "x.2" counts0 tar_world c1 w1
             eq_refl eq_refl E).
    vm_compute in E. inversion E; subst. reflexivity.
  - vm_compute in E. discriminate E.
Defined.

End ExampleRuns.

Section InventoryRuns.

Import Demo Examples Inventory.

Lemma manifest_lists_every_file_witness :
  let w := start batch2 in
  let w' := final_world (inventory_entry "/b" "obj1" 0 w) in
  let objpath := path.join "/b" "obj1" in
  let temp := path.join "/b" "temp_manifest.csv" in
  let manifest := path.join objpath "manifest.csv" in
  exists dialogs fs_a fs_b n rows st_walk fs_c,
    steps_since w w'
      (dialogs ++
       [(EvTruncate temp, fs_a); (EvAppend temp manifest_header, fs_b)] ++ st_walk ++
       [(EvAppend temp manifest_trailer, fs_c); (EvRename temp manifest, w_fs w')]) /\
    FS.lookup fs_b objpath = Some n /\
    List.length (walk_files (walk objpath n)) = files_in n /\
    FS.file_at (w_fs w') manifest = Some (manifest_header +++ cat rows +++ manifest_trailer) /\
    rows_for "/b" 1 (listed (walk_files (walk objpath n))) rows /\
    List.length rows = List.length (listed (walk_files (walk objpath n))) /\
    Forall (fun f => artifact f = true ->
                     In (EvRemove (path.join (fst f) (snd f))) (events st_walk))
           (walk_files (walk objpath n)) /\
    Forall (fun e => match e with EvRename _ _ => False | _ => True end) (events st_walk).
Proof.
  cbv zeta.
  apply (manifest_lists_every_file "/b" "obj1" 0 (start batch2)
           (final_world (inventory_entry "/b" "obj1" 0 (start batch2))));
    vm_compute; reflexivity.
Defined.


End InventoryRuns.

Section PrePackExamples.

Import Examples PrePack.

(** C9 fails on the code for a directory: [metadata], whose name
    contains [meta], is removed with the rest; the file [metadata.csv]
    stays. *)
Lemma pre_pack_removes_meta_directory :
  Str.contains "meta" "metadata" = true /\
  FS.isdir batch5 "/b/obj1/metadata" = true /\
  added (start batch5) (final_world prepacked5) =
    [EvCopytree "/b/obj1" "/b/obj1/temptemptemp";
     EvRemove "/b/obj1/a.txt";
     EvRmtree "/b/obj1/metadata";
     EvRmtree "/b/obj1/sub";
     EvRename "/b/obj1/temptemptemp" "/b/obj1/obj1"] /\
  FS.exists_ (w_fs (final_world prepacked5)) "/b/obj1/metadata" = false /\
  FS.file_at (w_fs (final_world prepacked5)) "/b/obj1/metadata.csv" = Some "m".
Proof. vm_compute. repeat split. Qed.

Lemma pre_pack_copy_prune_rename_witness :
  let es := [("metadata.csv", File "m"); ("a.txt", File "AAAA");
             ("metadata", Dir [("r.xml", File "x")]);
             ("sub", Dir [("c.bin", File "CC")])] in
  let w := start batch5 in
  let w' := final_world prepacked5 in
  let olditempath := path.join "/b" "obj1" in
  let temppath := path.join olditempath "temptemptemp" in
  let newdirpath := path.join olditempath (path.basename olditempath) in
  exists before fs1 prunes fs2 after,
    steps_since w w'
      (before ++ (EvCopytree olditempath temppath, fs1) :: prunes ++
       (EvRename temppath newdirpath, fs2) :: after) /\
    Forall (fun s => FS.lookup s temppath = Some (Dir es)) (fs1 :: disks prunes) /\
    Forall (fun e => exists t, t <> "temptemptemp" /\
              ((e = EvRmtree (path.join olditempath t) /\
                FS.is_dir (FS.assoc t es) = true) \/
               (e = EvRemove (path.join olditempath t) /\
                FS.is_file (FS.assoc t es) = true /\ Str.contains "meta" t = false)))
           (events prunes) /\
    (forall t, FS.is_dir (FS.assoc t es) = true ->
               In (EvRmtree (path.join olditempath t)) (events prunes)) /\
    (forall t, FS.is_file (FS.assoc t es) = true -> Str.contains "meta" t = false ->
               In (EvRemove (path.join olditempath t)) (events prunes)) /\
    (forall t d, FS.assoc t es = Some (File d) -> Str.contains "meta" t = true ->
                 FS.file_at (w_fs w') (path.join olditempath t) = Some d) /\
    FS.lookup (w_fs w') newdirpath = Some (Dir es).
Proof.
  cbv zeta.
  apply (pre_pack_copy_prune_rename "/b" ["obj1"; "readme.txt"] (start batch5)
           (final_world prepacked5)).
  - discriminate.
  - reflexivity.
  - reflexivity.
  - reflexivity.
  - repeat constructor; simpl; intuition discriminate.
  - repeat constructor.
  - intros item es [<-|[<-|[]]] H; vm_compute in H; inversion H; subst.
    split; [repeat constructor; simpl; intuition discriminate | repeat constructor].
  - vm_compute. reflexivity.
  - left. reflexivity.
  - reflexivity.
Defined.

End PrePackExamples.

(* ================================================================== *)
(** * Worked runs of the further properties *)

Section MetadataRuns.

Import Demo Examples ExamplesMore FS DictCsv.

Lemma make_rdf_renders_last_row_witness :
  exists m,
    file_at (w_fs (final_world (make_rdf "/b/obj1/metadata.csv" (start batch1))))
            "/b/obj1/metadata.xml" = Some (serialize_pretty_xml m).
Proof.
  assert (E : make_rdf "/b/obj1/metadata.csv" (start batch1) =
              Ok true (final_world (make_rdf "/b/obj1/metadata.csv" (start batch1))))
    by (vm_compute; reflexivity).
  destruct (make_rdf_renders_last_row "/b/obj1/metadata.csv" (start batch1) record1 true _
              eq_refl E)
    as (_ & front & r & m & _ & _ & Hf & _).
  exists m. exact Hf.
Defined.

Lemma make_rdf_writes_nothing_without_a_row_witness :
  make_rdf "/b/obj1/metadata.csv" (start batch6) =
  Ok false (mkWorld batch6
              [(EvWarning "Error: The 'metadata.csv' was not found.
RDF file not created.", batch6)] 0 0 0).
Proof.
  apply (proj1 (make_rdf_writes_nothing_without_a_row "/b/obj1/metadata.csv" (start batch6))).
  reflexivity.
Defined.

Lemma meta_from_csv_counts_agree_witness :
  meta_from_csv "/ledger.csv" "Local ID" "/b" (start batch6) =
    Ok (1, 1) (final_world (meta_from_csv "/ledger.csv" "Local ID" "/b" (start batch6))) /\
  1 = 1.
Proof.
  assert (E : meta_from_csv "/ledger.csv" "Local ID" "/b" (start batch6) =
              Ok (1, 1) (final_world (meta_from_csv "/ledger.csv" "Local ID" "/b"
                                                    (start batch6))))
    by (vm_compute; reflexivity).
  split; [exact E|].
  exact (meta_from_csv_counts_agree "/ledger.csv" "Local ID" "/b" (start batch6) 1 1 _ E).
Defined.

Lemma meta_from_csv_unknown_id_column_witness :
  meta_from_csv "/ledger.csv" "ID" "/b" (start batch6) =
  Raise KeyError (mkWorld batch6 [(EvOpenRead "/ledger.csv", batch6)] 0 0 0).
Proof.
  apply (meta_from_csv_unknown_id_column "/ledger.csv" "ID" "/b" (start batch6) ledger1 [row1]).
  - reflexivity.
  - vm_compute. reflexivity.
  - simpl. intuition discriminate.
  - exists row1. split; [left; reflexivity | discriminate].
Defined.

Lemma long_row_leaves_header_only_witness :
  let s := {| nfiles := 0; rfiles := 0; overwrite_all := false; firstone := true |} in
  file_at (w_fs (final_world
                   (meta_row "Local ID" "/b" verifyHeadrs (dict_row verifyHeadrs long_row1) s
                             (start batch6))))
          "/b/obj1/metadata.csv" = Some (csv_writerow verifyHeadrs).
Proof.
  cbv zeta.
  assert (Hlen : List.length verifyHeadrs < List.length long_row1) by (vm_compute; lia).
  destruct (long_row_leaves_header_only "Local ID" "/b" verifyHeadrs long_row1
              {| nfiles := 0; rfiles := 0; overwrite_all := false; firstone := true |}
              (start batch6) "obj1" Hlen eq_refl) as [_ H].
  assert (E : meta_row "Local ID" "/b" verifyHeadrs (dict_row verifyHeadrs long_row1)
                {| nfiles := 0; rfiles := 0; overwrite_all := false; firstone := true |}
                (start batch6) =
              Raise ValueError
                (final_world
                   (meta_row "Local ID" "/b" verifyHeadrs (dict_row verifyHeadrs long_row1)
                      {| nfiles := 0; rfiles := 0; overwrite_all := false; firstone := true |}
                      (start batch6))))
    by (vm_compute; reflexivity).
  destruct (H _ E) as [Hf _].
  exact Hf.
Defined.

Lemma meta_row_writes_record_witness :
  let s := {| nfiles := 0; rfiles := 0; overwrite_all := false; firstone := true |} in
  file_at (w_fs (final_world
                   (meta_row "Local ID" "/b" verifyHeadrs (dict_row verifyHeadrs row1) s
                             (start batch6))))
          "/b/obj1/metadata.csv" = Some ledger1.
Proof.
  cbv zeta.
  destruct (meta_row_writes_record "Local ID" "/b" verifyHeadrs row1
              {| nfiles := 0; rfiles := 0; overwrite_all := false; firstone := true |}
              (start batch6)
              {| nfiles := 1; rfiles := 1; overwrite_all := false; firstone := true |}
              (final_world
                 (meta_row "Local ID" "/b" verifyHeadrs (dict_row verifyHeadrs row1)
                    {| nfiles := 0; rfiles := 0; overwrite_all := false; firstone := true |}
                    (start batch6)))
              "obj1") as (Hf & _).
  - repeat constructor; simpl; intuition discriminate.
  - vm_compute. lia.
  - reflexivity.
  - reflexivity.
  - reflexivity.
  - reflexivity.
  - vm_compute. reflexivity.
  - exact Hf.
Defined.

End MetadataRuns.

Section RegistrationRuns.

Import Demo Examples ExamplesMore FS Registration.

Lemma register_short_record_untouched_witness :
  exists w',
    register_entry "/b" "/b/log4preservation.csv" "obj1" {| renamed := 0; rfiles := 0 |}
                   (start batch7) = Raise IndexError w' /\
    w_fs w' = batch7.
Proof.
  assert (Hc : cell (csv_reader (csv_writerow ["System UUID"; "Local ID"; "Dept"] +++
                                 csv_writerow [""; "obj1"; "Dept"])) 3 = None)
    by (vm_compute; reflexivity).
  destruct (register_short_record_untouched "/b" "/b/log4preservation.csv" "obj1"
              {| renamed := 0; rfiles := 0 |} (start batch7) _ eq_refl eq_refl Hc)
    as (w' & Hr & Hfs & _).
  exists w'. split; [exact Hr | exact Hfs].
Defined.

Lemma registered_object_on_disk_witness :
  let w' := final_world (register_entry "/b" "/b/log4preservation.csv" "obj1"
                           {| renamed := 0; rfiles := 0 |} (start batch1)) in
  isdir (w_fs w') "/b/vtdata_00000000-0000-4000-8000-000000000000" = true /\
  exists_ (w_fs w') "/b/obj1" = false /\
  file_at (w_fs w') "/b/vtdata_00000000-0000-4000-8000-000000000000/a.txt" = Some "AAAA".
Proof.
  cbv zeta.
  destruct (registered_object_on_disk "/b" "obj1" {| renamed := 0; rfiles := 0 |}
              (start batch1) {| renamed := 1; rfiles := 1 |}
              (final_world (register_entry "/b" "/b/log4preservation.csv" "obj1"
                              {| renamed := 0; rfiles := 0 |} (start batch1))))
    as (text & header & old & cells & more & log2 & log4 &
        _ & _ & _ & _ & Hd & Hgone & _ & _ & Hfiles).
  - discriminate.
  - reflexivity.
  - reflexivity.
  - reflexivity.
  - vm_compute. reflexivity.
  - reflexivity.
  - reflexivity.
  - vm_compute. reflexivity.
  - split; [exact Hd|]. split; [apply Hgone; discriminate|].
    exact (Hfiles "a.txt" eq_refl ltac:(discriminate) ltac:(discriminate)).
Defined.

End RegistrationRuns.

Section ArchiveRuns.

Import Demo DemoMore Examples ExamplesMore FS.

Lemma run_tar_counts_every_entry_witness :
  exists c w',
    run_tar_loop "/data/batch.2019" (start batch4) = Ok c w' /\
    tarfiles c + alreadytar c + notfolder c = 3.
Proof.
  exists {| tarfiles := 1; alreadytar := 1; notfolder := 1 |},
         (final_world (run_tar_loop "/data/batch.2019" (start batch4))).
  assert (E : run_tar_loop "/data/batch.2019" (start batch4) =
              Ok {| tarfiles := 1; alreadytar := 1; notfolder := 1 |}
                 (final_world (run_tar_loop "/data/batch.2019" (start batch4))))
    by (vm_compute; reflexivity).
  split; [exact E|].
  destruct (run_tar_counts_every_entry "/data/batch.2019" (start batch4) _ _ E)
    as (fs1 & names & _ & _ & Hn).
  reflexivity.
Defined.

Lemma run_tar_archives_directory_witness :
  exists es,
    file_at (w_fs (final_world
                     (run_tar_entry "/data/batch.2019" "/data/batch-tarred" "x.1" counts0
                                    tar_world)))
            "/data/batch-tarred/x.tar" = Some (tar_bytes "x.1" (Dir es)).
Proof.
  assert (E : run_tar_entry "/data/batch.2019" "/data/batch-tarred" "x.1" counts0 tar_world =
              Ok {| tarfiles := 1; alreadytar := 0; notfolder := 0 |}
                 (final_world
                    (run_tar_entry "/data/batch.2019" "/data/batch-tarred" "x.1" counts0
                                   tar_world)))
    by (vm_compute; reflexivity).
  destruct (run_tar_archives_directory "/data/batch.2019" "/data/batch-tarred" "x.1" counts0
              tar_world _ _ eq_refl eq_refl E)
    as (fs1 & es & _ & Hl & Hf & _).
  exists es. exact Hf.
Defined.

Lemma pre_pack_staging_name_taken_witness :
  PrePack.pre_pack_item "/b" "obj1" (start batch8) = Raise OSError (start batch8).
Proof.
  apply (pre_pack_staging_name_taken "/b" "obj1"
           [("a.txt", File "AAAA"); ("temptemptemp", File "t")] (start batch8)).
  - discriminate.
  - reflexivity.
  - reflexivity.
  - reflexivity.
  - discriminate.
Defined.

Lemma trans_manifest_cancels_witness :
  exists w',
    Transfer.trans_manifest "/data/batch.2019" (start batch4) = Ok tt w' /\
    w_fs w' = batch4.
Proof.
  pose proof (trans_manifest_cancels "/data/batch.2019" (start batch4)) as H.
  destruct (H eq_refl) as (w' & Hr & Hfs & _).
  exists w'. split; [exact Hr | exact Hfs].
Defined.

Lemma trans_manifest_lists_every_file_witness :
  exists lines,
    file_at (w_fs (final_world (Transfer.trans_manifest "/data/batch" (start batch9))))
            "/data/Transfer_batch-tarred_0627_120000.csv" = Some (cat lines).
Proof.
  assert (E : Transfer.trans_manifest "/data/batch" (start batch9) =
              Ok tt (final_world (Transfer.trans_manifest "/data/batch" (start batch9))))
    by (vm_compute; reflexivity).
  pose proof (trans_manifest_lists_every_file "/data/batch" (start batch9)) as H.
  destruct (H _ eq_refl E)
    as (asked & fs_a & n & lines & st & _ & Hn & Hf & Hl & _).
  exists lines. exact Hf.
Defined.

End ArchiveRuns.

Section MenuRuns.

Import Demo Examples ExamplesMore FS DictCsv Headers.

Lemma menu_offers_ledger_columns_witness :
  exists first menu w',
    get_headers "/ledger.csv" (start batch6) = Ok (first, menu) w' /\
    fieldnames (csv_reader ledger1) = Some menu /\
    hd_error menu = Some first.
Proof.
  assert (E : get_headers "/ledger.csv" (start batch6) =
              Ok ("System UUID", verifyHeadrs)
                 (final_world (get_headers "/ledger.csv" (start batch6))))
    by (vm_compute; reflexivity).
  destruct (menu_offers_ledger_columns "/ledger.csv" (start batch6) ledger1 _ _ _
              eq_refl eq_refl E) as (Hm & Hh & _).
  eexists _, _, _. split; [exact E|]. split; [exact Hm | exact Hh].
Defined.

Lemma get_headers_without_header_witness :
  get_headers "/b/obj1/a.txt" (start batch6) =
  Ok ("Select CSV", placeholder_opts) (start batch6).
Proof.
  apply (proj1 (get_headers_without_header "/b/obj1/a.txt" (start batch6))).
  right. discriminate.
Defined.

End MenuRuns.

Section StageRuns.

Import Demo DemoMore Examples ExamplesMore FS Inventory Bagging Procs.

Lemma run_procs_refuses_witness :
  exists msg,
    run_procs empty_form (start batch4) =
    Ok tt (mkWorld batch4 [(EvWarning msg, batch4)] 0 0 0).
Proof.
  apply (run_procs_refuses empty_form (start batch4)). left. reflexivity.
Defined.

Lemma run_procs_ignores_bagging_answer_witness :
  run_procs bag_tar_form (start batch4) =
  run_procs_with (fun p d n => b <- run_bagit p d n ;; ret (negb b)) bag_tar_form
                 (start batch4).
Proof.
  apply (run_procs_ignores_bagging_answer
           (fun p d n => b <- run_bagit p d n ;; ret (negb b)) bag_tar_form (start batch4)).
  intros p d n w0. unfold bind, forget.
  destruct (run_bagit p d n w0); reflexivity.
Defined.

Lemma inventory_rerun_writes_nothing_witness :
  exists w',
    inventory_loop "/b" (start batch10) = Ok 0 w' /\ w_fs w' = batch10.
Proof.
  destruct (inventory_rerun_writes_nothing "/b" (start batch10) ["obj1"; "notes.txt"] eq_refl)
    as (w' & l & Hr & Hfs & _).
  - intros obj [<-|[<-|[]]] H; [reflexivity | vm_compute in H; discriminate H].
  - exists w'. split; [exact Hr | exact Hfs].
Defined.

Lemma run_bagit_counts_bounded_witness :
  exists c w',
    run_bagit_loop "/data/batch.2019" (start batch4) = Ok c w' /\
    validbags c <= totalbags c <= 3.
Proof.
  assert (E : run_bagit_loop "/data/batch.2019" (start batch4) =
              Ok {| validbags := 2; totalbags := 2 |}
                 (final_world (run_bagit_loop "/data/batch.2019" (start batch4))))
    by (vm_compute; reflexivity).
  destruct (run_bagit_counts_bounded "/data/batch.2019" (start batch4) _ _ E)
    as (names & Hl & Hc).
  eexists _, _. split; [exact E|].
  vm_compute in Hl. inversion Hl; subst names. exact Hc.
Defined.

End StageRuns.
